(** * NYC urban intelligence: connector, ingestion service and message queue

    A shallow embedding of three JavaScript classes,

    - [BaseConnector]        (src/connectors/base/BaseConnector.js),
    - [MessageQueue]         (src/pipeline/ingestion/MessageQueue.js),
    - [DataIngestionService] (src/pipeline/ingestion/DataIngestionService.js),

    and the properties of their polling, circuit-breaker, validation,
    dead-letter and identifier logic.

    Conventions of the embedding.

    - A method of a class is a computation in the monad [M σ], where [σ] is
      the type of the object [this]: it reads and writes the object, may
      throw, and talks to the JavaScript runtime ([Date.now()],
      [Math.random()], [emit], external I/O).
    - [Date.now()] and [Math.random()] are oracles: the [n]-th call returns
      the [n]-th element of a sequence that is part of the runtime.
    - An [async] method is run up to the completion of what it awaits; the
      outcome of an awaited external operation is an oracle as well.  Where
      interleaving matters (the poll cycle of a connector) the method is
      split at its [await].
    - A record that a connector hands over has the fields the transformers
      of the connectors give it: [timestamp] is a number or absent, [source]
      a string or absent; the other fields are carried along uninterpreted.
    - Listeners are the ones this code base registers; they do not throw.
    - Logging is not modelled. *)

From Stdlib Require Import ZArith QArith Floats List String Ascii Bool Lia.
From Stdlib Require Import Qpower Lqa.
From Stdlib Require Import DecimalString DecimalZ.
From stdpp Require Import gmap strings list fin_maps.

Local Open Scope string_scope.
Local Open Scope Z_scope.

(** ** JavaScript values and completions *)

Module JS.

(** An [Error] object, identified by its message. *)
Inductive error : Type := Error (message : string).

Definition message (e : error) : string := let 'Error m := e in m.

(** How the evaluation of a call ends: normally with a value, or abruptly
    with a thrown error. *)
Inductive completion (A : Type) : Type :=
| Normal (a : A)
| Throw (e : error).
Arguments Normal {A} a.
Arguments Throw {A} e.

(** Numbers of the program that need not be integers.  JavaScript computes
    them in IEEE 754 binary64; the interface lets the same code be read
    over the rationals as well. *)
Class Number (num : Type) : Type := {
  of_Z : Z -> num;
  add : num -> num -> num;
  mul : num -> num -> num;
  div : num -> num -> num
}.

#[export] Instance Number_Q : Number Q := {
  of_Z := inject_Z;
  add := Qplus;
  mul := Qmult;
  div := Qdiv
}.

Definition float_of_Z (z : Z) : float :=
  if z <? 0 then PrimFloat.opp (PrimFloat.of_uint63 (Uint63.of_Z (- z)))
  else PrimFloat.of_uint63 (Uint63.of_Z z).

#[export] Instance Number_binary64 : Number float := {
  of_Z := float_of_Z;
  add := PrimFloat.add;
  mul := PrimFloat.mul;
  div := PrimFloat.div
}.

(** Template-literal rendering of an integer number. *)
Definition string_of_Z (z : Z) : string := NilEmpty.string_of_int (Z.to_int z).

(** [s.substr(start, length)]. *)
Definition substr (start length : nat) (s : string) : string :=
  String.substring start length s.

End JS.
Export JS.

(** ** Data model *)

(** The [ingestion] block that the service adds to a record. *)
Record ingestion : Type := {
  ing_connector : string;
  receivedAt : Z;
  serviceVersion : string;
  messageId : string
}.

(** The object a connector emits.  [timestamp] is epoch milliseconds and
    [source] a string; [None] stands for a field that is absent or null.
    The remaining fields are kept as they are. *)
Record record : Type := {
  timestamp : option Z;
  source : option string;
  ingestion_of : option ingestion;
  others : list (string * string)
}.

(** What [fetchData] may resolve to: a record, or a primitive value. *)
Inductive value : Type :=
| VUndefined
| VNull
| VBool (b : bool)
| VNum (n : Z)
| VStr (s : string)
| VRec (r : record).

(** ToBoolean. *)
Definition truthy (v : value) : bool :=
  match v with
  | VUndefined | VNull => false
  | VBool b => b
  | VNum n => negb (n =? 0)
  | VStr s => negb (String.eqb s "")
  | VRec _ => true
  end.

(** ToBoolean of a field that holds a number, respectively a string. *)
Definition truthy_num (o : option Z) : bool :=
  match o with Some n => negb (n =? 0) | None => false end.

Definition truthy_str (o : option string) : bool :=
  match o with Some s => negb (String.eqb s "") | None => false end.

Definition empty_object : record :=
  {| timestamp := None; source := None; ingestion_of := None; others := [] |}.

(** The own enumerable properties that [{...v}] copies: those of an object,
    the indexed characters of a string, nothing for another primitive. *)
Definition spread (v : value) : record :=
  match v with
  | VRec r => r
  | VStr s =>
      {| timestamp := None; source := None; ingestion_of := None;
         others := imap (fun i c => (string_of_Z (Z.of_nat i), String c ""))
                        (list_ascii_of_string s) |}
  | _ => empty_object
  end.

(** [{...r, ingestion: i}]. *)
Definition with_ingestion (r : record) (i : ingestion) : record :=
  {| timestamp := timestamp r; source := source r;
     ingestion_of := Some i; others := others r |}.

(** The entry written to the dead-letter topic ([error.stack] is left out). *)
Record dead_letter : Type := {
  originalData : value;
  dl_error_message : string;
  dl_error_timestamp : Z;
  dl_connector : string;
  failureTime : Z
}.

(** What the program publishes. *)
Inductive payload : Type :=
| PRecord (r : record)
| PDeadLetter (d : dead_letter)
| PTest.

(** The [metadata] argument of [publish]; [None] is an absent key. *)
Record metadata_arg : Type := {
  arg_source : option string;
  arg_version : option string;
  arg_extra : list (string * string)
}.

Record metadata : Type := {
  md_source : string;
  md_version : string;
  md_extra : list (string * string)
}.

(** The envelope [messageData] built by [publish]. *)
Record QueueMessage : Type := {
  id : string;
  msg_timestamp : Z;
  topic : string;
  data : payload;
  msg_metadata : metadata
}.

(** The events of the three emitters. *)
Inductive signal : Type :=
| SigStart
| SigStop
| SigData (d : value)
| SigError (e : error)
| SigCircuitBreakerOpen
| SigCircuitBreakerClosed
| SigPublished (topic messageId : string)
| SigConnectorRegistered (name : string)
| SigConnectorStarted (name : string)
| SigConnectorStopped (name : string)
| SigDataIngested (connector : string) (d : record) (at_time : Z)
| SigConnectorError (connector : string) (e : error) (d : value) (at_time : Z).

(** ** The runtime and the monad of methods *)

Record runtime : Type := {
  clock : nat -> Z;                 (* the results of Date.now(), in order *)
  random36 : nat -> string;         (* Math.random().toString(36), in order *)
  io : nat -> completion unit;      (* outcomes of external operations, in order *)
  ticks : nat;                      (* calls of Date.now() so far *)
  draws : nat;                      (* calls of Math.random() so far *)
  ios : nat;                        (* external operations so far *)
  emitted : list signal;            (* events emitted so far *)
  awaiting : list Z;                (* poll cycles suspended at their await, by start time *)
  immediates : list (string * QueueMessage);  (* pending setImmediate deliveries *)
  invoked : list (nat * QueueMessage)    (* calls of subscribed handlers so far *)
}.

Definition boot (c : nat -> Z) (r : nat -> string) (o : nat -> completion unit) : runtime :=
  {| clock := c; random36 := r; io := o; ticks := 0; draws := 0; ios := 0;
     emitted := []; awaiting := []; immediates := []; invoked := [] |}.

Definition tick (r : runtime) : runtime :=
  {| clock := clock r; random36 := random36 r; io := io r;
     ticks := S (ticks r); draws := draws r; ios := ios r; emitted := emitted r;
     awaiting := awaiting r; immediates := immediates r; invoked := invoked r |}.

Definition draw (r : runtime) : runtime :=
  {| clock := clock r; random36 := random36 r; io := io r;
     ticks := ticks r; draws := S (draws r); ios := ios r; emitted := emitted r;
     awaiting := awaiting r; immediates := immediates r; invoked := invoked r |}.

Definition operate (r : runtime) : runtime :=
  {| clock := clock r; random36 := random36 r; io := io r;
     ticks := ticks r; draws := draws r; ios := S (ios r); emitted := emitted r;
     awaiting := awaiting r; immediates := immediates r; invoked := invoked r |}.

Definition record_signal (s : signal) (r : runtime) : runtime :=
  {| clock := clock r; random36 := random36 r; io := io r;
     ticks := ticks r; draws := draws r; ios := ios r; emitted := emitted r ++ [s];
     awaiting := awaiting r; immediates := immediates r; invoked := invoked r |}.

Definition set_awaiting (l : list Z) (r : runtime) : runtime :=
  {| clock := clock r; random36 := random36 r; io := io r;
     ticks := ticks r; draws := draws r; ios := ios r; emitted := emitted r;
     awaiting := l; immediates := immediates r; invoked := invoked r |}.

Definition set_immediates (l : list (string * QueueMessage)) (r : runtime) : runtime :=
  {| clock := clock r; random36 := random36 r; io := io r;
     ticks := ticks r; draws := draws r; ios := ios r; emitted := emitted r;
     awaiting := awaiting r; immediates := l; invoked := invoked r |}.

Definition record_calls (l : list (nat * QueueMessage)) (r : runtime) : runtime :=
  {| clock := clock r; random36 := random36 r; io := io r;
     ticks := ticks r; draws := draws r; ios := ios r; emitted := emitted r;
     awaiting := awaiting r; immediates := immediates r; invoked := invoked r ++ l |}.

Record world (σ : Type) : Type := { this : σ; rt : runtime }.
Arguments this {σ} w.
Arguments rt {σ} w.
Arguments Build_world {σ} this rt.

Definition M (σ A : Type) : Type := world σ -> completion A * world σ.

Section Monad.
Context {σ : Type}.

Definition ret {A} (a : A) : M σ A := fun w => (Normal a, w).

Definition bind {A B} (m : M σ A) (k : A -> M σ B) : M σ B :=
  fun w => match m w with
           | (Normal a, w') => k a w'
           | (Throw e, w') => (Throw e, w')
           end.

Definition throw {A} (e : error) : M σ A := fun w => (Throw e, w).

(** [try { m } catch (error) { h error }] *)
Definition try_catch {A} (m : M σ A) (h : error -> M σ A) : M σ A :=
  fun w => match m w with
           | (Throw e, w') => h e w'
           | r => r
           end.

(** [await p] for a promise that settles with [outcome]. *)
Definition await {A} (outcome : completion A) : M σ A := fun w => (outcome, w).

Definition get : M σ σ := fun w => (Normal (this w), w).

Definition gets {A} (f : σ -> A) : M σ A := fun w => (Normal (f (this w)), w).

Definition modify (f : σ -> σ) : M σ unit :=
  fun w => (Normal tt, {| this := f (this w); rt := rt w |}).

Definition with_rt (f : runtime -> runtime) : M σ unit :=
  fun w => (Normal tt, {| this := this w; rt := f (rt w) |}).

Definition Date_now : M σ Z :=
  fun w => (Normal (clock (rt w) (ticks (rt w))), {| this := this w; rt := tick (rt w) |}).

Definition Math_random_toString36 : M σ string :=
  fun w => (Normal (random36 (rt w) (draws (rt w))), {| this := this w; rt := draw (rt w) |}).

(** An awaited operation of an external library: it resolves or rejects. *)
Definition external : M σ unit :=
  fun w => (io (rt w) (ios (rt w)), {| this := this w; rt := operate (rt w) |}).

Definition emit (s : signal) : M σ unit := with_rt (record_signal s).

Definition when (b : bool) (m : M σ unit) : M σ unit := if b then m else ret tt.
End Monad.

Declare Scope js_scope.
Delimit Scope js_scope with js.
Notation "x <- m ;; k" := (bind m (fun x => k))
  (at level 100, m at next level, k at level 200, right associativity, only parsing) : js_scope.
Notation "m ;; k" := (bind m (fun _ => k))
  (at level 100, k at level 200, right associativity, only parsing) : js_scope.
Local Open Scope js_scope.

(** Run a method of a component [τ] that [σ] holds in one of its fields. *)
Definition zoom {σ τ A} (proj : σ -> τ) (inj : τ -> σ -> σ) (m : M τ A) : M σ A :=
  fun w => let '(r, w') := m {| this := proj (this w); rt := rt w |} in
           (r, {| this := inj (this w') (this w); rt := rt w' |}).

(** ** BaseConnector *)

Module BaseConnector.

Record config : Type := {
  pollInterval : Z;
  maxRetries : Z;
  retryDelay : Z;
  circuitBreakerTimeout : Z;
  timeout : Z
}.

(** The defaults of the constructor. *)
Definition default_config : config :=
  {| pollInterval := 30000; maxRetries := 3; retryDelay := 5000;
     circuitBreakerTimeout := 60000; timeout := 10000 |}.

(** The callbacks the connector hands to [setTimeout], and the [Timeout]
    object that [setTimeout] returns. *)
Inductive callback : Type := CallPollData | CallCloseCircuitBreaker.

Record Timeout : Type := { callback_of : callback; delay : Z }.

Definition setTimeout (f : callback) (ms : Z) : Timeout :=
  {| callback_of := f; delay := ms |}.

Inductive health_status : Type :=
| healthy | circuit_breaker_open | unhealthy | degraded.

Section Connector.
Context {num : Type} `{Number num}.

Record metrics : Type := {
  totalFetches : Z;
  successfulFetches : Z;
  failedFetches : Z;
  avgResponseTime : num;
  lastFetchTime : option Z
}.

Record connector : Type := {
  config_of : config;
  isRunning : bool;
  retryCount : Z;
  circuitBreakerOpen : bool;
  lastPollTime : option Z;
  lastSuccessTime : option Z;
  pollTimer : option Timeout;
  circuitBreakerTimer : option Timeout;
  metrics_of : metrics
}.

Record health : Type := {
  status : health_status;
  h_isRunning : bool;
  h_circuitBreakerOpen : bool;
  timeSinceLastSuccess : option Z;
  successRate : num
}.

(** *** Assignments to the fields *)

Definition set_isRunning (b : bool) (c : connector) : connector :=
  {| config_of := config_of c; isRunning := b; retryCount := retryCount c;
     circuitBreakerOpen := circuitBreakerOpen c; lastPollTime := lastPollTime c;
     lastSuccessTime := lastSuccessTime c; pollTimer := pollTimer c;
     circuitBreakerTimer := circuitBreakerTimer c; metrics_of := metrics_of c |}.

Definition set_retryCount (n : Z) (c : connector) : connector :=
  {| config_of := config_of c; isRunning := isRunning c; retryCount := n;
     circuitBreakerOpen := circuitBreakerOpen c; lastPollTime := lastPollTime c;
     lastSuccessTime := lastSuccessTime c; pollTimer := pollTimer c;
     circuitBreakerTimer := circuitBreakerTimer c; metrics_of := metrics_of c |}.

Definition set_circuitBreakerOpen (b : bool) (c : connector) : connector :=
  {| config_of := config_of c; isRunning := isRunning c; retryCount := retryCount c;
     circuitBreakerOpen := b; lastPollTime := lastPollTime c;
     lastSuccessTime := lastSuccessTime c; pollTimer := pollTimer c;
     circuitBreakerTimer := circuitBreakerTimer c; metrics_of := metrics_of c |}.

Definition set_lastPollTime (t : option Z) (c : connector) : connector :=
  {| config_of := config_of c; isRunning := isRunning c; retryCount := retryCount c;
     circuitBreakerOpen := circuitBreakerOpen c; lastPollTime := t;
     lastSuccessTime := lastSuccessTime c; pollTimer := pollTimer c;
     circuitBreakerTimer := circuitBreakerTimer c; metrics_of := metrics_of c |}.

Definition set_lastSuccessTime (t : option Z) (c : connector) : connector :=
  {| config_of := config_of c; isRunning := isRunning c; retryCount := retryCount c;
     circuitBreakerOpen := circuitBreakerOpen c; lastPollTime := lastPollTime c;
     lastSuccessTime := t; pollTimer := pollTimer c;
     circuitBreakerTimer := circuitBreakerTimer c; metrics_of := metrics_of c |}.

Definition set_pollTimer (t : option Timeout) (c : connector) : connector :=
  {| config_of := config_of c; isRunning := isRunning c; retryCount := retryCount c;
     circuitBreakerOpen := circuitBreakerOpen c; lastPollTime := lastPollTime c;
     lastSuccessTime := lastSuccessTime c; pollTimer := t;
     circuitBreakerTimer := circuitBreakerTimer c; metrics_of := metrics_of c |}.

Definition set_circuitBreakerTimer (t : option Timeout) (c : connector) : connector :=
  {| config_of := config_of c; isRunning := isRunning c; retryCount := retryCount c;
     circuitBreakerOpen := circuitBreakerOpen c; lastPollTime := lastPollTime c;
     lastSuccessTime := lastSuccessTime c; pollTimer := pollTimer c;
     circuitBreakerTimer := t; metrics_of := metrics_of c |}.

Definition set_metrics (m : metrics) (c : connector) : connector :=
  {| config_of := config_of c; isRunning := isRunning c; retryCount := retryCount c;
     circuitBreakerOpen := circuitBreakerOpen c; lastPollTime := lastPollTime c;
     lastSuccessTime := lastSuccessTime c; pollTimer := pollTimer c;
     circuitBreakerTimer := circuitBreakerTimer c; metrics_of := m |}.

Definition incr_totalFetches (m : metrics) : metrics :=
  {| totalFetches := totalFetches m + 1; successfulFetches := successfulFetches m;
     failedFetches := failedFetches m; avgResponseTime := avgResponseTime m;
     lastFetchTime := lastFetchTime m |}.

Definition incr_successfulFetches (m : metrics) : metrics :=
  {| totalFetches := totalFetches m; successfulFetches := successfulFetches m + 1;
     failedFetches := failedFetches m; avgResponseTime := avgResponseTime m;
     lastFetchTime := lastFetchTime m |}.

Definition incr_failedFetches (m : metrics) : metrics :=
  {| totalFetches := totalFetches m; successfulFetches := successfulFetches m;
     failedFetches := failedFetches m + 1; avgResponseTime := avgResponseTime m;
     lastFetchTime := lastFetchTime m |}.

Definition set_avgResponseTime (a : num) (m : metrics) : metrics :=
  {| totalFetches := totalFetches m; successfulFetches := successfulFetches m;
     failedFetches := failedFetches m; avgResponseTime := a;
     lastFetchTime := lastFetchTime m |}.

Definition set_lastFetchTime (t : option Z) (m : metrics) : metrics :=
  {| totalFetches := totalFetches m; successfulFetches := successfulFetches m;
     failedFetches := failedFetches m; avgResponseTime := avgResponseTime m;
     lastFetchTime := t |}.

Definition on_metrics (f : metrics -> metrics) (c : connector) : connector :=
  set_metrics (f (metrics_of c)) c.

(** *** The methods *)

(** [constructor(config)], with [config] merged over the defaults. *)
Definition constructor (cfg : config) : connector :=
  {| config_of := cfg; isRunning := false; retryCount := 0;
     circuitBreakerOpen := false; lastPollTime := None; lastSuccessTime := None;
     pollTimer := None; circuitBreakerTimer := None;
     metrics_of := {| totalFetches := 0; successfulFetches := 0; failedFetches := 0;
                      avgResponseTime := of_Z 0; lastFetchTime := None |} |}.

Definition schedulNextPoll : M connector unit :=
  running <- gets isRunning ;;
  if negb running then ret tt
  else
    open <- gets circuitBreakerOpen ;;
    cfg <- gets config_of ;;
    let delay := if open then circuitBreakerTimeout cfg else pollInterval cfg in
    modify (set_pollTimer (Some (setTimeout CallPollData delay))).

Definition updateAvgResponseTime (newTime : Z) : M connector num :=
  totalFetches <- gets (fun c => successfulFetches (metrics_of c)) ;;
  currentAvg <- gets (fun c => avgResponseTime (metrics_of c)) ;;
  ret (div (add (mul currentAvg (of_Z (totalFetches - 1))) (of_Z newTime))
           (of_Z totalFetches)).

Definition openCircuitBreaker : M connector unit :=
  open <- gets circuitBreakerOpen ;;
  if open then ret tt
  else
    modify (set_circuitBreakerOpen true) ;;
    cfg <- gets config_of ;;
    modify (set_circuitBreakerTimer
              (Some (setTimeout CallCloseCircuitBreaker (circuitBreakerTimeout cfg)))) ;;
    emit SigCircuitBreakerOpen.

Definition closeCircuitBreaker : M connector unit :=
  open <- gets circuitBreakerOpen ;;
  if negb open then ret tt
  else
    modify (set_circuitBreakerOpen false) ;;
    modify (set_retryCount 0) ;;
    timer <- gets circuitBreakerTimer ;;
    when (bool_decide (timer <> None)) (modify (set_circuitBreakerTimer None)) ;;
    emit SigCircuitBreakerClosed.

Definition handleSuccessfulFetch (data : value) (responseTime : Z) : M connector unit :=
  modify (on_metrics incr_successfulFetches) ;;
  avg <- updateAvgResponseTime responseTime ;;
  modify (on_metrics (set_avgResponseTime avg)) ;;
  t <- Date_now ;;
  modify (on_metrics (set_lastFetchTime (Some t))) ;;
  t' <- Date_now ;;
  modify (set_lastSuccessTime (Some t')) ;;
  modify (set_retryCount 0) ;;
  open <- gets circuitBreakerOpen ;;
  when open closeCircuitBreaker ;;
  when (truthy data) (emit (SigData data)).

Definition handleFailedFetch (error : JS.error) (responseTime : Z) : M connector unit :=
  modify (on_metrics incr_failedFetches) ;;
  modify (fun c => set_retryCount (retryCount c + 1) c) ;;
  retries <- gets retryCount ;;
  cfg <- gets config_of ;;
  when (maxRetries cfg <=? retries) openCircuitBreaker ;;
  emit (SigError error).

(** [pollData] up to [await this.fetchData()]: when the breaker is closed
    the fetch is started and the cycle is suspended. *)
Definition pollData_enter : M connector unit :=
  running <- gets isRunning ;;
  if negb running then ret tt
  else
    startTime <- Date_now ;;
    modify (set_lastPollTime (Some startTime)) ;;
    modify (on_metrics incr_totalFetches) ;;
    open <- gets circuitBreakerOpen ;;
    if open then schedulNextPoll
    else with_rt (fun r => set_awaiting (awaiting r ++ [startTime]) r).

(** [pollData] from the point where the fetch that began at [startTime]
    settles with [outcome]. *)
Definition pollData_resume (startTime : Z) (outcome : completion value)
  : M connector unit :=
  try_catch
    (data <- await outcome ;;
     now <- Date_now ;;
     handleSuccessfulFetch data (now - startTime))
    (fun error =>
       now <- Date_now ;;
       handleFailedFetch error (now - startTime)) ;;
  schedulNextPoll.

Definition start : M connector unit :=
  running <- gets isRunning ;;
  if running then ret tt
  else
    modify (set_isRunning true) ;;
    emit SigStart ;;
    pollData_enter.

Definition stop : M connector unit :=
  running <- gets isRunning ;;
  if negb running then ret tt
  else
    modify (set_isRunning false) ;;
    ptimer <- gets pollTimer ;;
    when (bool_decide (ptimer <> None)) (modify (set_pollTimer None)) ;;
    btimer <- gets circuitBreakerTimer ;;
    when (bool_decide (btimer <> None)) (modify (set_circuitBreakerTimer None)) ;;
    emit SigStop.

(** [d > n] for a [d] that is a number or null (null counts as 0). *)
Definition exceeds (d : option Z) (n : Z) : bool :=
  match d with Some d => n <? d | None => n <? 0 end.

Definition getHealth : M connector health :=
  now <- Date_now ;;
  c <- get ;;
  let timeSinceLastSuccess :=
    if truthy_num (lastSuccessTime c)
    then option_map (fun t => now - t) (lastSuccessTime c)
    else None in
  let status :=
    if circuitBreakerOpen c then circuit_breaker_open
    else if truthy_num timeSinceLastSuccess
            && exceeds timeSinceLastSuccess (pollInterval (config_of c) * 3)
    then unhealthy
    else if 0 <? retryCount c then degraded
    else healthy in
  ret {| status := status;
         h_isRunning := isRunning c;
         h_circuitBreakerOpen := circuitBreakerOpen c;
         timeSinceLastSuccess := timeSinceLastSuccess;
         successRate :=
           if 0 <? totalFetches (metrics_of c)
           then div (of_Z (successfulFetches (metrics_of c)))
                    (of_Z (totalFetches (metrics_of c)))
           else of_Z 0 |}.

(** *** The connector in the event loop *)

(** [fetchData] of the [i]-th suspended poll cycle settles with [outcome]
    and the cycle resumes; nothing happens when there is no such cycle. *)
Definition settle (i : nat) (outcome : completion value) : M connector unit :=
  fun w => match awaiting (rt w) !! i with
           | None => (Normal tt, w)
           | Some startTime =>
               pollData_resume startTime outcome
                 {| this := this w; rt := set_awaiting (delete i (awaiting (rt w))) (rt w) |}
           end.

(** A whole run of [pollData] of a connector that has no fetch in flight:
    the fetch, if one is started, settles before anything else happens. *)
Definition pollData (outcome : completion value) : M connector unit :=
  pollData_enter ;; settle 0 outcome.

(** What the event loop may do to a connector.  A timer fires only while
    the connector holds it. *)
Inductive event : Type :=
| Start_called
| Stop_called
| PollTimer_fires
| CircuitBreakerTimer_fires
| Fetch_settles (i : nat) (outcome : completion value)
| GetHealth_called.

Definition step (e : event) (w : world connector) : world connector :=
  match e with
  | Start_called => snd (start w)
  | Stop_called => snd (stop w)
  | PollTimer_fires =>
      match pollTimer (this w) with
      | Some _ => snd (pollData_enter w)
      | None => w
      end
  | CircuitBreakerTimer_fires =>
      match circuitBreakerTimer (this w) with
      | Some _ => snd (closeCircuitBreaker w)
      | None => w
      end
  | Fetch_settles i outcome => snd (settle i outcome w)
  | GetHealth_called => snd (getHealth w)
  end.

Definition run (es : list event) (w : world connector) : world connector :=
  fold_left (fun w e => step e w) es w.

(** The response time that [pollData] measures when [e] happens in [w]
    and is a successful fetch. *)
Definition latency_of (e : event) (w : world connector) : option Z :=
  match e with
  | Fetch_settles i (Normal _) =>
      match awaiting (rt w) !! i with
      | Some startTime => Some (clock (rt w) (ticks (rt w)) - startTime)
      | None => None
      end
  | _ => None
  end.

Fixpoint latencies (es : list event) (w : world connector) : list Z :=
  match es with
  | [] => []
  | e :: es' =>
      match latency_of e w with
      | Some l => l :: latencies es' (step e w)
      | None => latencies es' (step e w)
      end
  end.

End Connector.
Arguments metrics num : clear implicits.
Arguments connector num : clear implicits.
Arguments health num : clear implicits.

End BaseConnector.

(** ** MessageQueue *)

Module MessageQueue.

Inductive queue_type : Type :=
| kafka
| redis
| memory
| unsupported (name : string).

Definition is_memory (t : queue_type) : bool :=
  match t with memory => true | _ => false end.

Record topics : Type := {
  rawData : string;
  processedData : string;
  predictions : string;
  alerts : string
}.

Definition default_topics : topics :=
  {| rawData := "raw-data"; processedData := "processed-data";
     predictions := "predictions"; alerts := "alerts" |}.

(** [Object.values(this.config.topics)]. *)
Definition topic_values (t : topics) : list string :=
  [rawData t; processedData t; predictions t; alerts t].

(** The part of the configuration that the class itself reads. *)
Record config : Type := {
  type : queue_type;
  topics_of : topics
}.

Definition default_config : config :=
  {| type := kafka; topics_of := default_topics |}.

Record queue : Type := {
  config_of : config;
  isConnected : bool;
  messageBuffer : gmap string (list QueueMessage);
  listeners : gmap string (list nat);   (* the handlers of `message:${topic}` *)
  handed_over : list (string * QueueMessage) (* what the broker or store accepted *)
}.

Record health : Type := {
  hc_status : string;
  connected : bool;
  hc_error : option string
}.

Definition set_type (t : queue_type) (q : queue) : queue :=
  {| config_of := {| type := t; topics_of := topics_of (config_of q) |};
     isConnected := isConnected q; messageBuffer := messageBuffer q;
     listeners := listeners q; handed_over := handed_over q |}.

Definition set_isConnected (b : bool) (q : queue) : queue :=
  {| config_of := config_of q; isConnected := b; messageBuffer := messageBuffer q;
     listeners := listeners q; handed_over := handed_over q |}.

Definition set_messageBuffer (m : gmap string (list QueueMessage)) (q : queue) : queue :=
  {| config_of := config_of q; isConnected := isConnected q; messageBuffer := m;
     listeners := listeners q; handed_over := handed_over q |}.

Definition set_listeners (l : gmap string (list nat)) (q : queue) : queue :=
  {| config_of := config_of q; isConnected := isConnected q;
     messageBuffer := messageBuffer q; listeners := l; handed_over := handed_over q |}.

Definition hand_over (t : string) (m : QueueMessage) (q : queue) : queue :=
  {| config_of := config_of q; isConnected := isConnected q;
     messageBuffer := messageBuffer q; listeners := listeners q;
     handed_over := handed_over q ++ [(t, m)] |}.

(** The object under construction; the constructor then calls [setupQueue]. *)
Definition constructor (cfg : config) : queue :=
  {| config_of := cfg; isConnected := false; messageBuffer := ∅;
     listeners := ∅; handed_over := [] |}.

(** The producer and the consumer of the broker become ready, or the client
    reports an error. *)
Definition setupKafka : M queue unit := external.

(** [redis.createClient(...).connect()]. *)
Definition setupRedis : M queue unit := external.

Definition setupMemory : M queue unit :=
  modify (set_messageBuffer ∅) ;;
  ts <- gets (fun q => topic_values (topics_of (config_of q))) ;;
  modify (fun q => set_messageBuffer
                     (fold_left (fun b t => <[t := []]> b) ts (messageBuffer q)) q).

Definition setupQueue : M queue unit :=
  try_catch
    (t <- gets (fun q => type (config_of q)) ;;
     match t with
     | kafka => setupKafka
     | redis => setupRedis
     | memory => setupMemory
     | unsupported name => throw (Error ("Unsupported queue type: " ++ name))
     end ;;
     modify (set_isConnected true))
    (fun error =>
       t <- gets (fun q => type (config_of q)) ;;
       when (negb (is_memory t))
            (modify (set_type memory) ;; setupMemory)).

Definition generateMessageId : M queue string :=
  now <- Date_now ;;
  random <- Math_random_toString36 ;;
  ret ("msg_" ++ string_of_Z now ++ "_" ++ substr 2 9 random).

(** [{source: metadata.source || 'unknown', version: metadata.version || '1.0',
      ...metadata}]: a key of [metadata] overrides the default. *)
Definition build_metadata (a : metadata_arg) : metadata :=
  {| md_source := default "unknown" (arg_source a);
     md_version := default "1.0" (arg_version a);
     md_extra := arg_extra a |}.

Definition publishToKafka (t : string) (messageData : QueueMessage) : M queue unit :=
  external ;;
  modify (hand_over t messageData).

Definition publishToRedis (t : string) (messageData : QueueMessage) : M queue unit :=
  external ;;
  modify (hand_over t messageData).

Definition publishToMemory (t : string) (messageData : QueueMessage) : M queue unit :=
  buffer <- gets messageBuffer ;;
  when (bool_decide (buffer !! t = None))
       (modify (fun q => set_messageBuffer (<[t := []]> (messageBuffer q)) q)) ;;
  modify (fun q => set_messageBuffer
                     (alter (fun l => (l ++ [messageData])%list) t (messageBuffer q)) q) ;;
  with_rt (fun r => set_immediates (immediates r ++ [(t, messageData)]) r).

Definition publish (t : string) (msg : payload) (meta : metadata_arg) : M queue unit :=
  mid <- generateMessageId ;;
  now <- Date_now ;;
  let messageData :=
    {| id := mid; msg_timestamp := now; topic := t; data := msg;
       msg_metadata := build_metadata meta |} in
  try_catch
    (ty <- gets (fun q => type (config_of q)) ;;
     match ty with
     | kafka => publishToKafka t messageData
     | redis => publishToRedis t messageData
     | memory => publishToMemory t messageData
     | unsupported _ => ret tt
     end ;;
     emit (SigPublished t mid))
    (fun error => throw error).

Definition subscribe (t : string) (handler : nat) : M queue unit :=
  modify (fun q => set_listeners
                     (<[t := (default [] (listeners q !! t) ++ [handler])%list]> (listeners q)) q).

Definition unsubscribe (t : string) : M queue unit :=
  modify (fun q => set_listeners (delete t (listeners q)) q).

(** The next [setImmediate] callback runs: [this.emit(`message:${topic}`,
    messageData)] calls the handlers subscribed at that time. *)
Definition run_immediate : M queue unit :=
  fun w => match immediates (rt w) with
           | [] => (Normal tt, w)
           | (t, m) :: rest =>
               (Normal tt,
                {| this := this w;
                   rt := record_calls
                           (map (fun h => (h, m)) (default [] (listeners (this w) !! t)))
                           (set_immediates rest (rt w)) |})
           end.

Definition healthCheck : M queue health :=
  try_catch
    (ty <- gets (fun q => type (config_of q)) ;;
     match ty with
     | kafka =>
         publish "health-check" PTest
                 {| arg_source := Some "health-check"; arg_version := None; arg_extra := [] |}
     | redis => external
     | memory => ret tt
     | unsupported _ => ret tt
     end ;;
     c <- gets isConnected ;;
     ret {| hc_status := "healthy"; connected := c; hc_error := None |})
    (fun error =>
       ret {| hc_status := "unhealthy"; connected := false;
              hc_error := Some (message error) |}).

Definition publishRawData (d : record) (src : string) : M queue unit :=
  ts <- gets (fun q => rawData (topics_of (config_of q))) ;;
  publish ts (PRecord d)
          {| arg_source := Some src; arg_version := None; arg_extra := [] |}.

Definition subscribeToRawData (handler : nat) : M queue unit :=
  ts <- gets (fun q => rawData (topics_of (config_of q))) ;;
  subscribe ts handler.

(** *** The other convenience methods *)

Definition publishProcessedData (d : payload) (processor : string) : M queue unit :=
  ts <- gets (fun q => processedData (topics_of (config_of q))) ;;
  publish ts d
          {| arg_source := None; arg_version := None;
             arg_extra := [("processor", processor)] |}.

Definition publishPrediction (d : payload) (model : string) : M queue unit :=
  ts <- gets (fun q => predictions (topics_of (config_of q))) ;;
  publish ts d
          {| arg_source := None; arg_version := None; arg_extra := [("model", model)] |}.

Definition publishAlert (d : payload) (alertType : string) : M queue unit :=
  ts <- gets (fun q => alerts (topics_of (config_of q))) ;;
  publish ts d
          {| arg_source := None; arg_version := None;
             arg_extra := [("alertType", alertType)] |}.

Definition subscribeToProcessedData (handler : nat) : M queue unit :=
  ts <- gets (fun q => processedData (topics_of (config_of q))) ;;
  subscribe ts handler.

Definition subscribeToPredictions (handler : nat) : M queue unit :=
  ts <- gets (fun q => predictions (topics_of (config_of q))) ;;
  subscribe ts handler.

Definition subscribeToAlerts (handler : nat) : M queue unit :=
  ts <- gets (fun q => alerts (topics_of (config_of q))) ;;
  subscribe ts handler.

(** *** Statistics *)

(** An entry of [stats.queueSizes]: a length, or the string ['error']. *)
Inductive queue_size : Type :=
| Size (n : Z)
| SizeError.

Record stats : Type := {
  st_type : queue_type;
  st_connected : bool;
  st_topics : list string;
  queueSizes : option (gmap string queue_size);   (* [None]: the key is absent *)
  note : option string
}.

(** [Object.keys(this.config.topics)]. *)
Definition topic_keys : list string :=
  ["rawData"; "processedData"; "predictions"; "alerts"].

(** [getStats()].  [lLen i] is what the store answers to the [i]-th
    [redisClient.lLen] of the call. *)
Definition getStats (lLen : nat -> completion Z) : M queue stats :=
  q <- get ;;
  let base :=
    {| st_type := type (config_of q); st_connected := isConnected q;
       st_topics := topic_keys; queueSizes := None; note := None |} in
  match type (config_of q) with
  | memory =>
      ret {| st_type := st_type base; st_connected := st_connected base;
             st_topics := st_topics base;
             queueSizes := Some ((fun messages => Size (Z.of_nat (length messages)))
                                   <$> messageBuffer q);
             note := None |}
  | redis =>
      ret {| st_type := st_type base; st_connected := st_connected base;
             st_topics := st_topics base;
             queueSizes :=
               Some (fold_left
                       (fun sizes it =>
                          <[it.2 := match lLen it.1 with
                                    | Normal n => Size n
                                    | Throw _ => SizeError
                                    end]> sizes)
                       (imap (fun i t => (i, t)) (topic_values (topics_of (config_of q))))
                       ∅);
             note := None |}
  | kafka =>
      ret {| st_type := st_type base; st_connected := st_connected base;
             st_topics := st_topics base; queueSizes := None;
             note := Some "Kafka stats require admin client" |}
  | unsupported _ => ret base
  end.

(** *** Closing *)

(** Whether the set-up has created [this.producer], [this.consumer] and
    [this.redisClient]; the three handles are kept beside the queue. *)
Record clients : Type := {
  producer : bool;
  consumer : bool;
  redisClient : bool
}.

(** [close()].  [producer.close()] and [consumer.close()] are calls into the
    broker library that are not awaited; [redisClient.quit()] is awaited and
    may reject. *)
Definition close (c : clients) : M queue unit :=
  try_catch
    (when (redisClient c) external ;;
     modify (set_isConnected false))
    (fun error => ret tt).

(** The handles that the set-up of a queue configured with [cfg] creates in
    the runtime [r]: [setupKafka] creates the producer at once and the
    consumer when the producer is ready, [setupRedis] creates the client
    before it connects. *)
Definition created (cfg : config) (r : runtime) : clients :=
  match type cfg with
  | kafka =>
      {| producer := true;
         consumer := match io r (ios r) with Normal _ => true | Throw _ => false end;
         redisClient := false |}
  | redis => {| producer := false; consumer := false; redisClient := true |}
  | _ => {| producer := false; consumer := false; redisClient := false |}
  end.

End MessageQueue.

(** ** DataIngestionService *)

Module DataIngestionService.

Record config : Type := {
  maxConcurrentConnectors : Z;
  healthCheckInterval : Z;
  restartUnhealthyConnectors : bool;
  deadLetterQueueEnabled : bool
}.

Definition default_config : config :=
  {| maxConcurrentConnectors := 10; healthCheckInterval := 60000;
     restartUnhealthyConnectors := true; deadLetterQueueEnabled := true |}.

(** The value that [this.connectors] holds for a name ([connectorInfo]),
    without the reference to the connector itself. *)
Record entry : Type := {
  name : string;
  registeredAt : Z;
  lastDataReceived : option Z;
  errorCount : Z;
  dataCount : Z;
  isHealthy : bool
}.

Record metrics : Type := {
  connectorsRegistered : Z;
  connectorsRunning : Z;
  totalDataReceived : Z;
  totalErrorsHandled : Z;
  lastHealthCheck : option Z;
  startTime : option Z
}.

Record service : Type := {
  config_of : config;
  messageQueue : MessageQueue.queue;
  connectors : gmap string entry;
  isRunning : bool;
  metrics_of : metrics
}.

Definition set_messageQueue (q : MessageQueue.queue) (s : service) : service :=
  {| config_of := config_of s; messageQueue := q; connectors := connectors s;
     isRunning := isRunning s; metrics_of := metrics_of s |}.

Definition set_connectors (m : gmap string entry) (s : service) : service :=
  {| config_of := config_of s; messageQueue := messageQueue s; connectors := m;
     isRunning := isRunning s; metrics_of := metrics_of s |}.

Definition set_metrics (m : metrics) (s : service) : service :=
  {| config_of := config_of s; messageQueue := messageQueue s;
     connectors := connectors s; isRunning := isRunning s; metrics_of := m |}.

Definition on_metrics (f : metrics -> metrics) (s : service) : service :=
  set_metrics (f (metrics_of s)) s.

(** An assignment through the reference [connectorInfo]. *)
Definition on_connectorInfo (n : string) (f : entry -> entry) (s : service) : service :=
  set_connectors (alter f n (connectors s)) s.

Definition received (now : Z) (e : entry) : entry :=
  {| name := name e; registeredAt := registeredAt e; lastDataReceived := Some now;
     errorCount := errorCount e; dataCount := dataCount e + 1; isHealthy := true |}.

Definition failed (e : entry) : entry :=
  {| name := name e; registeredAt := registeredAt e;
     lastDataReceived := lastDataReceived e;
     errorCount := errorCount e + 1; dataCount := dataCount e;
     isHealthy := if 5 <? errorCount e + 1 then false else isHealthy e |}.

Definition incr_connectorsRegistered (m : metrics) : metrics :=
  {| connectorsRegistered := connectorsRegistered m + 1;
     connectorsRunning := connectorsRunning m;
     totalDataReceived := totalDataReceived m;
     totalErrorsHandled := totalErrorsHandled m;
     lastHealthCheck := lastHealthCheck m; startTime := startTime m |}.

Definition set_connectorsRunning (n : Z) (m : metrics) : metrics :=
  {| connectorsRegistered := connectorsRegistered m;
     connectorsRunning := n;
     totalDataReceived := totalDataReceived m;
     totalErrorsHandled := totalErrorsHandled m;
     lastHealthCheck := lastHealthCheck m; startTime := startTime m |}.

Definition incr_totalDataReceived (m : metrics) : metrics :=
  {| connectorsRegistered := connectorsRegistered m;
     connectorsRunning := connectorsRunning m;
     totalDataReceived := totalDataReceived m + 1;
     totalErrorsHandled := totalErrorsHandled m;
     lastHealthCheck := lastHealthCheck m; startTime := startTime m |}.

Definition incr_totalErrorsHandled (m : metrics) : metrics :=
  {| connectorsRegistered := connectorsRegistered m;
     connectorsRunning := connectorsRunning m;
     totalDataReceived := totalDataReceived m;
     totalErrorsHandled := totalErrorsHandled m + 1;
     lastHealthCheck := lastHealthCheck m; startTime := startTime m |}.

(** A method of [this.messageQueue]. *)
Definition on_messageQueue {A} (m : M MessageQueue.queue A) : M service A :=
  zoom messageQueue set_messageQueue m.

(** [constructor(config)]: the queue is built from [config.messageQueue],
    and its set-up runs. *)
Definition constructed (cfg : config) (queue_cfg : MessageQueue.config) : service :=
  {| config_of := cfg;
     messageQueue := MessageQueue.constructor queue_cfg;
     connectors := ∅; isRunning := false;
     metrics_of := {| connectorsRegistered := 0; connectorsRunning := 0;
                      totalDataReceived := 0; totalErrorsHandled := 0;
                      lastHealthCheck := None; startTime := None |} |}.

Definition constructor (cfg : config) (queue_cfg : MessageQueue.config) (r : runtime)
  : world service :=
  snd (on_messageQueue MessageQueue.setupQueue
         {| this := constructed cfg queue_cfg; rt := r |}).

Definition generateMessageId : M service string :=
  now <- Date_now ;;
  random <- Math_random_toString36 ;;
  ret ("ing_" ++ string_of_Z now ++ "_" ++ substr 2 9 random).

Definition validateData (d : value) : M service bool :=
  match d with
  | VRec r =>
      if negb (truthy_num (timestamp r)) || negb (truthy_str (source r)) then ret false
      else
        now <- Date_now ;;
        let oneHourAgo := now - 60 * 60 * 1000 in
        let oneMinuteFromNow := now + 60 * 1000 in
        let ts := default 0 (timestamp r) in
        if (ts <? oneHourAgo) || (oneMinuteFromNow <? ts) then ret false
        else ret true
  | _ => ret false        (* [!data || typeof data !== 'object'] *)
  end.

Definition sendToDeadLetterQueue (connectorName : string) (error : JS.error) (d : value)
  : M service unit :=
  try_catch
    (t <- Date_now ;;
     t' <- Date_now ;;
     let deadLetterData :=
       {| originalData := d; dl_error_message := message error;
          dl_error_timestamp := t; dl_connector := connectorName;
          failureTime := t' |} in
     on_messageQueue
       (MessageQueue.publish "dead-letter-queue" (PDeadLetter deadLetterData)
          {| arg_source := Some "data-ingestion-service"; arg_version := None;
             arg_extra := [("errorType", "ingestion-failure")] |}))
    (fun dlqError => ret tt).

(** [handleConnectorError(connectorName, error, data = null)]. *)
Definition handleConnectorError (connectorName : string) (error : JS.error) (d : value)
  : M service unit :=
  connectorInfo <- gets (fun s => connectors s !! connectorName) ;;
  when (bool_decide (connectorInfo <> None))
       (modify (on_connectorInfo connectorName failed)) ;;
  modify (on_metrics incr_totalErrorsHandled) ;;
  cfg <- gets config_of ;;
  when (deadLetterQueueEnabled cfg && truthy d)
       (sendToDeadLetterQueue connectorName error d) ;;
  now <- Date_now ;;
  emit (SigConnectorError connectorName error d now).

Definition handleConnectorData (connectorName : string) (d : value) : M service unit :=
  connectorInfo <- gets (fun s => connectors s !! connectorName) ;;
  if bool_decide (connectorInfo = None) then ret tt
  else
    try_catch
      (now <- Date_now ;;
       modify (on_connectorInfo connectorName (received now)) ;;
       modify (on_metrics incr_totalDataReceived) ;;
       at_time <- Date_now ;;
       mid <- generateMessageId ;;
       let enrichedData :=
         with_ingestion (spread d)
           {| ing_connector := connectorName; receivedAt := at_time;
              serviceVersion := "1.0.0"; messageId := mid |} in
       valid <- validateData (VRec enrichedData) ;;
       if valid then
         on_messageQueue (MessageQueue.publishRawData enrichedData connectorName) ;;
         now' <- Date_now ;;
         emit (SigDataIngested connectorName enrichedData now')
       else throw (Error "Data validation failed"))
      (fun error => handleConnectorError connectorName error d).

Definition registerConnector (n : string) : M service unit :=
  known <- gets (fun s => connectors s !! n) ;;
  if bool_decide (known <> None)
  then throw (Error ("Connector " ++ n ++ " is already registered"))
  else
    now <- Date_now ;;
    modify (fun s => set_connectors
                       (<[n := {| name := n; registeredAt := now;
                                  lastDataReceived := None; errorCount := 0;
                                  dataCount := 0; isHealthy := true |}]> (connectors s)) s) ;;
    modify (on_metrics incr_connectorsRegistered) ;;
    emit (SigConnectorRegistered n).

(** The listeners that [registerConnector] attaches to the connector it
    registers under [n]. *)
Definition on_connector_signal (n : string) (s : signal) : M service unit :=
  match s with
  | SigData d => handleConnectorData n d
  | SigError error => handleConnectorError n error VNull
  | SigStart =>
      modify (on_metrics (fun m => set_connectorsRunning (connectorsRunning m + 1) m)) ;;
      emit (SigConnectorStarted n)
  | SigStop =>
      modify (on_metrics (fun m => set_connectorsRunning
                                     (Z.max 0 (connectorsRunning m - 1)) m)) ;;
      emit (SigConnectorStopped n)
  | _ => ret tt
  end.

(** The signals of a connector reach the service in the order of their
    emission. *)
Fixpoint deliver (n : string) (signals : list signal) : M service unit :=
  match signals with
  | [] => ret tt
  | s :: rest => on_connector_signal n s ;; deliver n rest
  end.

(** *** Further assignments *)

Definition set_isRunning (b : bool) (s : service) : service :=
  {| config_of := config_of s; messageQueue := messageQueue s;
     connectors := connectors s; isRunning := b; metrics_of := metrics_of s |}.

Definition set_startTime (t : option Z) (m : metrics) : metrics :=
  {| connectorsRegistered := connectorsRegistered m;
     connectorsRunning := connectorsRunning m;
     totalDataReceived := totalDataReceived m;
     totalErrorsHandled := totalErrorsHandled m;
     lastHealthCheck := lastHealthCheck m; startTime := t |}.

Definition set_lastHealthCheck (t : option Z) (m : metrics) : metrics :=
  {| connectorsRegistered := connectorsRegistered m;
     connectorsRunning := connectorsRunning m;
     totalDataReceived := totalDataReceived m;
     totalErrorsHandled := totalErrorsHandled m;
     lastHealthCheck := t; startTime := startTime m |}.

Definition decr_connectorsRegistered (m : metrics) : metrics :=
  {| connectorsRegistered := connectorsRegistered m - 1;
     connectorsRunning := connectorsRunning m;
     totalDataReceived := totalDataReceived m;
     totalErrorsHandled := totalErrorsHandled m;
     lastHealthCheck := lastHealthCheck m; startTime := startTime m |}.

Definition set_isHealthy (b : bool) (e : entry) : entry :=
  {| name := name e; registeredAt := registeredAt e;
     lastDataReceived := lastDataReceived e;
     errorCount := errorCount e; dataCount := dataCount e; isHealthy := b |}.

Definition set_errorCount (n : Z) (e : entry) : entry :=
  {| name := name e; registeredAt := registeredAt e;
     lastDataReceived := lastDataReceived e;
     errorCount := n; dataCount := dataCount e; isHealthy := isHealthy e |}.

(** *** The health of the service *)

Inductive service_status : Type :=
| sv_healthy | sv_critical | sv_degraded | sv_warning.

(** The result of [getHealth()].  The array [unhealthyConnectors] holds
    names of the registry, each once, and is given as their set. *)
Record service_health : Type := {
  sh_status : service_status;
  sh_isRunning : bool;
  totalConnectors : Z;
  healthyConnectors : Z;
  unhealthyConnectors : gset string;
  sh_messageQueue : MessageQueue.health;
  sh_lastHealthCheck : option Z
}.

(** The loop of [getHealth()] over the registry: the number of connectors,
    the number of the healthy ones, and the names of the others. *)
Definition tally (entries : gmap string entry) : Z * Z * gset string :=
  map_fold
    (fun n connectorInfo '(total, healthyCount, unhealthyNames) =>
       if isHealthy connectorInfo
       then (total + 1, healthyCount + 1, unhealthyNames)
       else (total + 1, healthyCount, {[n]} ∪ unhealthyNames))
    (0, 0, ∅) entries.

(** [a > b / 2] for integers [a] and [b], the division being that of the
    rationals. *)
Definition exceeds_half (a b : Z) : bool :=
  negb (Qle_bool (inject_Z a) (inject_Z b / inject_Z 2)).

Definition getHealth : M service service_health :=
  entries <- gets connectors ;;
  let '(total, healthyCount, unhealthyNames) := tally entries in
  messageQueueHealth <- on_messageQueue MessageQueue.healthCheck ;;
  running <- gets isRunning ;;
  lastCheck <- gets (fun s => lastHealthCheck (metrics_of s)) ;;
  let overallStatus :=
    if negb running || negb (MessageQueue.connected messageQueueHealth) then sv_critical
    else if exceeds_half (Z.of_nat (size unhealthyNames)) total then sv_degraded
    else if 0 <? Z.of_nat (size unhealthyNames) then sv_warning
    else sv_healthy in
  ret {| sh_status := overallStatus;
         sh_isRunning := running;
         totalConnectors := total;
         healthyConnectors := healthyCount;
         unhealthyConnectors := unhealthyNames;
         sh_messageQueue := messageQueueHealth;
         sh_lastHealthCheck := lastCheck |}.

End DataIngestionService.

(** ** The service and the connectors it holds

    [registerConnector(name, connector)] attaches four listeners to the
    connector and keeps a reference to it in the entry; [start], [stop],
    [unregisterConnector], [performHealthCheck] and [restartConnector] call
    the connectors through these references.  The connectors are objects
    of a heap, so that one connector can be registered more than once and
    outlives its entry.

    - The poll cycles of a connector that are suspended at their [await]
      are kept with the connector ([suspended]); they are the [awaiting]
      of the runtime while a method of the connector runs.
    - A connector calls its listeners from within [emit].  Here they run
      when the method of the connector has returned, in the order of the
      events and, for each event, in the order of their attachment.  The
      outcome is the same: the listeners write to the service only, and of
      the methods of the connector only [start] goes on after an event that
      has a listener, with a poll cycle that emits nothing.
    - [connectorUnregistered], [started] and [stopped] are recorded in
      [notices].
    - The iteration of [this.connectors] follows the insertion order of
      the names, which [references] keeps.
    - An emitter throws an [error] event that has no listener.  The
      connectors here fail a fetch only after they have been registered,
      so that the listener of the service is attached. *)

Module Supervision.

Inductive notice : Type :=
| NoteConnectorUnregistered (n : string)
| NoteStarted
| NoteStopped.

(** [for (const x of xs) body(x)]. *)
Fixpoint for_each {σ X : Type} (xs : list X) (body : X -> M σ unit) : M σ unit :=
  match xs with
  | [] => ret tt
  | x :: rest => body x ;; for_each rest body
  end.

Section Supervised.
Context {num : Type} `{Number num}.

(** A connector, the names under which listeners of the service are
    attached to it (oldest first), and its suspended poll cycles. *)
Record supervised : Type := {
  object : BaseConnector.connector num;
  attached : list string;
  suspended : list Z
}.

(** A timeout of [restartConnector] that has not fired: the connector that
    it will start, and the name of the entry ([connectorInfo]) whose
    [errorCount] it will reset; [None] once that entry has been deleted
    from the registry. *)
Record restart : Type := {
  restart_connector : nat;
  restart_entry : option string
}.

Record pipeline : Type := {
  service_of : DataIngestionService.service;
  references : list (string * nat);   (* [connectorInfo.connector], by name *)
  heap : list supervised;
  healthCheckTimer : option Z;        (* the interval, with its period *)
  restarts : list restart;
  handles : MessageQueue.clients;
  notices : list notice
}.

Definition set_service (s : DataIngestionService.service) (p : pipeline) : pipeline :=
  {| service_of := s; references := references p; heap := heap p;
     healthCheckTimer := healthCheckTimer p; restarts := restarts p;
     handles := handles p; notices := notices p |}.

Definition set_references (l : list (string * nat)) (p : pipeline) : pipeline :=
  {| service_of := service_of p; references := l; heap := heap p;
     healthCheckTimer := healthCheckTimer p; restarts := restarts p;
     handles := handles p; notices := notices p |}.

Definition set_heap (l : list supervised) (p : pipeline) : pipeline :=
  {| service_of := service_of p; references := references p; heap := l;
     healthCheckTimer := healthCheckTimer p; restarts := restarts p;
     handles := handles p; notices := notices p |}.

Definition set_healthCheckTimer (t : option Z) (p : pipeline) : pipeline :=
  {| service_of := service_of p; references := references p; heap := heap p;
     healthCheckTimer := t; restarts := restarts p;
     handles := handles p; notices := notices p |}.

Definition set_restarts (l : list restart) (p : pipeline) : pipeline :=
  {| service_of := service_of p; references := references p; heap := heap p;
     healthCheckTimer := healthCheckTimer p; restarts := l;
     handles := handles p; notices := notices p |}.

Definition note (n : notice) (p : pipeline) : pipeline :=
  {| service_of := service_of p; references := references p; heap := heap p;
     healthCheckTimer := healthCheckTimer p; restarts := restarts p;
     handles := handles p; notices := notices p ++ [n] |}.

(** A method of the service, or an assignment to it. *)
Definition on_service {A} (m : M DataIngestionService.service A) : M pipeline A :=
  zoom service_of set_service m.

(** [connectorInfo.connector] of the entry of [n]; an address outside the
    heap when there is none. *)
Fixpoint lookup_reference (n : string) (l : list (string * nat)) : option nat :=
  match l with
  | [] => None
  | (m, i) :: rest => if String.eqb m n then Some i else lookup_reference n rest
  end.

Definition reference (n : string) (p : pipeline) : nat :=
  default (length (heap p)) (lookup_reference n (references p)).

(** *** Events of a connector reach the service *)

Fixpoint notify (names : list string) (s : signal) : M pipeline unit :=
  match names with
  | [] => ret tt
  | n :: rest =>
      on_service (DataIngestionService.on_connector_signal n s) ;; notify rest s
  end.

Fixpoint broadcast (names : list string) (signals : list signal) : M pipeline unit :=
  match signals with
  | [] => ret tt
  | s :: rest => notify names s ;; broadcast names rest
  end.

(** A method [m] of the connector at the address [i] runs, and the
    listeners are called with what it has emitted.  Calling a method of
    what is not a connector throws a [TypeError]. *)
Definition call {A} (i : nat) (m : M (BaseConnector.connector num) A) : M pipeline A :=
  fun w =>
    match heap (this w) !! i with
    | None => (Throw (Error "TypeError"), w)
    | Some o =>
        let '(r, wc) := m {| this := object o; rt := set_awaiting (suspended o) (rt w) |} in
        let signals := drop (length (emitted (rt w))) (emitted (rt wc)) in
        let o' := {| object := this wc; attached := attached o;
                     suspended := awaiting (rt wc) |} in
        let w1 := {| this := set_heap (<[i := o']> (heap (this w))) (this w);
                     rt := set_awaiting (awaiting (rt w)) (rt wc) |} in
        (r, snd (broadcast (attached o) signals w1))
    end.

(** [connector.on('data', ...)], [connector.on('error', ...)],
    [connector.on('start', ...)] and [connector.on('stop', ...)]. *)
Definition attach (i : nat) (n : string) : M pipeline unit :=
  fun w =>
    match heap (this w) !! i with
    | None => (Throw (Error "TypeError"), w)
    | Some o =>
        (Normal tt,
         {| this := set_heap (<[i := {| object := object o;
                                        attached := attached o ++ [n];
                                        suspended := suspended o |}]> (heap (this w)))
                             (this w);
            rt := rt w |})
    end.

(** *** The methods *)

Definition registerConnector (n : string) (connector : nat) : M pipeline unit :=
  known <- gets (fun p => DataIngestionService.connectors (service_of p) !! n) ;;
  if bool_decide (known <> None)
  then throw (Error ("Connector " ++ n ++ " is already registered"))
  else
    attach connector n ;;
    on_service (DataIngestionService.registerConnector n) ;;
    modify (fun p => set_references (references p ++ [(n, connector)]) p).

Definition unregisterConnector (n : string) : M pipeline bool :=
  connectorInfo <- gets (fun p => DataIngestionService.connectors (service_of p) !! n) ;;
  if bool_decide (connectorInfo = None) then ret false
  else
    connector <- gets (reference n) ;;
    running <- call connector (gets BaseConnector.isRunning) ;;
    when running (call connector BaseConnector.stop) ;;
    on_service (modify (fun s => DataIngestionService.set_connectors
                                   (delete n (DataIngestionService.connectors s)) s)) ;;
    modify (fun p => set_references (filter (fun ni => ni.1 <> n) (references p)) p) ;;
    modify (fun p => set_restarts
                       (map (fun r => if bool_decide (restart_entry r = Some n)
                                      then {| restart_connector := restart_connector r;
                                              restart_entry := None |}
                                      else r)
                            (restarts p)) p) ;;
    on_service (modify (DataIngestionService.on_metrics
                          DataIngestionService.decr_connectorsRegistered)) ;;
    modify (note (NoteConnectorUnregistered n)) ;;
    ret true.

Definition startHealthChecking : M pipeline unit :=
  cfg <- gets (fun p => DataIngestionService.config_of (service_of p)) ;;
  modify (set_healthCheckTimer (Some (DataIngestionService.healthCheckInterval cfg))).

Definition start : M pipeline unit :=
  running <- gets (fun p => DataIngestionService.isRunning (service_of p)) ;;
  if running then ret tt
  else
    on_service (modify (DataIngestionService.set_isRunning true)) ;;
    now <- Date_now ;;
    on_service (modify (DataIngestionService.on_metrics
                          (DataIngestionService.set_startTime (Some now)))) ;;
    entries <- gets references ;;
    for_each entries
      (fun ni =>
         try_catch
           (call ni.2 BaseConnector.start)
           (fun error =>
              on_service (modify (DataIngestionService.on_connectorInfo ni.1
                                    (DataIngestionService.set_isHealthy false))))) ;;
    startHealthChecking ;;
    modify (note NoteStarted).

Definition stop : M pipeline unit :=
  running <- gets (fun p => DataIngestionService.isRunning (service_of p)) ;;
  if negb running then ret tt
  else
    on_service (modify (DataIngestionService.set_isRunning false)) ;;
    timer <- gets healthCheckTimer ;;
    when (bool_decide (timer <> None)) (modify (set_healthCheckTimer None)) ;;
    entries <- gets references ;;
    for_each entries
      (fun ni => try_catch (call ni.2 BaseConnector.stop) (fun error => ret tt)) ;;
    c <- gets handles ;;
    on_service (DataIngestionService.on_messageQueue (MessageQueue.close c)) ;;
    modify (note NoteStopped).

Definition restartConnector (n : string) : M pipeline unit :=
  connectorInfo <- gets (fun p => DataIngestionService.connectors (service_of p) !! n) ;;
  if bool_decide (connectorInfo = None) then ret tt
  else
    try_catch
      (connector <- gets (reference n) ;;
       call connector BaseConnector.stop ;;
       modify (fun p => set_restarts
                          (restarts p ++ [{| restart_connector := connector;
                                             restart_entry := Some n |}]) p))
      (fun error => ret tt).

(** The callback of the timeout of [restartConnector]: the oldest timeout
    that has not fired fires. *)
Definition restart_due : M pipeline unit :=
  pending <- gets restarts ;;
  match pending with
  | [] => ret tt
  | r :: rest =>
      modify (set_restarts rest) ;;
      try_catch
        (call (restart_connector r) BaseConnector.start ;;
         match restart_entry r with
         | Some n =>
             on_service (modify (DataIngestionService.on_connectorInfo n
                                   (DataIngestionService.set_errorCount 0)))
         | None => ret tt
         end)
        (fun error => ret tt)
  end.

(** The body of the loop of [performHealthCheck] for the entry of [n]. *)
Definition checkConnector (n : string) (connector : nat) : M pipeline unit :=
  try_catch
    (health <- call connector BaseConnector.getHealth ;;
     lastData <- gets (fun p => DataIngestionService.connectors (service_of p) !! n
                                ≫= DataIngestionService.lastDataReceived) ;;
     timeSinceLastData <-
       (if truthy_num lastData
        then now <- Date_now ;; ret (option_map (fun t => now - t) lastData)
        else ret None) ;;
     let isUnhealthy :=
       match BaseConnector.status health with
       | BaseConnector.unhealthy | BaseConnector.circuit_breaker_open => true
       | _ => false
       end
       || (truthy_num timeSinceLastData && BaseConnector.exceeds timeSinceLastData 300000) in
     wasHealthy <- gets (fun p => default false
                                    (DataIngestionService.isHealthy
                                       <$> DataIngestionService.connectors (service_of p) !! n)) ;;
     when (isUnhealthy && wasHealthy)
          (on_service (modify (DataIngestionService.on_connectorInfo n
                                 (DataIngestionService.set_isHealthy false))) ;;
           cfg <- gets (fun p => DataIngestionService.config_of (service_of p)) ;;
           when (DataIngestionService.restartUnhealthyConnectors cfg) (restartConnector n)) ;;
     nowHealthy <- gets (fun p => default false
                                    (DataIngestionService.isHealthy
                                       <$> DataIngestionService.connectors (service_of p) !! n)) ;;
     when (negb isUnhealthy && negb nowHealthy)
          (on_service (modify (DataIngestionService.on_connectorInfo n
                                 (DataIngestionService.set_isHealthy true)))))
    (fun error => ret tt).

Definition performHealthCheck : M pipeline unit :=
  now <- Date_now ;;
  on_service (modify (DataIngestionService.on_metrics
                        (DataIngestionService.set_lastHealthCheck (Some now)))) ;;
  entries <- gets references ;;
  for_each entries (fun ni => checkConnector ni.1 ni.2).

(** *** The service in the event loop *)

Inductive occurrence : Type :=
| Start_called
| Stop_called
| Register_called (n : string) (connector : nat)
| Unregister_called (n : string)
| Of_connector (connector : nat) (e : BaseConnector.event)
| HealthCheck_due
| Restart_due.

Definition step (o : occurrence) (w : world pipeline) : world pipeline :=
  match o with
  | Start_called => snd (start w)
  | Stop_called => snd (stop w)
  | Register_called n connector => snd (registerConnector n connector w)
  | Unregister_called n => snd (unregisterConnector n w)
  | Of_connector connector e =>
      snd (call connector (fun wc => (Normal tt, BaseConnector.step e wc)) w)
  | HealthCheck_due =>
      match healthCheckTimer (this w) with
      | Some _ => snd (performHealthCheck w)
      | None => w
      end
  | Restart_due => snd (restart_due w)
  end.

Definition run (os : list occurrence) (w : world pipeline) : world pipeline :=
  fold_left (fun w o => step o w) os w.

(** The service that [new DataIngestionService(config)] builds, beside the
    connectors that the program has built. *)
Definition boot (cfg : DataIngestionService.config) (queue_cfg : MessageQueue.config)
    (connectors : list (BaseConnector.connector num)) (r : runtime) : world pipeline :=
  let ws := DataIngestionService.constructor cfg queue_cfg r in
  {| this := {| service_of := this ws;
                references := [];
                heap := map (fun c => {| object := c; attached := []; suspended := [] |})
                            connectors;
                healthCheckTimer := None;
                restarts := [];
                handles := MessageQueue.created queue_cfg r;
                notices := [] |};
     rt := rt ws |}.

End Supervised.
Arguments supervised num : clear implicits.
Arguments pipeline num : clear implicits.

End Supervision.

(** * Scenarios, and the words of the specification

    The states and runs that the examples below start from, the notions
    that the statements use, and the tactics of the proofs. *)

Module ConnectorScenarios.
Import BaseConnector.

(** Unfold the methods down to the state they compute. *)
Ltac run_methods :=
  unfold pollData, settle, pollData_enter, pollData_resume, start, stop,
    handleSuccessfulFetch, handleFailedFetch, openCircuitBreaker,
    closeCircuitBreaker, schedulNextPoll, updateAvgResponseTime, getHealth,
    try_catch, await, when, emit, with_rt, Date_now, bind, ret, gets, get,
    modify, throw in *;
  cbn in *.

(** Name the fields of the connector and of its metrics. *)
Ltac open_world w :=
  let cfg := fresh "cfg" in let run := fresh "running" in
  let rc := fresh "retries" in let open := fresh "open" in
  let lp := fresh "lastPoll" in let ls := fresh "lastSuccess" in
  let pt := fresh "ptimer" in let bt := fresh "btimer" in
  let tot := fresh "total" in let suc := fresh "successes" in
  let fl := fresh "failures" in let avg := fresh "avg" in
  let lf := fresh "lastFetch" in let r := fresh "r" in
  destruct w as [[cfg run rc open lp ls pt bt [tot suc fl avg lf]] r];
  cbn in *; subst.

(** A runtime whose clock advances by a second per reading. *)
Definition steady : runtime :=
  boot (fun n => 1000 * Z.of_nat n) (fun _ => "0.5") (fun _ => Normal tt).

Definition fresh {num} `{Number num} (cfg : config) : world (connector num) :=
  {| this := constructor cfg; rt := steady |}.

(** The connector with the default configuration after [start()]. *)
Definition started : world (connector Q) := snd (start (fresh default_config)).

(** What the specification says of [start()] on a running connector. *)
Definition raises_AlreadyRunningError {num} `{Number num} (w : world (connector num)) : Prop :=
  exists e, fst (start w) = Throw e.

Section Generic.
Context {num : Type} `{Number num}.
Implicit Types w : world (connector num).

(** Successive poll cycles, each with the outcome of its fetch. *)
Definition poll_each (outcomes : list (completion value)) w : world (connector num) :=
  fold_left (fun w o => snd (pollData o w)) outcomes w.

(** Successive poll cycles in which every fetch that is made fails. *)
Definition fail_each (errors : list error) w : world (connector num) :=
  poll_each (map Throw errors) w.

(** The status as the specification words it, for a connector that has
    been running since [runningSince]. *)
Definition specified_status (c : connector num) (runningSince now : Z) : health_status :=
  if circuitBreakerOpen c then circuit_breaker_open
  else if match lastSuccessTime c with
          | Some t => 3 * pollInterval (config_of c) <? now - t
          | None => 3 * pollInterval (config_of c) <=? now - runningSince
          end
       then unhealthy
       else if 0 <? retryCount c then degraded
            else healthy.

(** Fetches that settled, with those still in flight. *)
Definition begun w : Z :=
  successfulFetches (metrics_of (this w)) + failedFetches (metrics_of (this w))
  + Z.of_nat (length (awaiting (rt w))).

(** Three failed fetches open the breaker of a connector with the default
    configuration; the service then restarts it ([stop()], [start()]), and
    the cycle that [start()] begins returns at the open breaker. *)
Definition restart_with_open_breaker : list event :=
  [Start_called; Fetch_settles 0 (Throw (Error "ETIMEDOUT"));
   PollTimer_fires; Fetch_settles 0 (Throw (Error "ETIMEDOUT"));
   PollTimer_fires; Fetch_settles 0 (Throw (Error "ETIMEDOUT"));
   Stop_called; Start_called].

(** The arithmetic mean [(L1 + ... + LN) / N]. *)
Definition mean (L : list Z) : num :=
  div (of_Z (fold_right Z.add 0 L)) (of_Z (Z.of_nat (length L))).

(** One more response time folded into the average of [n] earlier ones. *)
Definition folded (avg : num) (n : Z) (l : Z) : num :=
  div (add (mul avg (of_Z (n + 1 - 1))) (of_Z l)) (of_Z (n + 1)).

End Generic.

(** Eight fetches that succeed, a second apart, after 153, 90, 89, 228,
    141, 21, 206 and 40 milliseconds. *)
Definition eight_latencies : list Z := [153; 90; 89; 228; 141; 21; 206; 40].

(** [Date.now()] is read four times in a successful cycle: at its start,
    when the fetch has settled, and twice in [handleSuccessfulFetch]. *)
Definition clock_of (L : list Z) (n : nat) : Z :=
  1000 * Z.of_nat (n / 4)
  + (if (n mod 4 =? 0)%nat then 0 else nth (n / 4) L 0).

Definition sample : record :=
  {| timestamp := Some 1700000000000; source := Some "mta";
     ingestion_of := None; others := [("feedId", "gtfs")] |}.

Definition eight_successes : list event :=
  Start_called :: Fetch_settles 0 (Normal (VRec sample))
  :: concat (repeat [PollTimer_fires; Fetch_settles 0 (Normal (VRec sample))] 7).

Definition measuring : runtime :=
  boot (clock_of eight_latencies) (fun _ => "0.5") (fun _ => Normal tt).

(** A connector with the default configuration whose first fetch has
    resolved with nothing. *)
Definition polled : world (connector Q) :=
  step (Fetch_settles 0 (Normal VNull)) started.

Definition three_errors : list error :=
  [Error "ETIMEDOUT"; Error "ETIMEDOUT"; Error "ECONNRESET"].

(** A connector started at time 0 whose first fetch is still in flight a
    thousand seconds later. *)
Definition waiting : world (connector Q) :=
  snd (start {| this := constructor default_config;
                rt := boot (fun n => 1000000 * Z.of_nat n) (fun _ => "0.5")
                           (fun _ => Normal tt) |}).

(** The same connector after that fetch has resolved, read a thousand
    seconds after its only success. *)
Definition stale : world (connector Q) :=
  step (Fetch_settles 0 (Normal VNull)) waiting.

End ConnectorScenarios.

Module QueueScenarios.
Import MessageQueue.

(** The broker refuses the first connection; every later operation works. *)
Definition broker_down : runtime :=
  boot (fun n => 1700000000000 + Z.of_nat n)
       (fun n => "0." ++ string_of_Z (Z.of_nat n) ++ "k2j4h6g8d0s")
       (fun n => if (n =? 0)%nat then Throw (Error "connect ECONNREFUSED") else Normal tt).

(** A queue configured for the broker, after its set-up has failed. *)
Definition fallen_back : world queue :=
  snd (setupQueue {| this := constructor default_config; rt := broker_down |}).

(** A queue configured for the in-process buffer, after its set-up. *)
Definition in_memory : world queue :=
  snd (setupQueue {| this := constructor {| type := memory; topics_of := default_topics |};
                     rt := broker_down |}).

Definition a_record : record :=
  {| timestamp := Some 1700000000000; source := Some "mta";
     ingestion_of := None; others := [("feedId", "gtfs")] |}.

Definition from_mta : metadata_arg :=
  {| arg_source := Some "mta"; arg_version := None; arg_extra := [] |}.

(** The buffer that [setupMemory] builds. *)
Definition empty_buffers (t : topics) : gmap string (list QueueMessage) :=
  fold_left (fun b t => <[t := []]> b) (topic_values t) ∅.

(** The messages that the backend in use holds for a topic: the buffer of
    the topic, or what the broker or the store has accepted for it. *)
Definition published_to (t : string) (q : queue) : list QueueMessage :=
  match type (config_of q) with
  | memory => default [] (messageBuffer q !! t)
  | _ => (filter (fun tm => tm.1 = t) (handed_over q)).*2
  end.

(** The backend in use accepts the next message that is handed to it. *)
Definition accepts_next (q : queue) (r : runtime) : Prop :=
  match type (config_of q) with
  | memory => True
  | kafka | redis => io r (ios r) = Normal tt
  | unsupported _ => False
  end.

(** The envelope that [publish] builds in [w]. *)
Definition envelope (t : string) (p : payload) (meta : metadata_arg) (r : runtime)
  : QueueMessage :=
  {| id := "msg_" ++ string_of_Z (clock r (ticks r)) ++ "_"
           ++ substr 2 9 (random36 r (draws r));
     msg_timestamp := clock r (S (ticks r));
     topic := t; data := p; msg_metadata := build_metadata meta |}.

End QueueScenarios.

Module ServiceScenarios.
Import DataIngestionService.

(** Name the fields of the service, of its queue and of the runtime. *)
Ltac open_service w :=
  let cfg := fresh "cfg" in let ty := fresh "ty" in let ts := fresh "ts" in
  let conn := fresh "conn" in let buffer := fresh "buffer" in
  let lis := fresh "lis" in let handed := fresh "handed" in
  let entries := fresh "entries" in let running := fresh "running" in
  let m := fresh "m" in let r := fresh "r" in
  destruct w as [[cfg [[ty ts] conn buffer lis handed] entries running m] r];
  cbn in *; subst.

Ltac run_service :=
  unfold handleConnectorData, handleConnectorError, sendToDeadLetterQueue,
    validateData, generateMessageId, registerConnector, on_connector_signal,
    on_messageQueue, zoom, MessageQueue.publishRawData, MessageQueue.publish,
    MessageQueue.generateMessageId, MessageQueue.publishToMemory,
    MessageQueue.publishToKafka, MessageQueue.publishToRedis,
    try_catch, await, when, emit, with_rt, external, Date_now,
    Math_random_toString36, bind, ret, gets, get, modify, throw in *;
  cbn in *.

(** What has been published to the topic of the dead letters. *)
Definition dead_letters (w : world service) : list QueueMessage :=
  QueueScenarios.published_to "dead-letter-queue" (messageQueue (this w)).

(** What has been published to the topic of the raw data. *)
Definition raw_data (w : world service) : list QueueMessage :=
  QueueScenarios.published_to
    (MessageQueue.rawData (MessageQueue.topics_of
                             (MessageQueue.config_of (messageQueue (this w)))))
    (messageQueue (this w)).

(** The queue of the service accepts the next message. *)
Definition queue_accepts (w : world service) : Prop :=
  QueueScenarios.accepts_next (messageQueue (this w)) (rt w).

(** The window of [validateData] around the time [now] of the check. *)
Definition in_window (now : Z) (t : Z) : bool :=
  negb ((t <? now - 60 * 60 * 1000) || (now + 60 * 1000 <? t)).

(** The record that [handleConnectorData] builds from [r] in [w]. *)
Definition enriched (n : string) (r : record) (w : world service) : record :=
  with_ingestion r
    {| ing_connector := n;
       receivedAt := clock (rt w) (S (ticks (rt w)));
       serviceVersion := "1.0.0";
       messageId := "ing_" ++ string_of_Z (clock (rt w) (S (S (ticks (rt w))))) ++ "_"
                    ++ substr 2 9 (random36 (rt w) (draws (rt w))) |}.

(** Whether the validation that [handleConnectorData] runs in [w] accepts
    [r]: the clock is read for the fourth time when the window is checked. *)
Definition passes (r : record) (w : world service) : bool :=
  truthy_num (timestamp r) && truthy_str (source r)
  && in_window (clock (rt w) (S (S (S (ticks (rt w)))))) (default 0 (timestamp r)).

(** What the specification says [validateData] accepts at the time [now]:
    an object with a non-null timestamp in the window and a non-null
    source. *)
Definition specified_valid (v : value) (now : Z) : Prop :=
  exists r t s,
    v = VRec r /\ timestamp r = Some t /\ source r = Some s /\
    now - 3600000 <= t <= now + 60000.

Fixpoint no_underscore (s : string) : bool :=
  match s with
  | EmptyString => true
  | String c s' => negb (Ascii.eqb c "_") && no_underscore s'
  end.

(** A clock that advances by a millisecond per reading, and random draws
    whose renderings differ only after their first nine digits. *)
Definition calm : runtime :=
  boot (fun n => 1700000000000 + Z.of_nat n)
       (fun n => "0.k2j4h6g8d" ++ string_of_Z (Z.of_nat n))
       (fun _ => Normal tt).

(** The same draws, read within one millisecond. *)
Definition frozen : runtime :=
  boot (fun _ => 1700000000000)
       (fun n => "0.k2j4h6g8d" ++ string_of_Z (Z.of_nat n))
       (fun _ => Normal tt).

Definition buffered : MessageQueue.config :=
  {| MessageQueue.type := MessageQueue.memory;
     MessageQueue.topics_of := MessageQueue.default_topics |}.

(** A service on the in-process buffer with the connector [mta] registered. *)
Definition supervising (r : runtime) : world service :=
  snd (registerConnector "mta" (constructor default_config buffered r)).

Definition arrival (t : Z) (s : string) : record :=
  {| timestamp := Some t; source := Some s; ingestion_of := None;
     others := [("feedId", "gtfs")] |}.

(** Two records of [mta] that reach the service within a millisecond. *)
Definition two_arrivals : world service :=
  snd (handleConnectorData "mta" (VRec (arrival 1700000000000 "mta-ace"))
         (snd (handleConnectorData "mta" (VRec (arrival 1700000000000 "mta-bdfm"))
                 (supervising frozen)))).

(** The [messageId] of the record that a message carries. *)
Definition messageId_of (m : QueueMessage) : option string :=
  match data m with
  | PRecord r => messageId <$> ingestion_of r
  | _ => None
  end.

Definition source_of (m : QueueMessage) : option string :=
  match data m with
  | PRecord r => source r
  | _ => None
  end.

End ServiceScenarios.

(** * Further scenarios *)

Module LifecycleScenarios.
Import BaseConnector.

Section Generic.
Context {num : Type} `{Number num}.
Implicit Types w : world (connector num).

(** The breaker is open, no timer is held that would close it, and no
    fetch is in flight. *)
Definition stuck w : Prop :=
  circuitBreakerOpen (this w) = true /\
  circuitBreakerTimer (this w) = None /\
  awaiting (rt w) = [].

(** Whether a list of events holds [start] and [stop] events only. *)
Definition lifecycle_only (signals : list signal) : bool :=
  forallb (fun s => match s with SigStart | SigStop => true | _ => false end) signals.

(** What every reachable state of a connector with the configuration [cfg]
    satisfies. *)
Definition well_kept (cfg : config) w : Prop :=
  config_of (this w) = cfg /\
  0 <= retryCount (this w) /\
  (circuitBreakerOpen (this w) = false ->
   retryCount (this w) < maxRetries cfg /\ circuitBreakerTimer (this w) = None) /\
  (isRunning (this w) = false -> pollTimer (this w) = None).

Definition counted w : Prop :=
  0 <= successfulFetches (metrics_of (this w)) /\
  0 <= failedFetches (metrics_of (this w)).

End Generic.

(** A connector with the default configuration whose breaker three failed
    fetches have opened. *)
Definition tripped : world (connector Q) :=
  ConnectorScenarios.fail_each ConnectorScenarios.three_errors ConnectorScenarios.polled.

End LifecycleScenarios.

Module DeliveryScenarios.
Import MessageQueue.

(** [publish] called for each payload in turn. *)
Fixpoint publish_each (t : string) (ps : list payload) (meta : metadata_arg) : M queue unit :=
  match ps with
  | [] => ret tt
  | p :: rest => publish t p meta ;; publish_each t rest meta
  end.

(** The next [n] deferred deliveries run. *)
Fixpoint drain (n : nat) : M queue unit :=
  match n with
  | O => ret tt
  | S n' => run_immediate ;; drain n'
  end.

(** The calls of the handlers [hs] for the messages [ms], message by
    message. *)
Definition calls (hs : list nat) (ms : list QueueMessage) : list (nat * QueueMessage) :=
  flat_map (fun m => map (fun h => (h, m)) hs) ms.

(** The entry of [queueSizes] for a reply of the store. *)
Definition size_of_reply (reply : completion Z) : queue_size :=
  match reply with Normal n => Size n | Throw _ => SizeError end.

(** The size that [getStats()] reports for a topic, if any. *)
Definition reported_size (st : stats) (t : string) : option queue_size :=
  queueSizes st ≫= (fun sizes => sizes !! t).

(** The broker accepts everything. *)
Definition broker_up : runtime :=
  boot (fun n => 1700000000000 + Z.of_nat n)
       (fun n => "0." ++ string_of_Z (Z.of_nat n) ++ "k2j4h6g8d0s")
       (fun _ => Normal tt).

(** A queue on the broker, after its set-up has succeeded. *)
Definition on_kafka : world queue :=
  snd (setupQueue {| this := constructor default_config; rt := broker_up |}).

(** The same queue when the broker has stopped answering. *)
Definition kafka_gone : world queue :=
  {| this := this on_kafka;
     rt := boot (fun n => 1700000000000 + Z.of_nat n) (fun _ => "0.k2j4h6g8d0s")
                (fun _ => Throw (Error "BrokerNotAvailableError")) |}.

Definition three_payloads : list payload :=
  [PRecord QueueScenarios.a_record; PTest; PRecord QueueScenarios.a_record].

End DeliveryScenarios.

Module IngestionScenarios.
Import DataIngestionService.

(** A value that [validateData] rejects for a missing, null, zero or empty
    [timestamp] or [source], once [handleConnectorData] has spread it. *)
Definition lacks_a_field (d : value) : bool :=
  negb (truthy_num (timestamp (spread d)) && truthy_str (source (spread d))).

(** The registry after an error of [n]: the entry of [n], if there is one,
    is charged with it. *)
Definition blamed (n : string) (s : service) : service :=
  if bool_decide (connectors s !! n <> None) then on_connectorInfo n failed s else s.

(** The entry that [registerConnector] writes at the time [now]. *)
Definition registered (n : string) (now : Z) : entry :=
  {| name := n; registeredAt := now; lastDataReceived := None; errorCount := 0;
     dataCount := 0; isHealthy := true |}.

(** A service on the broker, with the connector [mta] registered, when the
    broker has stopped answering. *)
Definition broker_lost : world service :=
  let w := snd (registerConnector "mta"
                  (constructor default_config MessageQueue.default_config
                     DeliveryScenarios.broker_up)) in
  {| this := this w;
     rt := boot (fun n => 1700000000000 + Z.of_nat n) (fun _ => "0.k2j4h6g8d0s")
                (fun _ => Throw (Error "BrokerNotAvailableError")) |}.

(** Seven records of which none names its source. *)
Definition seven_nameless : list value :=
  repeat (VRec {| timestamp := Some 1700000000000; source := None;
                  ingestion_of := None; others := [] |}) 7.

(** A service whose queue has fallen back to the in-process buffer, with
    two connectors registered. *)
Definition on_fallback : world service :=
  snd (registerConnector "traffic"
         (snd (registerConnector "mta"
                 (constructor default_config MessageQueue.default_config
                    QueueScenarios.broker_down)))).

End IngestionScenarios.

Module SupervisionScenarios.
Import Supervision.

Section Generic.
Context {num : Type} `{Number num}.
Implicit Types w : world (pipeline num).

(** What the connectors and their listeners for [start] and [stop] leave
    as it is when a method of a connector runs: all of the service but its
    metrics, the registry of references, the timers and the handles of the
    service, and the oracles of the runtime. *)
Definition undisturbed w w' : Prop :=
  DataIngestionService.config_of (service_of (this w'))
  = DataIngestionService.config_of (service_of (this w)) /\
  DataIngestionService.messageQueue (service_of (this w'))
  = DataIngestionService.messageQueue (service_of (this w)) /\
  DataIngestionService.connectors (service_of (this w'))
  = DataIngestionService.connectors (service_of (this w)) /\
  DataIngestionService.isRunning (service_of (this w'))
  = DataIngestionService.isRunning (service_of (this w)) /\
  references (this w') = references (this w) /\
  healthCheckTimer (this w') = healthCheckTimer (this w) /\
  restarts (this w') = restarts (this w) /\
  handles (this w') = handles (this w) /\
  notices (this w') = notices (this w) /\
  length (heap (this w')) = length (heap (this w)) /\
  clock (rt w') = clock (rt w) /\
  io (rt w') = io (rt w) /\
  ios (rt w') = ios (rt w) /\
  awaiting (rt w') = awaiting (rt w).

(** Events that the service has no listener for, or that its listeners
    answer by counting the running connectors. *)
Definition no_record (s : signal) : bool :=
  match s with
  | SigData _ | SigError _ => false
  | _ => true
  end.

(** What [start()] and [stop()] of the connectors leave of the service as
    it is, whether or not the connectors are there. *)
Definition service_kept w w' : Prop :=
  DataIngestionService.config_of (service_of (this w'))
  = DataIngestionService.config_of (service_of (this w)) /\
  DataIngestionService.messageQueue (service_of (this w'))
  = DataIngestionService.messageQueue (service_of (this w)) /\
  DataIngestionService.isRunning (service_of (this w'))
  = DataIngestionService.isRunning (service_of (this w)) /\
  references (this w') = references (this w) /\
  healthCheckTimer (this w') = healthCheckTimer (this w) /\
  handles (this w') = handles (this w) /\
  notices (this w') = notices (this w) /\
  io (rt w') = io (rt w) /\
  ios (rt w') = ios (rt w).

End Generic.

(** The messages on the topic of the raw data of the service. *)
Definition published {num} `{Number num} (w : world (pipeline num)) : list QueueMessage :=
  ServiceScenarios.raw_data {| this := service_of (this w); rt := rt w |}.

(** A service on the in-process buffer with one connector, registered as
    [mta], after [start()]. *)
Definition one_connector : world (pipeline Q) :=
  run [Register_called "mta" 0%nat; Start_called]
      (boot DataIngestionService.default_config ServiceScenarios.buffered
            [BaseConnector.constructor BaseConnector.default_config]
            ServiceScenarios.calm).

(** The first three fetches of the connector fail. *)
Definition mta_trips : list occurrence :=
  [Of_connector 0 (BaseConnector.Fetch_settles 0 (Throw (Error "ETIMEDOUT")));
   Of_connector 0 BaseConnector.PollTimer_fires;
   Of_connector 0 (BaseConnector.Fetch_settles 0 (Throw (Error "ETIMEDOUT")));
   Of_connector 0 BaseConnector.PollTimer_fires;
   Of_connector 0 (BaseConnector.Fetch_settles 0 (Throw (Error "ETIMEDOUT")))].

(** The health check of the service has found the breaker of the connector
    open and has scheduled its restart. *)
Definition awaiting_restart : world (pipeline Q) :=
  run (mta_trips ++ [HealthCheck_due]) one_connector.

(** A service that has not been started, with one connector registered as
    [mta], in a runtime whose clock stands still. *)
Definition registered_once : world (pipeline Q) :=
  run [Register_called "mta" 0%nat]
      (boot DataIngestionService.default_config ServiceScenarios.buffered
            [BaseConnector.constructor BaseConnector.default_config]
            ServiceScenarios.frozen).

End SupervisionScenarios.

(** * Binary64 numbers and the rationals

    The numbers of the program are IEEE 754 binary64 numbers.  What relates
    them to the rationals: the value of a finite float, the place of a
    rational between two neighbouring mantissas, and the unit roundoff. *)

Module Rounding.

(** [2^e] for an exponent of either sign. *)
Definition pow2 (e : Z) : Q := (2 ^ e)%Q.

(** The place of [y] between the integers [m] and [m + 1], as the two
    bits of a [shr_record] tell it: the round bit says whether [y] has
    reached the middle, the sticky bit whether it lies strictly inside
    one of the halves. *)
Definition located (m : Z) (r s : bool) (y : Q) : Prop :=
  match r, s with
  | false, false => (y == inject_Z m)%Q
  | false, true => (inject_Z m < y /\ y < inject_Z m + (1 # 2))%Q
  | true, false => (y == inject_Z m + (1 # 2))%Q
  | true, true => (inject_Z m + (1 # 2) < y /\ y < inject_Z m + 1)%Q
  end.

(** The record of a mantissa that is being shifted to the right stands
    for the rational [y]. *)
Definition represents (mrs : shr_record) (y : Q) : Prop :=
  0 <= shr_m mrs /\ located (shr_m mrs) (shr_r mrs) (shr_s mrs) y.

(** The unit roundoff of binary64, [2^-53]. *)
Definition u64 : Q := 1 # 9007199254740992.

End Rounding.

Module FloatValues.
Import Rounding.

(** The float [x] is the finite number [q >= 0]: it is the positive zero
    and [q] is zero, or it has a positive sign, the mantissa [m] and the
    exponent [e], and [q] is [m 2^e]. *)
Definition holds (x : spec_float) (q : Q) : Prop :=
  match x with
  | S754_zero false => (q == 0)%Q
  | S754_finite false m e => (q == inject_Z (Z.pos m) * pow2 e)%Q
  | _ => False
  end.

(** The same of a number of the program. *)
Definition float_is (x : float) (q : Q) : Prop := holds (Prim2SF x) q.

(** Zero, or a number far from the ends of the range of binary64. *)
Definition moderate (q : Q) : Prop :=
  (q == 0)%Q \/ (pow2 (-500) <= q /\ q <= pow2 500)%Q.

End FloatValues.

Module Outline.
Import BaseConnector.

Section Generic.
Context {num : Type} `{Number num}.

(** A connector without its average response time: what is left does not
    depend on the arithmetic. *)
Definition outline (c : connector num) :=
  (config_of c, isRunning c, retryCount c, circuitBreakerOpen c, lastPollTime c,
   lastSuccessTime c, pollTimer c, circuitBreakerTimer c,
   totalFetches (metrics_of c), successfulFetches (metrics_of c),
   failedFetches (metrics_of c), lastFetchTime (metrics_of c)).

End Generic.

End Outline.

(** * Properties of the runtime *)

Module RuntimeProperties.

Example string_of_Z_ex : string_of_Z 1700000000000 = "1700000000000".
Proof. reflexivity. Qed.

Example string_of_Z_zero : string_of_Z 0 = "0".
Proof. reflexivity. Qed.

Example substr_ex : substr 2 9 "0.4fzyo82mvyr" = "4fzyo82mv".
Proof. reflexivity. Qed.

Example float_ex : PrimFloat.eqb (div (of_Z 968) (of_Z 8)) 121%float = true.
Proof. reflexivity. Qed.

End RuntimeProperties.

(** * Properties of the connector *)

Module ConnectorProperties.
Import BaseConnector ConnectorScenarios.

Section Generic.
Context {num : Type} `{Number num}.
Implicit Types w : world (connector num).

Lemma poll_each_cons o os w :
  poll_each (o :: os) w = poll_each os (snd (pollData o w)).
Proof. reflexivity. Qed.

Lemma fail_each_cons e es w :
  fail_each (e :: es) w = fail_each es (snd (pollData (Throw e) w)).
Proof. reflexivity. Qed.

(** *** One poll cycle *)

Lemma pollData_enter_open w :
  isRunning (this w) = true -> circuitBreakerOpen (this w) = true ->
  pollData_enter w =
  (Normal tt,
   {| this := set_pollTimer
                (Some (setTimeout CallPollData (circuitBreakerTimeout (config_of (this w)))))
                (on_metrics incr_totalFetches
                   (set_lastPollTime (Some (clock (rt w) (ticks (rt w)))) (this w)));
      rt := tick (rt w) |}).
Proof.
  intros Hrun Hopen. open_world w. reflexivity.
Qed.

Lemma pollData_enter_closed w :
  isRunning (this w) = true -> circuitBreakerOpen (this w) = false ->
  pollData_enter w =
  (Normal tt,
   {| this := on_metrics incr_totalFetches
                (set_lastPollTime (Some (clock (rt w) (ticks (rt w)))) (this w));
      rt := set_awaiting (awaiting (rt w) ++ [clock (rt w) (ticks (rt w))]) (tick (rt w)) |}).
Proof.
  intros Hrun Hopen. open_world w. reflexivity.
Qed.

Lemma settle_nothing i outcome w :
  awaiting (rt w) !! i = None -> settle i outcome w = (Normal tt, w).
Proof.
  intros Hi. unfold settle. now rewrite Hi.
Qed.

Lemma settle_resumes i outcome w startTime :
  awaiting (rt w) !! i = Some startTime ->
  settle i outcome w =
  pollData_resume startTime outcome
    {| this := this w; rt := set_awaiting (delete i (awaiting (rt w))) (rt w) |}.
Proof.
  intros Hi. unfold settle. now rewrite Hi.
Qed.

Lemma pollData_skips w outcome :
  isRunning (this w) = true -> awaiting (rt w) = [] ->
  circuitBreakerOpen (this w) = true ->
  pollData outcome w =
  (Normal tt,
   {| this := set_pollTimer
                (Some (setTimeout CallPollData (circuitBreakerTimeout (config_of (this w)))))
                (on_metrics incr_totalFetches
                   (set_lastPollTime (Some (clock (rt w) (ticks (rt w)))) (this w)));
      rt := tick (rt w) |}).
Proof.
  intros Hrun Hidle Hopen. unfold pollData, bind.
  rewrite (pollData_enter_open w Hrun Hopen).
  apply settle_nothing. cbn. now rewrite Hidle.
Qed.

Lemma pollData_fetches w outcome :
  isRunning (this w) = true -> awaiting (rt w) = [] ->
  circuitBreakerOpen (this w) = false ->
  pollData outcome w =
  pollData_resume (clock (rt w) (ticks (rt w))) outcome
    {| this := on_metrics incr_totalFetches
                 (set_lastPollTime (Some (clock (rt w) (ticks (rt w)))) (this w));
       rt := tick (rt w) |}.
Proof.
  intros Hrun Hidle Hopen. unfold pollData, bind.
  rewrite (pollData_enter_closed w Hrun Hopen).
  rewrite (settle_resumes 0 outcome _ (clock (rt w) (ticks (rt w))));
    cbn; rewrite Hidle; [| reflexivity].
  destruct w as [c r]. cbn in *. destruct r. cbn in *. subst. reflexivity.
Qed.

Lemma pollData_resume_fails w startTime e :
  let w' := snd (pollData_resume startTime (Throw e) w) in
  isRunning (this w') = isRunning (this w) /\
  awaiting (rt w') = awaiting (rt w) /\
  config_of (this w') = config_of (this w) /\
  retryCount (this w') = retryCount (this w) + 1 /\
  successfulFetches (metrics_of (this w')) = successfulFetches (metrics_of (this w)) /\
  failedFetches (metrics_of (this w')) = failedFetches (metrics_of (this w)) + 1 /\
  totalFetches (metrics_of (this w')) = totalFetches (metrics_of (this w)) /\
  circuitBreakerOpen (this w') =
    circuitBreakerOpen (this w) || (maxRetries (config_of (this w)) <=? retryCount (this w) + 1).
Proof.
  open_world w. unfold pollData_resume, try_catch, await, bind. cbn.
  unfold handleFailedFetch, bind, modify, gets, when. cbn.
  destruct (maxRetries cfg <=? retries + 1), open, running; cbn; auto 10.
Qed.

Lemma pollData_resume_succeeds w startTime d :
  let w' := snd (pollData_resume startTime (Normal d) w) in
  let now := clock (rt w) (ticks (rt w)) in
  isRunning (this w') = isRunning (this w) /\
  awaiting (rt w') = awaiting (rt w) /\
  config_of (this w') = config_of (this w) /\
  circuitBreakerOpen (this w') = false /\
  retryCount (this w') = 0 /\
  lastSuccessTime (this w') = Some (clock (rt w) (S (S (ticks (rt w))))) /\
  successfulFetches (metrics_of (this w')) = successfulFetches (metrics_of (this w)) + 1 /\
  failedFetches (metrics_of (this w')) = failedFetches (metrics_of (this w)) /\
  totalFetches (metrics_of (this w')) = totalFetches (metrics_of (this w)) /\
  avgResponseTime (metrics_of (this w')) =
    div (add (mul (avgResponseTime (metrics_of (this w)))
                  (of_Z (successfulFetches (metrics_of (this w)) + 1 - 1)))
             (of_Z (now - startTime)))
        (of_Z (successfulFetches (metrics_of (this w)) + 1)) /\
  (isRunning (this w) = true ->
   pollTimer (this w') = Some (setTimeout CallPollData (pollInterval (config_of (this w))))) /\
  emitted (rt w') =
    (emitted (rt w)
     ++ (if circuitBreakerOpen (this w) then [SigCircuitBreakerClosed] else [])
     ++ (if truthy d then [SigData d] else []))%list.
Proof.
  open_world w. unfold pollData_resume, try_catch, await, bind. cbn.
  unfold handleSuccessfulFetch, bind, modify, gets, when. cbn.
  destruct open, btimer, (truthy d), running; cbn;
    rewrite <- ?app_assoc, ?app_nil_r; repeat split; try reflexivity; discriminate.
Qed.

Lemma pollData_fails w e :
  isRunning (this w) = true -> awaiting (rt w) = [] ->
  circuitBreakerOpen (this w) = false ->
  let w' := snd (pollData (Throw e) w) in
  isRunning (this w') = true /\ awaiting (rt w') = [] /\
  config_of (this w') = config_of (this w) /\
  retryCount (this w') = retryCount (this w) + 1 /\
  failedFetches (metrics_of (this w')) = failedFetches (metrics_of (this w)) + 1 /\
  circuitBreakerOpen (this w') =
    (maxRetries (config_of (this w)) <=? retryCount (this w) + 1).
Proof.
  intros Hrun Hidle Hopen. cbn zeta.
  rewrite (pollData_fetches w _ Hrun Hidle Hopen).
  match goal with |- context [pollData_resume ?t _ ?w1] =>
    destruct (pollData_resume_fails w1 t e) as (R & I & C & N & _ & F & _ & O) end.
  rewrite R, I, C, N, F, O. open_world w. auto 10.
Qed.

Lemma pollData_succeeds w d :
  isRunning (this w) = true -> awaiting (rt w) = [] ->
  circuitBreakerOpen (this w) = false ->
  let w' := snd (pollData (Normal d) w) in
  isRunning (this w') = true /\ awaiting (rt w') = [] /\
  circuitBreakerOpen (this w') = false /\
  retryCount (this w') = 0 /\
  successfulFetches (metrics_of (this w')) = successfulFetches (metrics_of (this w)) + 1 /\
  pollTimer (this w') =
    Some (setTimeout CallPollData (pollInterval (config_of (this w)))).
Proof.
  intros Hrun Hidle Hopen. cbn zeta.
  rewrite (pollData_fetches w _ Hrun Hidle Hopen).
  match goal with |- context [pollData_resume ?t _ ?w1] =>
    destruct (pollData_resume_succeeds w1 t d) as (R & I & C & O & N & _ & S & _ & _ & _ & P & _) end.
  rewrite R, I, O, N, S, P; open_world w; auto 10.
Qed.

Lemma poll_each_skips outcomes : forall w,
  isRunning (this w) = true -> awaiting (rt w) = [] ->
  circuitBreakerOpen (this w) = true ->
  let w' := poll_each outcomes w in
  isRunning (this w') = true /\ awaiting (rt w') = [] /\
  circuitBreakerOpen (this w') = true /\
  config_of (this w') = config_of (this w) /\
  successfulFetches (metrics_of (this w')) = successfulFetches (metrics_of (this w)) /\
  failedFetches (metrics_of (this w')) = failedFetches (metrics_of (this w)) /\
  totalFetches (metrics_of (this w')) =
    totalFetches (metrics_of (this w)) + Z.of_nat (length outcomes) /\
  emitted (rt w') = emitted (rt w) /\
  (outcomes <> [] ->
   pollTimer (this w') =
     Some (setTimeout CallPollData (circuitBreakerTimeout (config_of (this w))))).
Proof.
  induction outcomes as [|o os IH]; intros w Hrun Hidle Hopen.
  - cbn. repeat split; auto; try lia. congruence.
  - rewrite poll_each_cons.
    rewrite (pollData_skips w o Hrun Hidle Hopen). cbn [snd].
    match goal with |- context [poll_each os ?w1] => set (w1' := w1) end.
    destruct (IH w1') as (R & I & O & C & S & F & T & E & P);
      [subst w1'; open_world w; auto .. |].
    cbn zeta in *.
    rewrite R, I, O, C, S, F, T, E.
    subst w1'. open_world w.
    repeat split; auto; try lia.
    intros _. destruct os as [|o' os']; [reflexivity | apply P; discriminate].
Qed.

Lemma fail_each_opens errors : forall w,
  isRunning (this w) = true -> awaiting (rt w) = [] ->
  circuitBreakerOpen (this w) = true \/
  (errors <> [] /\
   maxRetries (config_of (this w)) - retryCount (this w) <= Z.of_nat (length errors)) ->
  circuitBreakerOpen (this (fail_each errors w)) = true.
Proof.
  induction errors as [|e es IH]; intros w Hrun Hidle Hcase.
  - destruct Hcase as [Hopen | [Hne _]]; [exact Hopen | congruence].
  - rewrite fail_each_cons.
    destruct (circuitBreakerOpen (this w)) eqn:Hopen.
    + rewrite (pollData_skips w _ Hrun Hidle Hopen). cbn [snd].
      apply IH; [open_world w; auto .. |]. left. open_world w. reflexivity.
    + destruct Hcase as [Hcase | [_ Hlen]]; [discriminate |].
      destruct (pollData_fails w e Hrun Hidle Hopen) as (R & I & C & N & _ & O).
      apply IH; auto. rewrite O, C, N.
      destruct (Z.leb_spec (maxRetries (config_of (this w))) (retryCount (this w) + 1));
        [now left | right].
      cbn [length] in Hlen. split; [destruct es; [cbn in Hlen; lia | discriminate] | lia].
Qed.

Lemma fail_each_below errors : forall w,
  isRunning (this w) = true -> awaiting (rt w) = [] ->
  circuitBreakerOpen (this w) = false ->
  retryCount (this w) + Z.of_nat (length errors) < maxRetries (config_of (this w)) ->
  let w' := fail_each errors w in
  circuitBreakerOpen (this w') = false /\
  retryCount (this w') = retryCount (this w) + Z.of_nat (length errors) /\
  failedFetches (metrics_of (this w')) =
    failedFetches (metrics_of (this w)) + Z.of_nat (length errors).
Proof.
  induction errors as [|e es IH]; intros w Hrun Hidle Hopen Hlt.
  - cbn. repeat split; auto; lia.
  - rewrite fail_each_cons.
    destruct (pollData_fails w e Hrun Hidle Hopen) as (R & I & C & N & F & O).
    cbn [length] in Hlt.
    destruct (IH (snd (pollData (Throw e) w))) as (O' & N' & F'); auto.
    + rewrite O. apply Z.leb_gt. lia.
    + rewrite C, N. lia.
    + cbn zeta. rewrite O', N', F', N, F. cbn [length]. repeat split; auto; lia.
Qed.

Lemma closeCircuitBreaker_closes w :
  circuitBreakerOpen (this w) = true ->
  closeCircuitBreaker w =
  (Normal tt,
   {| this := set_circuitBreakerTimer None
                (set_retryCount 0 (set_circuitBreakerOpen false (this w)));
      rt := record_signal SigCircuitBreakerClosed (rt w) |}).
Proof.
  intros Hopen. open_world w. destruct btimer; reflexivity.
Qed.

Lemma cool_down_elapses w :
  isRunning (this w) = true -> awaiting (rt w) = [] ->
  circuitBreakerOpen (this w) = true ->
  circuitBreakerTimer (this w) <> None ->
  let w1 := step CircuitBreakerTimer_fires w in
  circuitBreakerOpen (this w1) = false /\
  forall outcome,
    let w2 := snd (pollData outcome w1) in
    successfulFetches (metrics_of (this w2)) + failedFetches (metrics_of (this w2)) =
      successfulFetches (metrics_of (this w)) + failedFetches (metrics_of (this w)) + 1 /\
    (forall d, outcome = Normal d ->
       pollTimer (this w2) =
         Some (setTimeout CallPollData (pollInterval (config_of (this w))))).
Proof.
  intros Hrun Hidle Hopen Htimer. cbn zeta. unfold step.
  destruct (circuitBreakerTimer (this w)) as [t|] eqn:Ht; [clear Htimer | congruence].
  rewrite (closeCircuitBreaker_closes w Hopen). cbn [snd].
  split; [now destruct w as [[] ?] |].
  intros outcome. rewrite pollData_fetches; [| now destruct w as [[] ?] ..].
  match goal with |- context [pollData_resume ?t0 _ ?w1] => set (w1' := w1); set (t0' := t0) end.
  destruct outcome as [d | e].
  - destruct (pollData_resume_succeeds w1' t0' d) as (_ & _ & _ & _ & _ & _ & S & F & _ & _ & P & _).
    rewrite S, F. split; [subst w1'; open_world w; lia |].
    intros d' _. rewrite P; subst w1'; open_world w; reflexivity.
  - destruct (pollData_resume_fails w1' t0' e) as (_ & _ & _ & _ & S & F & _).
    rewrite S, F. split; [subst w1'; open_world w; lia | discriminate].
Qed.

(** C1.  After [maxRetries] consecutive failed fetches the circuit breaker
    is open (and, counting from a closed breaker with no failure pending,
    it is not open before).  While the breaker is open every poll cycle
    returns without fetching: no fetch is started, nothing is emitted, the
    success and failure counts stay, and the next cycle is scheduled after
    [circuitBreakerTimeout], not after [pollInterval].  When the cool-down
    has elapsed, that is when the timer armed on opening fires, the breaker
    is closed and the next cycle fetches again. *)
Theorem breaker_opens_and_polls_wait_for_the_cool_down w :
  isRunning (this w) = true -> awaiting (rt w) = [] ->
  let cfg := config_of (this w) in
  (forall errors,
      0 <= retryCount (this w) -> errors <> [] ->
      maxRetries cfg <= Z.of_nat (length errors) ->
      circuitBreakerOpen (this (fail_each errors w)) = true) /\
  (forall errors,
      circuitBreakerOpen (this w) = false -> retryCount (this w) = 0 ->
      Z.of_nat (length errors) < maxRetries cfg ->
      circuitBreakerOpen (this (fail_each errors w)) = false /\
      failedFetches (metrics_of (this (fail_each errors w))) =
        failedFetches (metrics_of (this w)) + Z.of_nat (length errors)) /\
  (forall outcomes,
      circuitBreakerOpen (this w) = true ->
      let w' := poll_each outcomes w in
      circuitBreakerOpen (this w') = true /\
      awaiting (rt w') = [] /\
      emitted (rt w') = emitted (rt w) /\
      successfulFetches (metrics_of (this w')) = successfulFetches (metrics_of (this w)) /\
      failedFetches (metrics_of (this w')) = failedFetches (metrics_of (this w)) /\
      (outcomes <> [] ->
       pollTimer (this w') =
         Some (setTimeout CallPollData (circuitBreakerTimeout cfg)))) /\
  (circuitBreakerOpen (this w) = true -> circuitBreakerTimer (this w) <> None ->
   let w1 := step CircuitBreakerTimer_fires w in
   circuitBreakerOpen (this w1) = false /\
   forall outcome,
     let w2 := snd (pollData outcome w1) in
     successfulFetches (metrics_of (this w2)) + failedFetches (metrics_of (this w2)) =
       successfulFetches (metrics_of (this w)) + failedFetches (metrics_of (this w)) + 1 /\
     (forall d, outcome = Normal d ->
        pollTimer (this w2) = Some (setTimeout CallPollData (pollInterval cfg)))).
Proof.
  intros Hrun Hidle cfg. repeat apply conj.
  - intros errors Hcount Hne Hlen. apply fail_each_opens; auto.
    right. split; [exact Hne | subst cfg; lia].
  - intros errors Hopen Hzero Hlen.
    destruct (fail_each_below errors w Hrun Hidle Hopen) as (O & _ & F);
      [subst cfg; lia | auto].
  - intros outcomes Hopen.
    destruct (poll_each_skips outcomes w Hrun Hidle Hopen)
      as (_ & I & O & _ & S & F & _ & E & P).
    repeat split; auto.
  - intros Hopen Htimer. exact (cool_down_elapses w Hrun Hidle Hopen Htimer).
Qed.

(** *** Health *)

(** C4, amended.  [getHealth()] reads the clock once, changes nothing
    else, and reports: [circuit_breaker_open] when the breaker is open;
    else [unhealthy] when there has been a success and more than three
    poll intervals have passed since the last one; else [degraded] when
    [retryCount > 0]; else [healthy].  A connector that has not succeeded
    yet is never [unhealthy], however long it has been running.  The
    success rate is [successfulFetches / totalFetches], and 0 when
    [totalFetches] is 0. *)
Theorem getHealth_reports w :
  let c := this w in
  let now := clock (rt w) (ticks (rt w)) in
  exists h,
    getHealth w = (Normal h, {| this := c; rt := tick (rt w) |}) /\
    (circuitBreakerOpen c = true -> status h = circuit_breaker_open) /\
    (circuitBreakerOpen c = false ->
     forall t, lastSuccessTime c = Some t -> t <> 0 ->
               0 <= pollInterval (config_of c) ->
               3 * pollInterval (config_of c) < now - t ->
               status h = unhealthy) /\
    (circuitBreakerOpen c = false ->
     forall t, lastSuccessTime c = Some t ->
               now - t <= 3 * pollInterval (config_of c) ->
               status h = if 0 <? retryCount c then degraded else healthy) /\
    (circuitBreakerOpen c = false -> lastSuccessTime c = None ->
     status h = if 0 <? retryCount c then degraded else healthy) /\
    (0 < totalFetches (metrics_of c) ->
     successRate h = div (of_Z (successfulFetches (metrics_of c)))
                         (of_Z (totalFetches (metrics_of c)))) /\
    (totalFetches (metrics_of c) <= 0 -> successRate h = of_Z 0).
Proof.
  open_world w. run_methods. eexists. split; [reflexivity |]. cbn.
  repeat apply conj.
  - now intros ->.
  - intros -> t -> Ht Hp Hlate. cbn.
    destruct (Z.eqb_spec t 0); [contradiction |]. cbn.
    destruct (Z.eqb_spec (clock r (ticks r) - t) 0); [lia |]. cbn.
    destruct (Z.ltb_spec (pollInterval cfg * 3) (clock r (ticks r) - t)); [reflexivity | lia].
  - intros -> t -> Hearly. cbn.
    destruct (t =? 0); cbn; [reflexivity |].
    destruct (clock r (ticks r) - t =? 0); cbn; [reflexivity |].
    destruct (Z.ltb_spec (pollInterval cfg * 3) (clock r (ticks r) - t)); [lia | reflexivity].
  - now intros -> ->.
  - intros Hpos. destruct (Z.ltb_spec 0 total); [reflexivity | lia].
  - intros Hzero. destruct (Z.ltb_spec 0 total); [lia | reflexivity].
Qed.

(** *** Counting *)

Lemma pollData_enter_counts w :
  isRunning (this w) = true ->
  let w' := snd (pollData_enter w) in
  totalFetches (metrics_of (this w')) = totalFetches (metrics_of (this w)) + 1 /\
  successfulFetches (metrics_of (this w')) = successfulFetches (metrics_of (this w)) /\
  failedFetches (metrics_of (this w')) = failedFetches (metrics_of (this w)) /\
  (circuitBreakerOpen (this w) = true -> awaiting (rt w') = awaiting (rt w)).
Proof.
  intros Hrun. open_world w. run_methods. destruct open; cbn; auto.
  repeat split; auto. discriminate.
Qed.

Lemma step_begun e w :
  begun w <= totalFetches (metrics_of (this w)) ->
  begun (step e w) <= totalFetches (metrics_of (this (step e w))).
Proof.
  unfold begun. intros Hle. destruct e as [ | | | | i outcome | ]; open_world w.
  - run_methods. destruct running, open; cbn; rewrite ?length_app; cbn; lia.
  - run_methods. destruct running, ptimer, btimer; cbn; lia.
  - destruct ptimer; [| cbn; lia].
    run_methods. destruct running, open; cbn; rewrite ?length_app; cbn; lia.
  - destruct btimer; [| cbn; lia].
    run_methods. destruct open; cbn; lia.
  - unfold settle. cbn. destruct (awaiting r !! i) as [t0|] eqn:Hi; [| cbn; lia].
    assert (Hlen : (length (delete i (awaiting r)) + 1 = length (awaiting r))%nat).
    { rewrite length_delete by eauto. apply lookup_lt_Some in Hi. lia. }
    destruct outcome as [d | err]; run_methods.
    + destruct open, btimer, (truthy d), running; cbn; lia.
    + destruct open, (maxRetries cfg <=? retries + 1), running; cbn; lia.
  - run_methods. lia.
Qed.

Lemma run_begun es : forall w,
  begun w <= totalFetches (metrics_of (this w)) ->
  begun (run es w) <= totalFetches (metrics_of (this (run es w))).
Proof.
  induction es as [|e es IH]; intros w Hle; [exact Hle |].
  cbn. apply IH, step_begun, Hle.
Qed.

Lemma getHealth_successRate w h :
  fst (getHealth w) = Normal h ->
  0 < totalFetches (metrics_of (this w)) ->
  successRate h = div (of_Z (successfulFetches (metrics_of (this w))))
                      (of_Z (totalFetches (metrics_of (this w)))).
Proof.
  intros Hh Hpos. open_world w. run_methods. injection Hh as <-. cbn.
  destruct (Z.ltb_spec 0 total); [reflexivity | lia].
Qed.

(** C10.  Every poll cycle of a running connector increments
    [totalFetches], before the breaker is looked at; a cycle that the open
    breaker ends starts no fetch and counts neither as a success nor as a
    failure.  So [successfulFetches + failedFetches <= totalFetches] in
    every state a connector can reach, equality fails in some, and the
    success rate of [getHealth()] divides by a count that includes the
    skipped cycles. *)
Theorem totalFetches_counts_skipped_cycles :
  (forall w,
      isRunning (this w) = true ->
      let w' := snd (pollData_enter w) in
      totalFetches (metrics_of (this w')) = totalFetches (metrics_of (this w)) + 1 /\
      (circuitBreakerOpen (this w) = true ->
       awaiting (rt w') = awaiting (rt w) /\
       successfulFetches (metrics_of (this w')) = successfulFetches (metrics_of (this w)) /\
       failedFetches (metrics_of (this w')) = failedFetches (metrics_of (this w)))) /\
  (forall cfg clk rnd ops es,
      let w := run es {| this := constructor cfg; rt := boot clk rnd ops |} in
      successfulFetches (metrics_of (this w)) + failedFetches (metrics_of (this w))
      <= totalFetches (metrics_of (this w))) /\
  (let w := run restart_with_open_breaker (fresh default_config) in
   circuitBreakerOpen (this w) = true /\
   successfulFetches (metrics_of (this w)) + failedFetches (metrics_of (this w)) = 3 /\
   totalFetches (metrics_of (this w)) = 4) /\
  (forall w h,
      fst (getHealth w) = Normal h ->
      0 < totalFetches (metrics_of (this w)) ->
      successRate h = div (of_Z (successfulFetches (metrics_of (this w))))
                          (of_Z (totalFetches (metrics_of (this w))))).
Proof.
  repeat apply conj.
  - intros w Hrun.
    destruct (pollData_enter_counts w Hrun) as (T & S & F & A). auto.
  - intros cfg clk rnd ops es w.
    pose proof (run_begun es {| this := constructor cfg; rt := boot clk rnd ops |}) as Hle.
    unfold begun in Hle. fold w in Hle. cbn in Hle.
    specialize (Hle ltac:(lia)). lia.
  - reflexivity.
  - reflexivity.
  - reflexivity.
  - exact getHealth_successRate.
Qed.

(** *** The average response time *)

Lemma step_average e w :
  let m := metrics_of (this w) in
  let m' := metrics_of (this (step e w)) in
  match latency_of e w with
  | Some l =>
      successfulFetches m' = successfulFetches m + 1 /\
      avgResponseTime m' = folded (avgResponseTime m) (successfulFetches m) l
  | None =>
      successfulFetches m' = successfulFetches m /\
      avgResponseTime m' = avgResponseTime m
  end.
Proof.
  destruct e as [ | | | | i outcome | ]; open_world w.
  - run_methods. destruct running, open; cbn; auto.
  - run_methods. destruct running, ptimer, btimer; cbn; auto.
  - destruct ptimer; [| cbn; auto].
    run_methods. destruct running, open; cbn; auto.
  - destruct btimer; [| cbn; auto].
    run_methods. destruct open; cbn; auto.
  - unfold settle. cbn. destruct (awaiting r !! i) as [t0|] eqn:Hi.
    + destruct outcome as [d | err]; run_methods.
      * destruct open, btimer, (truthy d), running; cbn; auto.
      * destruct open, (maxRetries cfg <=? retries + 1), running; cbn; auto.
    + destruct outcome; cbn; auto.
  - run_methods. auto.
Qed.

(** C3, amended: [start()] on a connector that is already running returns
    normally, without raising, and leaves the connector and the runtime
    (running flag, timers, metrics, emitted events, clock) as they were. *)
Theorem start_when_running_is_a_no_op w :
  isRunning (this w) = true ->
  start w = (Normal tt, w).
Proof.
  intros Hrun. unfold start, bind, gets. cbn. now rewrite Hrun.
Qed.

End Generic.

(** ** The average response time, in exact and in binary64 arithmetic *)

Lemma folded_into_sum (a : Q) (n s l : Z) :
  0 <= n ->
  Qeq (a * inject_Z n) (inject_Z s) ->
  Qeq (folded a n l * inject_Z (n + 1)) (inject_Z (s + l)).
Proof.
  intros Hn Hsum. unfold folded. cbn [div add mul of_Z Number_Q].
  replace (n + 1 - 1) with n by lia.
  assert (Hnz : ~ Qeq (inject_Z (n + 1)) 0).
  { unfold Qeq. cbn. lia. }
  rewrite (inject_Z_plus s l).
  transitivity (a * inject_Z n + inject_Z l)%Q; [field; exact Hnz |].
  apply Qplus_comp; [exact Hsum | reflexivity].
Qed.

Lemma run_average es : forall (w : world (connector Q)) (s : Z),
  0 <= successfulFetches (metrics_of (this w)) ->
  Qeq (avgResponseTime (metrics_of (this w))
       * inject_Z (successfulFetches (metrics_of (this w))))
      (inject_Z s) ->
  let w' := run es w in
  let L := latencies es w in
  successfulFetches (metrics_of (this w')) =
    successfulFetches (metrics_of (this w)) + Z.of_nat (length L) /\
  Qeq (avgResponseTime (metrics_of (this w'))
       * inject_Z (successfulFetches (metrics_of (this w'))))
      (inject_Z (s + fold_right Z.add 0 L)).
Proof.
  induction es as [|e es IH]; intros w s Hn Hsum.
  - cbn. split; [lia |]. now rewrite Z.add_0_r.
  - cbn [run fold_left latencies]. fold (run es (step e w)).
    pose proof (step_average e w) as Hstep. cbn zeta in Hstep.
    destruct (latency_of e w) as [l|]; destruct Hstep as [Hcount Havg].
    + destruct (IH (step e w) (s + l)) as [Hc Ha].
      * lia.
      * rewrite Hcount, Havg. now apply folded_into_sum.
      * cbn zeta. cbn [length fold_right]. split.
        -- rewrite Hc, Hcount. lia.
        -- rewrite Ha. now replace (s + l + fold_right Z.add 0 (latencies es (step e w)))
             with (s + (l + fold_right Z.add 0 (latencies es (step e w)))) by lia.
    + destruct (IH (step e w) s) as [Hc Ha].
      * lia.
      * now rewrite Hcount, Havg.
      * cbn zeta. split; [rewrite Hc, Hcount; lia | exact Ha].
Qed.

(** The update of the code and the incremental update
    [avg + (latency - avg) / successCount] are the same rational. *)
Lemma folded_is_the_incremental_update (a : Q) (n l : Z) :
  0 <= n ->
  Qeq (folded a n l) (a + (inject_Z l - a) / inject_Z (n + 1)).
Proof.
  intros Hn. unfold folded. cbn [div add mul of_Z Number_Q].
  replace (n + 1 - 1) with n by lia.
  assert (Hnz : ~ Qeq (inject_Z (n + 1)) 0).
  { unfold Qeq. cbn. lia. }
  rewrite (inject_Z_plus n 1) in *. field. exact Hnz.
Qed.

(** Read over the rationals, that is with exact arithmetic, the average
    response time of a connector equals the arithmetic mean
    [(L1 + ... + LN) / N] of the response times of its [N >= 1] successful
    fetches, whatever else happened to the connector in between: failed
    fetches, cycles skipped at the open breaker, stops and restarts.  Each
    successful fetch changes the average by the incremental update
    [avg + (latency - avg) / successCount], and nothing else changes it. *)
Theorem average_is_the_mean_in_exact_arithmetic cfg r es :
  let w0 : world (connector Q) := {| this := constructor cfg; rt := r |} in
  let L := latencies es w0 in
  L <> [] ->
  successfulFetches (metrics_of (this (run es w0))) = Z.of_nat (length L) /\
  Qeq (avgResponseTime (metrics_of (this (run es w0)))) (mean L) /\
  forall e (w : world (connector Q)),
    0 <= successfulFetches (metrics_of (this w)) ->
    match latency_of e w with
    | Some l =>
        Qeq (avgResponseTime (metrics_of (this (step e w))))
            (avgResponseTime (metrics_of (this w))
             + (inject_Z l - avgResponseTime (metrics_of (this w)))
               / inject_Z (successfulFetches (metrics_of (this (step e w)))))
    | None =>
        avgResponseTime (metrics_of (this (step e w)))
        = avgResponseTime (metrics_of (this w))
    end.
Proof.
  intros w0 L HL.
  destruct (run_average es w0 0) as [Hc Ha]; [cbn; lia | reflexivity |].
  fold L in Hc, Ha. cbn in Hc. split; [exact Hc |]. split.
  - unfold mean. cbn [div of_Z Number_Q].
    rewrite Hc, Z.add_0_l in Ha. rewrite <- Ha.
    field. unfold Qeq. cbn. destruct L; [congruence | cbn; lia].
  - intros e w Hn. pose proof (step_average e w) as Hstep. cbn zeta in Hstep.
    destruct (latency_of e w) as [l|]; destruct Hstep as [Hcount Havg]; [| exact Havg].
    rewrite Havg, Hcount. now apply folded_is_the_incremental_update.
Qed.

Example average_in_exact_arithmetic_is_121 :
  Qeq (avgResponseTime
         (metrics_of (this (run eight_successes
                                {| this := constructor (num := Q) default_config;
                                   rt := measuring |}))))
      (inject_Z 121).
Proof. vm_compute. reflexivity. Qed.

(** The arithmetic of the program rounds: after eight successful fetches
    whose response times have the mean 121, the stored average is the
    binary64 number next above 121, one unit in the last place away. *)
Example eight_fetches_round_up_in_binary64 :
  latencies eight_successes
            {| this := constructor (num := float) default_config; rt := measuring |}
  = eight_latencies /\
  PrimFloat.eqb (mean eight_latencies) 121%float = true /\
  PrimFloat.eqb
    (avgResponseTime
       (metrics_of (this (run eight_successes
                              {| this := constructor (num := float) default_config;
                                 rt := measuring |}))))
    0x1.e400000000001p+6%float = true /\
  avgResponseTime
    (metrics_of (this (run eight_successes
                           {| this := constructor (num := float) default_config;
                              rt := measuring |})))
  <> mean eight_latencies.
Proof.
  repeat apply conj; try (vm_compute; reflexivity).
  intros Heq.
  apply (f_equal (fun x => PrimFloat.eqb x (mean eight_latencies))) in Heq.
  vm_compute in Heq. discriminate Heq.
Qed.

Lemma breaker_opens_and_polls_wait_for_the_cool_down_witness :
  circuitBreakerOpen (this (fail_each three_errors polled)) = true /\
  pollTimer (this (poll_each [Normal VNull; Normal VNull] (fail_each three_errors polled)))
  = Some (setTimeout CallPollData
            (circuitBreakerTimeout (config_of (this (fail_each three_errors polled))))).
Proof.
  split.
  - refine (proj1 (breaker_opens_and_polls_wait_for_the_cool_down polled _ _)
                  three_errors _ _ _);
      vm_compute; (reflexivity || discriminate).
  - refine (proj2 (proj2 (proj2 (proj2 (proj2
              (proj1 (proj2 (proj2
                 (breaker_opens_and_polls_wait_for_the_cool_down
                    (fail_each three_errors polled) _ _)))
                 [Normal VNull; Normal VNull] _))))) _);
      vm_compute; (reflexivity || discriminate).
Defined.

(** C4, as stated, fails: a connector that has been running for more than
    three poll intervals without a success is reported [healthy]. *)
Lemma never_succeeded_is_not_unhealthy :
  lastSuccessTime (this waiting) = None /\
  lastPollTime (this waiting) = Some 0 /\
  clock (rt waiting) (ticks (rt waiting)) = 1000000 /\
  (exists h, fst (getHealth waiting) = Normal h /\ status h = healthy) /\
  specified_status (this waiting) 0 1000000 = unhealthy.
Proof.
  repeat apply conj; try (vm_compute; reflexivity).
  eexists. split; vm_compute; reflexivity.
Qed.


Lemma getHealth_reports_witness :
  lastSuccessTime (this stale) = Some 3000000 /\
  clock (rt stale) (ticks (rt stale)) = 4000000 /\
  exists h, fst (getHealth stale) = Normal h /\ status h = unhealthy.
Proof.
  split; [vm_compute; reflexivity |]. split; [vm_compute; reflexivity |].
  destruct (getHealth_reports stale) as (h & Heq & _ & Hlate & _).
  exists h. split; [now rewrite Heq |].
  refine (Hlate _ 3000000 _ _ _ _); vm_compute; (reflexivity || discriminate).
Defined.

Lemma start_when_running_is_a_no_op_witness :
  isRunning (this started) = true /\ start started = (Normal tt, started).
Proof.
  split; [reflexivity | apply start_when_running_is_a_no_op; reflexivity].
Defined.

(** C3, as stated, fails: the second [start()] of a started connector does
    not raise. *)
Lemma start_twice_does_not_raise :
  isRunning (this started) = true /\ ~ raises_AlreadyRunningError started.
Proof.
  split; [reflexivity |].
  intros [e He]. vm_compute in He. discriminate He.
Qed.

End ConnectorProperties.

(** * Properties of the message queue *)

Module QueueProperties.
Import MessageQueue QueueScenarios.

Lemma setupMemory_builds w :
  setupMemory w =
  (Normal tt,
   {| this := set_messageBuffer (empty_buffers (topics_of (config_of (this w)))) (this w);
      rt := rt w |}).
Proof. destruct w as [[[ty ts] c b l h] r]. reflexivity. Qed.

(** When the configured backend cannot be set up, [setupQueue] switches to
    the in-process buffer and returns normally, and [isConnected] keeps the
    value it had. *)
Lemma setupQueue_falls_back w e :
  is_memory (type (config_of (this w))) = false ->
  (forall n, type (config_of (this w)) <> unsupported n ->
             io (rt w) (ios (rt w)) = Throw e) ->
  fst (setupQueue w) = Normal tt /\
  type (config_of (this (snd (setupQueue w)))) = memory /\
  isConnected (this (snd (setupQueue w))) = isConnected (this w) /\
  messageBuffer (this (snd (setupQueue w))) = empty_buffers (topics_of (config_of (this w))) /\
  listeners (this (snd (setupQueue w))) = listeners (this w).
Proof.
  intros Hty Hio. destruct w as [[[ty ts] c b l h] r]. cbn in *.
  destruct ty as [ | | | n]; try discriminate.
  - specialize (Hio "" ltac:(discriminate)).
    unfold setupQueue, setupKafka, external, try_catch, bind, gets. cbn. rewrite Hio. cbn. auto.
  - specialize (Hio "" ltac:(discriminate)).
    unfold setupQueue, setupRedis, external, try_catch, bind, gets. cbn. rewrite Hio. cbn. auto.
  - cbn. auto.
Qed.

(** With the in-process buffer [healthCheck()] reports [isConnected]. *)
Lemma healthCheck_of_memory w :
  type (config_of (this w)) = memory ->
  healthCheck w =
  (Normal {| hc_status := "healthy"; connected := isConnected (this w); hc_error := None |}, w).
Proof.
  intros Hty. destruct w as [[[ty ts] c b l h] r]. cbn in *. subst. reflexivity.
Qed.

(** With the in-process buffer [publish] returns normally, and the message
    is the last of its topic in the buffer and awaits its delivery. *)
Lemma publish_to_memory w t p meta :
  type (config_of (this w)) = memory ->
  let m := {| id := "msg_" ++ string_of_Z (clock (rt w) (ticks (rt w))) ++ "_"
                    ++ substr 2 9 (random36 (rt w) (draws (rt w)));
              msg_timestamp := clock (rt w) (S (ticks (rt w)));
              topic := t; data := p; msg_metadata := build_metadata meta |} in
  fst (publish t p meta w) = Normal tt /\
  messageBuffer (this (snd (publish t p meta w))) !! t
    = Some (default [] (messageBuffer (this w) !! t) ++ [m])%list /\
  immediates (rt (snd (publish t p meta w))) = (immediates (rt w) ++ [(t, m)])%list /\
  type (config_of (this (snd (publish t p meta w)))) = memory /\
  isConnected (this (snd (publish t p meta w))) = isConnected (this w).
Proof.
  intros Hty. destruct w as [[[ty ts] c b l h] r]. cbn in *. subst.
  unfold publish, generateMessageId, publishToMemory, try_catch, bind, gets, modify,
    when, with_rt, emit, ret, Date_now, Math_random_toString36. cbn.
  destruct (b !! t) as [old|] eqn:Hb; cbn.
  - repeat split; auto. now rewrite lookup_alter_eq, Hb.
  - repeat split; auto. now rewrite lookup_alter_eq, lookup_insert_eq.
Qed.

(** [publish] changes neither the configuration nor [isConnected] nor the
    subscriptions, and it leaves the other topics alone. *)
Lemma publish_keeps w t p meta :
  let w' := snd (publish t p meta w) in
  config_of (this w') = config_of (this w) /\
  isConnected (this w') = isConnected (this w) /\
  listeners (this w') = listeners (this w) /\
  (forall t', t' <> t -> published_to t' (this w') = published_to t' (this w)).
Proof.
  destruct w as [[[ty ts] c b l h] r].
  unfold published_to, publish, generateMessageId, publishToMemory, publishToKafka,
    publishToRedis, try_catch, bind, gets, modify, when, with_rt, emit, ret, throw,
    external, Date_now, Math_random_toString36. cbn.
  destruct ty; cbn.
  - destruct (io r (ios r)); cbn; repeat split; auto.
    intros t' Hne. rewrite filter_app, filter_cons_False, filter_nil, app_nil_r; auto.
  - destruct (io r (ios r)); cbn; repeat split; auto.
    intros t' Hne. rewrite filter_app, filter_cons_False, filter_nil, app_nil_r; auto.
  - destruct (bool_decide (b !! t = None)); cbn; repeat split; auto;
      intros t' Hne; rewrite lookup_alter_ne by congruence;
      rewrite ?lookup_insert_ne by congruence; reflexivity.
  - auto.
Qed.

(** When the backend accepts it, [publish] returns normally and the message
    is the last of its topic. *)
Lemma publish_writes w t p meta :
  accepts_next (this w) (rt w) ->
  fst (publish t p meta w) = Normal tt /\
  published_to t (this (snd (publish t p meta w)))
  = (published_to t (this w) ++ [envelope t p meta (rt w)])%list.
Proof.
  destruct w as [[[ty ts] c b l h] r].
  unfold accepts_next, published_to, envelope, publish, generateMessageId, publishToMemory,
    publishToKafka, publishToRedis, try_catch, bind, gets, modify, when, with_rt, emit,
    ret, throw, external, Date_now, Math_random_toString36. cbn.
  destruct ty; cbn; intros Hok; try contradiction.
  - rewrite Hok. cbn. split; [reflexivity |].
    rewrite filter_app, filter_cons_True, filter_nil, fmap_app by reflexivity. reflexivity.
  - rewrite Hok. cbn. split; [reflexivity |].
    rewrite filter_app, filter_cons_True, filter_nil, fmap_app by reflexivity. reflexivity.
  - destruct (b !! t) as [old|] eqn:Hb; cbn; split; try reflexivity.
    + now rewrite lookup_alter_eq, Hb.
    + now rewrite lookup_alter_eq, lookup_insert_eq.
Qed.

(** A handler subscribed to a topic of the in-process buffer is called with
    the next message published to it, once the deferred delivery runs. *)
Lemma subscriber_receives w t handler p meta :
  type (config_of (this w)) = memory ->
  immediates (rt w) = [] ->
  let m := {| id := "msg_" ++ string_of_Z (clock (rt w) (ticks (rt w))) ++ "_"
                    ++ substr 2 9 (random36 (rt w) (draws (rt w)));
              msg_timestamp := clock (rt w) (S (ticks (rt w)));
              topic := t; data := p; msg_metadata := build_metadata meta |} in
  let w1 := snd (subscribe t handler w) in
  let w2 := snd (publish t p meta w1) in
  let w3 := snd (run_immediate w2) in
  fst (subscribe t handler w) = Normal tt /\
  fst (publish t p meta w1) = Normal tt /\
  invoked (rt w3) =
    (invoked (rt w)
     ++ map (fun h => (h, m)) (default [] (listeners (this w) !! t) ++ [handler]))%list.
Proof.
  intros Hty Hidle. destruct w as [[[ty ts] c b l h] r]. cbn in *. subst.
  unfold publish, generateMessageId, publishToMemory, try_catch, bind, gets, modify,
    when, with_rt, emit, ret, Date_now, Math_random_toString36, run_immediate, subscribe.
  cbn. destruct (bool_decide (b !! t = None)); cbn; rewrite Hidle; cbn;
    rewrite lookup_insert_eq; auto.
Qed.

(** C2.  What the code does when the configured backend cannot be set up:
    it switches to the in-process buffer for good, [publish] and
    [subscribe] work on the buffer, and [healthCheck()] answers
    [connected: false], because only the set-up that succeeds sets
    [isConnected]. *)
Theorem fallback_serves_and_reports_disconnected cfg r e :
  is_memory (type cfg) = false ->
  (forall n, type cfg <> unsupported n -> io r (ios r) = Throw e) ->
  immediates r = [] ->
  let w := snd (setupQueue {| this := constructor cfg; rt := r |}) in
  type (config_of (this w)) = memory /\
  (forall t p meta,
      fst (publish t p meta w) = Normal tt /\
      exists m, data m = p /\ topic m = t /\
                messageBuffer (this (snd (publish t p meta w))) !! t
                = Some (default [] (messageBuffer (this w) !! t) ++ [m])%list /\
                type (config_of (this (snd (publish t p meta w)))) = memory) /\
  (forall t handler p meta,
      let w1 := snd (subscribe t handler w) in
      let w2 := snd (publish t p meta w1) in
      fst (subscribe t handler w) = Normal tt /\
      exists m, data m = p /\
                invoked (rt (snd (run_immediate w2))) = (invoked r ++ [(handler, m)])%list) /\
  fst (healthCheck w) =
    Normal {| hc_status := "healthy"; connected := false; hc_error := None |}.
Proof.
  intros Hty Hio Hidle w.
  destruct (setupQueue_falls_back {| this := constructor cfg; rt := r |} e Hty Hio)
    as (_ & Hmem & Hconn & _ & Hlis).
  fold w in Hmem, Hconn, Hlis. cbn in Hconn, Hlis.
  assert (Hrt : immediates (rt w) = [] /\ invoked (rt w) = invoked r).
  { subst w. destruct cfg as [[ | | | n] ts]; try discriminate; cbn in *.
    - specialize (Hio "" ltac:(discriminate)).
      unfold setupQueue, setupKafka, external, try_catch, bind, gets. cbn.
      rewrite Hio. cbn. auto.
    - specialize (Hio "" ltac:(discriminate)).
      unfold setupQueue, setupRedis, external, try_catch, bind, gets. cbn.
      rewrite Hio. cbn. auto.
    - auto. }
  destruct Hrt as [Himm Hinv].
  repeat apply conj.
  - exact Hmem.
  - intros t p meta.
    destruct (publish_to_memory w t p meta Hmem) as (Hret & Hbuf & _ & Hty' & _).
    split; [exact Hret |]. eexists. repeat split; [| | exact Hbuf | exact Hty']; reflexivity.
  - intros t handler p meta w1 w2.
    destruct (subscriber_receives w t handler p meta Hmem Himm) as (Hsub & _ & Hcall).
    split; [exact Hsub |]. subst w2 w1. rewrite Hcall, Hlis, Hinv, lookup_empty. cbn.
    eexists. split; [| reflexivity]. reflexivity.
  - rewrite (healthCheck_of_memory w Hmem). cbn. now rewrite Hconn.
Qed.

Lemma fallback_serves_and_reports_disconnected_witness :
  type (config_of (this fallen_back)) = memory /\
  fst (publish "raw-data" (PRecord a_record) from_mta fallen_back) = Normal tt /\
  fst (healthCheck fallen_back) =
    Normal {| hc_status := "healthy"; connected := false; hc_error := None |}.
Proof.
  pose proof (fallback_serves_and_reports_disconnected
                default_config broker_down (Error "connect ECONNREFUSED")
                eq_refl (fun _ _ => eq_refl) eq_refl) as (Hmem & Hpub & _ & Hhealth).
  exact (conj Hmem (conj (proj1 (Hpub "raw-data" (PRecord a_record) from_mta)) Hhealth)).
Defined.

(** The same buffer, when it is the configured backend, reports
    [connected: true]. *)
Lemma configured_memory_reports_connected :
  type (config_of (this in_memory)) = memory /\
  messageBuffer (this in_memory) = messageBuffer (this fallen_back) /\
  fst (healthCheck in_memory) =
    Normal {| hc_status := "healthy"; connected := true; hc_error := None |}.
Proof. repeat split; vm_compute; reflexivity. Qed.

End QueueProperties.

(** * Properties of the ingestion service *)

Module ServiceProperties.
Import DataIngestionService ServiceScenarios.

#[local] Arguments MessageQueue.publish : simpl never.
#[local] Arguments sendToDeadLetterQueue : simpl never.
#[local] Arguments handleConnectorError : simpl never.
#[local] Arguments validateData : simpl never.

(** [sendToDeadLetterQueue] always returns normally and touches the queue
    only; when the backend accepts the entry, the entry is the last of the
    topic of the dead letters. *)
Lemma sendToDeadLetterQueue_writes w n e d :
  let w' := snd (sendToDeadLetterQueue n e d w) in
  fst (sendToDeadLetterQueue n e d w) = Normal tt /\
  config_of (this w') = config_of (this w) /\
  connectors (this w') = connectors (this w) /\
  metrics_of (this w') = metrics_of (this w) /\
  MessageQueue.config_of (messageQueue (this w'))
    = MessageQueue.config_of (messageQueue (this w)) /\
  (forall t, t <> "dead-letter-queue" ->
     QueueScenarios.published_to t (messageQueue (this w'))
     = QueueScenarios.published_to t (messageQueue (this w))) /\
  (queue_accepts w ->
   exists m,
     dead_letters w' = (dead_letters w ++ [m])%list /\
     data m = PDeadLetter
                {| originalData := d; dl_error_message := message e;
                   dl_error_timestamp := clock (rt w) (ticks (rt w));
                   dl_connector := n;
                   failureTime := clock (rt w) (S (ticks (rt w))) |}).
Proof.
  destruct w as [s r].
  unfold sendToDeadLetterQueue, try_catch, bind, Date_now, on_messageQueue, zoom, ret,
    queue_accepts.
  cbn [this rt fst snd].
  match goal with |- context [MessageQueue.publish ?t ?p ?m ?W] =>
    pose proof (QueueProperties.publish_keeps W t p m) as Hkeep;
    pose proof (QueueProperties.publish_writes W t p m) as Hwrite;
    destruct (MessageQueue.publish t p m W) as [c W'] end.
  cbn zeta in Hkeep. cbn [this rt fst snd] in Hkeep, Hwrite.
  destruct Hkeep as (Hcfg & _ & _ & Hother).
  assert (Hgoal :
    forall w'' : world service,
      this w'' = set_messageQueue (this W') s ->
      config_of (this w'') = config_of s /\
      connectors (this w'') = connectors s /\
      metrics_of (this w'') = metrics_of s /\
      MessageQueue.config_of (messageQueue (this w''))
        = MessageQueue.config_of (messageQueue s) /\
      (forall t, t <> "dead-letter-queue" ->
         QueueScenarios.published_to t (messageQueue (this w''))
         = QueueScenarios.published_to t (messageQueue s)) /\
      (QueueScenarios.accepts_next (messageQueue s) r ->
       exists m,
         dead_letters w'' = (dead_letters {| this := s; rt := r |} ++ [m])%list /\
         data m = PDeadLetter
                    {| originalData := d; dl_error_message := message e;
                       dl_error_timestamp := clock r (ticks r);
                       dl_connector := n;
                       failureTime := clock r (S (ticks r)) |})).
  { intros w'' Hw. unfold dead_letters. rewrite Hw. destruct s. cbn in *.
    repeat split; auto.
    intros Hok. destruct (Hwrite Hok) as (_ & Hpub). rewrite Hpub.
    eexists. split; reflexivity. }
  destruct c as [[] | err]; cbn [fst snd]; (split; [reflexivity | apply Hgoal; reflexivity]).
Qed.

(** What [handleConnectorError] does for a registered connector. *)
Lemma handleConnectorError_effect w n e d info :
  connectors (this w) !! n = Some info ->
  let w' := snd (handleConnectorError n e d w) in
  fst (handleConnectorError n e d w) = Normal tt /\
  connectors (this w') = alter failed n (connectors (this w)) /\
  (deadLetterQueueEnabled (config_of (this w)) && truthy d = false ->
   messageQueue (this w') = messageQueue (this w)) /\
  MessageQueue.config_of (messageQueue (this w'))
    = MessageQueue.config_of (messageQueue (this w)) /\
  (forall t, t <> "dead-letter-queue" ->
     QueueScenarios.published_to t (messageQueue (this w'))
     = QueueScenarios.published_to t (messageQueue (this w))) /\
  (deadLetterQueueEnabled (config_of (this w)) && truthy d = true ->
   queue_accepts w ->
   exists m dl,
     dead_letters w' = (dead_letters w ++ [m])%list /\
     data m = PDeadLetter dl /\
     originalData dl = d /\ dl_connector dl = n /\ dl_error_message dl = message e).
Proof.
  intros Hn. unfold queue_accepts. open_service w.
  unfold handleConnectorError, bind, gets, when, modify, emit, with_rt, Date_now, ret.
  cbn. rewrite Hn. cbn.
  destruct (deadLetterQueueEnabled cfg && truthy d) eqn:Hdl; cbn.
  - match goal with |- context [sendToDeadLetterQueue ?a ?b ?c ?W] =>
      pose proof (sendToDeadLetterQueue_writes W a b c) as Hsend;
      destruct (sendToDeadLetterQueue a b c W) as [c0 W'] end.
    unfold queue_accepts in Hsend. cbn in Hsend.
    destruct Hsend as (-> & _ & Hconn & _ & Hcfg & Hother & Hwrite).
    cbn. repeat apply conj; try reflexivity; auto.
    + discriminate.
    + intros _ Hok. destruct (Hwrite Hok) as (m0 & Hm & Hdata).
      exists m0. eexists. split; [| split; [exact Hdata | repeat split]].
      unfold dead_letters in *. cbn in *. exact Hm.
  - repeat apply conj; try reflexivity; auto. discriminate.
Qed.

(** C5, amended.  For an error of a registered connector, with the dead-letter
    queue enabled: [errorCount] grows by one and [isHealthy] becomes false
    once [errorCount > 5]; a dead-letter entry that names the connector and
    the error is written when the error comes with a record (a truthy
    [data]) and the backend accepts the entry; without a record, as for
    every error event of a connector, nothing is published. *)
Theorem error_is_counted_and_its_record_dead_lettered w n e d info :
  connectors (this w) !! n = Some info ->
  deadLetterQueueEnabled (config_of (this w)) = true ->
  let w' := snd (handleConnectorError n e d w) in
  fst (handleConnectorError n e d w) = Normal tt /\
  (exists info',
      connectors (this w') !! n = Some info' /\
      errorCount info' = errorCount info + 1 /\
      (5 < errorCount info' -> isHealthy info' = false) /\
      (errorCount info' <= 5 -> isHealthy info' = isHealthy info)) /\
  (truthy d = false -> messageQueue (this w') = messageQueue (this w)) /\
  (truthy d = true -> queue_accepts w ->
   exists m dl,
     dead_letters w' = (dead_letters w ++ [m])%list /\
     data m = PDeadLetter dl /\
     originalData dl = d /\ dl_connector dl = n /\ dl_error_message dl = message e) /\
  on_connector_signal n (SigError e) w = handleConnectorError n e VNull w.
Proof.
  intros Hn Hdl.
  destruct (handleConnectorError_effect w n e d info Hn) as (Hret & Hconn & Hnone & _ & _ & Hsome).
  rewrite Hdl in Hnone, Hsome. cbn [andb] in Hnone, Hsome.
  cbn zeta. repeat apply conj; auto.
  exists (failed info). rewrite Hconn, lookup_alter_eq, Hn. cbn.
  destruct (Z.ltb_spec 5 (errorCount info + 1)); repeat split; auto; lia.
Qed.

(** *** Validation *)

Lemma validateData_runs w r :
  validateData (VRec r) w =
  if truthy_num (timestamp r) && truthy_str (source r)
  then (Normal (in_window (clock (rt w) (ticks (rt w))) (default 0 (timestamp r))),
        {| this := this w; rt := tick (rt w) |})
  else (Normal false, w).
Proof.
  unfold validateData, in_window, bind, Date_now, ret.
  destruct (truthy_num (timestamp r)), (truthy_str (source r)); cbn; try reflexivity.
  destruct (_ || _); reflexivity.
Qed.

Lemma validateData_rejects_others w v :
  (forall r, v <> VRec r) -> validateData v w = (Normal false, w).
Proof.
  intros Hv. destruct v; try reflexivity. now destruct (Hv r).
Qed.

Lemma validateData_accepts w v :
  fst (validateData v w) = Normal true <->
  exists r t s,
    v = VRec r /\ timestamp r = Some t /\ t <> 0 /\
    source r = Some s /\ s <> "" /\
    clock (rt w) (ticks (rt w)) - 3600000 <= t <= clock (rt w) (ticks (rt w)) + 60000.
Proof.
  split.
  - destruct v as [ | | b | z | s | r]; try (cbn; discriminate).
    rewrite validateData_runs. unfold in_window.
    destruct (timestamp r) as [t|] eqn:Ht; cbn; [| discriminate].
    destruct (Z.eqb_spec t 0); cbn; [discriminate |].
    destruct (source r) as [s|] eqn:Hs; cbn; [| discriminate].
    destruct (String.eqb_spec s ""); cbn; [discriminate |].
    intros Hok. injection Hok as Hok. apply negb_true_iff, orb_false_iff in Hok.
    destruct Hok as [Hlo Hhi]. apply Z.ltb_ge in Hlo, Hhi.
    exists r, t, s. repeat split; auto; lia.
  - intros (r & t & s & -> & Ht & Ht0 & Hs & Hs0 & Hlo & Hhi).
    rewrite validateData_runs, Ht, Hs. unfold in_window. cbn.
    destruct (Z.eqb_spec t 0); [contradiction |].
    destruct (String.eqb_spec s ""); [contradiction |]. cbn.
    destruct (Z.ltb_spec t (clock (rt w) (ticks (rt w)) - 60 * 60 * 1000)); [lia |].
    destruct (Z.ltb_spec (clock (rt w) (ticks (rt w)) + 60 * 1000) t); [lia |].
    reflexivity.
Qed.

Lemma handleConnectorData_record w n r info :
  connectors (this w) !! n = Some info ->
  queue_accepts w ->
  MessageQueue.rawData (MessageQueue.topics_of (MessageQueue.config_of (messageQueue (this w))))
    <> "dead-letter-queue" ->
  let w' := snd (handleConnectorData n (VRec r) w) in
  fst (handleConnectorData n (VRec r) w) = Normal tt /\
  (passes r w = true ->
   dead_letters w' = dead_letters w /\
   connectors (this w') !! n = Some (received (clock (rt w) (ticks (rt w))) info) /\
   exists m, raw_data w' = (raw_data w ++ [m])%list /\ data m = PRecord (enriched n r w)) /\
  (passes r w = false ->
   raw_data w' = raw_data w /\
   connectors (this w') !! n
     = Some (failed (received (clock (rt w) (ticks (rt w))) info)) /\
   (deadLetterQueueEnabled (config_of (this w)) = true ->
    exists m dl,
      dead_letters w' = (dead_letters w ++ [m])%list /\
      data m = PDeadLetter dl /\
      originalData dl = VRec r /\ dl_connector dl = n /\
      dl_error_message dl = "Data validation failed")).
Proof.
  intros Hn Hok Hraw.
  unfold passes, enriched, raw_data, dead_letters, queue_accepts in *. open_service w.
  unfold handleConnectorData, generateMessageId, bind, gets, modify, try_catch,
    Date_now, Math_random_toString36, ret, throw, emit, with_rt.
  cbn. rewrite Hn. cbn. rewrite validateData_runs. cbn.
  destruct (truthy_num (timestamp r) && truthy_str (source r)) eqn:Hfields; cbn;
    [destruct (in_window _ _) eqn:Hwin; cbn |].
  - unfold on_messageQueue, zoom, MessageQueue.publishRawData, bind, gets. cbn.
    match goal with |- context [MessageQueue.publish ?t ?p ?m ?W] =>
      pose proof (QueueProperties.publish_keeps W t p m) as Hkeep;
      pose proof (QueueProperties.publish_writes W t p m Hok) as Hwrite;
      destruct (MessageQueue.publish t p m W) as [c W'] end.
    cbn in Hkeep, Hwrite. destruct Hkeep as (Hcfg & _ & _ & Hother).
    destruct Hwrite as (-> & Hpub). cbn.
    split; [reflexivity |]. split; [| discriminate]. intros _.
    rewrite Hcfg. cbn. rewrite Hpub, (Hother "dead-letter-queue") by congruence.
    repeat split; [now rewrite lookup_alter_eq, Hn |].
    eexists. split; reflexivity.
  - match goal with |- context [handleConnectorError ?a ?b ?c ?W] =>
      pose proof (handleConnectorError_effect W a b c
                    (received (clock r0 (ticks r0)) info)) as Herr;
      destruct (handleConnectorError a b c W) as [c0 W'] end.
    unfold queue_accepts, dead_letters in Herr.
    cbn in Herr. rewrite lookup_alter_eq, Hn in Herr.
    destruct (Herr eq_refl) as (-> & Hconn & _ & Hcfg & Hother & Hwrite). cbn.
    split; [reflexivity |]. split; [discriminate |]. intros _.
    rewrite Hcfg. cbn. rewrite Hother by congruence.
    repeat split.
    + now rewrite Hconn, lookup_alter_eq, lookup_alter_eq, Hn.
    + intros Hdl. rewrite Hdl in Hwrite. exact (Hwrite eq_refl Hok).
  - match goal with |- context [handleConnectorError ?a ?b ?c ?W] =>
      pose proof (handleConnectorError_effect W a b c
                    (received (clock r0 (ticks r0)) info)) as Herr;
      destruct (handleConnectorError a b c W) as [c0 W'] end.
    unfold queue_accepts, dead_letters in Herr.
    cbn in Herr. rewrite lookup_alter_eq, Hn in Herr.
    destruct (Herr eq_refl) as (-> & Hconn & _ & Hcfg & Hother & Hwrite). cbn.
    split; [reflexivity |]. split; [discriminate |]. intros _.
    rewrite Hcfg. cbn. rewrite Hother by congruence.
    repeat split.
    + now rewrite Hconn, lookup_alter_eq, lookup_alter_eq, Hn.
    + intros Hdl. rewrite Hdl in Hwrite. exact (Hwrite eq_refl Hok).
Qed.

Lemma two_hours_old now : in_window now (now - 7200000) = false.
Proof.
  unfold in_window.
  destruct (Z.ltb_spec (now - 7200000) (now - 60 * 60 * 1000)); [reflexivity | lia].
Qed.

Lemma half_an_hour_old now : in_window now (now - 1800000) = true.
Proof.
  unfold in_window.
  destruct (Z.ltb_spec (now - 1800000) (now - 60 * 60 * 1000)); [lia |].
  destruct (Z.ltb_spec (now + 60 * 1000) (now - 1800000)); [lia | reflexivity].
Qed.

(** C7, amended.  [validateData] accepts exactly the objects whose
    [timestamp] is not null and not 0 and lies in [[now - 1h, now + 1min]],
    and whose [source] is not null and not the empty string.  When the
    backend accepts what is handed to it, a record of a registered connector
    whose timestamp is [now - 2h] is not published, and is dead-lettered if
    the dead-letter queue is enabled; a record whose timestamp is
    [now - 30min] and whose source is a non-empty string is published to the
    raw-data topic and not dead-lettered.  [now] is the time of the
    validation. *)
Theorem validation_accepts_the_window_and_a_named_source w :
  (forall v,
      fst (validateData v w) = Normal true <->
      exists r t s,
        v = VRec r /\ timestamp r = Some t /\ t <> 0 /\
        source r = Some s /\ s <> "" /\
        clock (rt w) (ticks (rt w)) - 3600000 <= t <= clock (rt w) (ticks (rt w)) + 60000) /\
  (forall n info r,
      connectors (this w) !! n = Some info ->
      queue_accepts w ->
      MessageQueue.rawData
        (MessageQueue.topics_of (MessageQueue.config_of (messageQueue (this w))))
        <> "dead-letter-queue" ->
      let now := clock (rt w) (S (S (S (ticks (rt w))))) in
      let w' := snd (handleConnectorData n (VRec r) w) in
      (timestamp r = Some (now - 7200000) ->
       raw_data w' = raw_data w /\
       (deadLetterQueueEnabled (config_of (this w)) = true ->
        exists m dl,
          dead_letters w' = (dead_letters w ++ [m])%list /\
          data m = PDeadLetter dl /\ originalData dl = VRec r /\ dl_connector dl = n)) /\
      (forall s,
          source r = Some s -> s <> "" ->
          timestamp r = Some (now - 1800000) -> now <> 1800000 ->
          dead_letters w' = dead_letters w /\
          exists m,
            raw_data w' = (raw_data w ++ [m])%list /\
            data m = PRecord (enriched n r w))).
Proof.
  split; [intros v; apply validateData_accepts |].
  intros n info r Hn Hok Hraw now w'.
  destruct (handleConnectorData_record w n r info Hn Hok Hraw) as (_ & Hpass & Hfail).
  fold w' in Hpass, Hfail.
  split.
  - intros Ht.
    assert (Hno : passes r w = false).
    { unfold passes. rewrite Ht. cbn [default]. fold now.
      rewrite two_hours_old. now destruct (truthy_num _), (truthy_str _). }
    destruct (Hfail Hno) as (Hrawd & _ & Hdead). split; [exact Hrawd |].
    intros Hdl. destruct (Hdead Hdl) as (m & dl & H1 & H2 & H3 & H4 & _). eauto 10.
  - intros s Hs Hs0 Ht Hnow.
    assert (Hsrc : truthy_str (source r) = true).
    { rewrite Hs. cbn. now destruct (String.eqb_spec s ""). }
    assert (Hyes : passes r w = true).
    { unfold passes. rewrite Ht, Hsrc. cbn [default truthy_num]. fold now.
      rewrite half_an_hour_old. now destruct (Z.eqb_spec (now - 1800000) 0); [lia |]. }
    destruct (Hpass Hyes) as (Hdead & _ & Hpub). split; [exact Hdead | exact Hpub].
Qed.

(** *** Identifiers *)

Lemma string_of_uint_no_underscore d :
  no_underscore (NilEmpty.string_of_uint d) = true.
Proof. induction d; cbn; auto. Qed.

Lemma string_of_Z_no_underscore z : no_underscore (string_of_Z z) = true.
Proof.
  unfold string_of_Z. destruct (Z.to_int z); cbn; apply string_of_uint_no_underscore.
Qed.

Lemma string_of_Z_inj a b : string_of_Z a = string_of_Z b -> a = b.
Proof.
  unfold string_of_Z. intros Heq.
  apply (f_equal NilEmpty.int_of_string) in Heq.
  rewrite !NilEmpty.isi in Heq. injection Heq as Heq.
  apply (f_equal Z.of_int) in Heq. now rewrite !DecimalZ.of_to in Heq.
Qed.

Lemma split_at_underscore d1 : forall d2 s1 s2,
  no_underscore d1 = true -> no_underscore d2 = true ->
  d1 ++ "_" ++ s1 = d2 ++ "_" ++ s2 -> d1 = d2 /\ s1 = s2.
Proof.
  induction d1 as [|c d1 IH]; intros [|c' d2] s1 s2 H1 H2 Heq;
    cbv [append] in Heq; fold append in Heq; cbn in H1, H2.
  - injection Heq as ->. auto.
  - injection Heq as <- _. rewrite Ascii.eqb_refl in H2. discriminate.
  - injection Heq as -> _. rewrite Ascii.eqb_refl in H1. discriminate.
  - injection Heq as -> Heq.
    apply andb_true_iff in H1, H2. destruct H1 as [_ H1], H2 as [_ H2].
    destruct (IH d2 s1 s2 H1 H2 Heq) as [-> ->]. auto.
Qed.

Lemma append_inj_head (prefix s1 s2 : string) :
  prefix ++ s1 = prefix ++ s2 -> s1 = s2.
Proof.
  induction prefix as [|c p IH]; cbv [append]; fold append; intros Heq; [exact Heq |].
  injection Heq as Heq. auto.
Qed.

Lemma identifier_inj (prefix : string) t1 t2 r1 r2 :
  prefix ++ string_of_Z t1 ++ "_" ++ r1 = prefix ++ string_of_Z t2 ++ "_" ++ r2 <->
  t1 = t2 /\ r1 = r2.
Proof.
  split; [| now intros [-> ->]].
  intros Heq. apply append_inj_head in Heq.
  apply split_at_underscore in Heq; auto using string_of_Z_no_underscore.
  destruct Heq as [Ht ->]. split; [now apply string_of_Z_inj | reflexivity].
Qed.

(** C8.  How far the identifiers are unique.  Two identifiers of the
    service, and likewise two of the queue, are equal exactly when they
    were generated at the same reading of [Date.now()] and from random
    draws whose renderings in base 36 agree on the nine characters that
    are kept.  Identifiers generated at different readings of the clock,
    or from draws that differ in those characters, are distinct; nothing
    else keeps two identifiers apart, although both [generateMessageId]
    methods are documented to generate a unique identifier. *)
Theorem identifiers_differ_when_time_or_draw_differs :
  (forall (w1 w2 : world service) id1 id2,
      fst (generateMessageId w1) = Normal id1 ->
      fst (generateMessageId w2) = Normal id2 ->
      (id1 = id2 <->
       clock (rt w1) (ticks (rt w1)) = clock (rt w2) (ticks (rt w2)) /\
       substr 2 9 (random36 (rt w1) (draws (rt w1)))
       = substr 2 9 (random36 (rt w2) (draws (rt w2))))) /\
  (forall (w1 w2 : world MessageQueue.queue) id1 id2,
      fst (MessageQueue.generateMessageId w1) = Normal id1 ->
      fst (MessageQueue.generateMessageId w2) = Normal id2 ->
      (id1 = id2 <->
       clock (rt w1) (ticks (rt w1)) = clock (rt w2) (ticks (rt w2)) /\
       substr 2 9 (random36 (rt w1) (draws (rt w1)))
       = substr 2 9 (random36 (rt w2) (draws (rt w2))))).
Proof.
  split; intros w1 w2 id1 id2 H1 H2; cbn in H1, H2;
    injection H1 as <-; injection H2 as <-; apply identifier_inj.
Qed.

(** *** The service at work *)

(** C5, as stated, fails: the error event of a connector carries no record,
    and nothing is written to the dead-letter topic for it. *)
Lemma error_without_record_is_not_dead_lettered :
  deadLetterQueueEnabled (config_of (this (supervising calm))) = true /\
  errorCount
  <$> connectors
        (this (snd (on_connector_signal "mta" (SigError (Error "ETIMEDOUT"))
                                        (supervising calm)))) !! "mta"
  = Some 1 /\
  MessageQueue.messageBuffer
    (messageQueue
       (this (snd (on_connector_signal "mta" (SigError (Error "ETIMEDOUT"))
                                       (supervising calm)))))
  !! "dead-letter-queue" = None /\
  immediates (rt (snd (on_connector_signal "mta" (SigError (Error "ETIMEDOUT"))
                                           (supervising calm)))) = [].
Proof. repeat split; vm_compute; reflexivity. Qed.

Lemma error_is_counted_and_its_record_dead_lettered_witness :
  exists m dl,
    dead_letters
      (snd (handleConnectorError "mta" (Error "Data validation failed")
              (VRec (arrival 1 "mta")) (supervising calm)))
    = (dead_letters (supervising calm) ++ [m])%list /\
    data m = PDeadLetter dl /\
    originalData dl = VRec (arrival 1 "mta") /\ dl_connector dl = "mta" /\
    dl_error_message dl = message (Error "Data validation failed").
Proof.
  refine (proj1 (proj2 (proj2 (proj2
            (error_is_counted_and_its_record_dead_lettered
               (supervising calm) "mta" (Error "Data validation failed")
               (VRec (arrival 1 "mta"))
               {| name := "mta"; registeredAt := 1700000000000;
                  lastDataReceived := None; errorCount := 0; dataCount := 0;
                  isHealthy := true |} _ _)))) _ _);
    vm_compute; reflexivity.
Defined.

(** C7, as stated, fails: a record whose source is the empty string has a
    non-null source and a timestamp in the window, and is rejected. *)
Lemma empty_source_is_rejected :
  clock (rt (supervising calm)) (ticks (rt (supervising calm))) = 1700000000001 /\
  specified_valid (VRec (arrival 1700000000000 "")) 1700000000001 /\
  fst (validateData (VRec (arrival 1700000000000 "")) (supervising calm)) = Normal false.
Proof.
  split; [vm_compute; reflexivity |]. split; [| vm_compute; reflexivity].
  exists (arrival 1700000000000 ""), 1700000000000, "".
  repeat split; try reflexivity; lia.
Qed.

(** C8 fails in the code: two records enriched in the same millisecond
    from different random draws that agree on their first nine digits get
    the same [messageId], and so do the two messages that carry them. *)
Lemma two_records_share_an_identifier :
  random36 frozen 0 <> random36 frozen 2 /\
  map source_of (raw_data two_arrivals) = [Some "mta-bdfm"; Some "mta-ace"] /\
  map messageId_of (raw_data two_arrivals)
  = [Some "ing_1700000000000_k2j4h6g8d"; Some "ing_1700000000000_k2j4h6g8d"] /\
  map id (raw_data two_arrivals)
  = ["msg_1700000000000_k2j4h6g8d"; "msg_1700000000000_k2j4h6g8d"].
Proof.
  split; [vm_compute; discriminate |].
  repeat split; vm_compute; reflexivity.
Qed.

(** The validation of a record that [mta] emits to [supervising calm] reads
    the clock at 1700000000004. *)
Lemma validation_accepts_the_window_and_a_named_source_witness :
  (raw_data (snd (handleConnectorData "mta" (VRec (arrival (1700000000004 - 7200000) "mta"))
                    (supervising calm)))
   = raw_data (supervising calm) /\
   exists m dl,
     dead_letters (snd (handleConnectorData "mta"
                          (VRec (arrival (1700000000004 - 7200000) "mta"))
                          (supervising calm)))
     = (dead_letters (supervising calm) ++ [m])%list /\
     data m = PDeadLetter dl /\
     originalData dl = VRec (arrival (1700000000004 - 7200000) "mta") /\
     dl_connector dl = "mta") /\
  (dead_letters (snd (handleConnectorData "mta"
                        (VRec (arrival (1700000000004 - 1800000) "mta"))
                        (supervising calm)))
   = dead_letters (supervising calm) /\
   exists m,
     raw_data (snd (handleConnectorData "mta"
                      (VRec (arrival (1700000000004 - 1800000) "mta"))
                      (supervising calm)))
     = (raw_data (supervising calm) ++ [m])%list /\
     data m = PRecord (enriched "mta" (arrival (1700000000004 - 1800000) "mta")
                                (supervising calm))).
Proof.
  pose proof (proj2 (validation_accepts_the_window_and_a_named_source (supervising calm))
                "mta"
                {| name := "mta"; registeredAt := 1700000000000;
                   lastDataReceived := None; errorCount := 0; dataCount := 0;
                   isHealthy := true |}) as Hrecord.
  split.
  - destruct (proj1 (Hrecord (arrival (1700000000004 - 7200000) "mta")
                             ltac:(vm_compute; reflexivity)
                             ltac:(vm_compute; (reflexivity || exact I))
                             ltac:(vm_compute; discriminate))
                      ltac:(vm_compute; reflexivity)) as [Hkept Hdead].
    exact (conj Hkept (Hdead ltac:(vm_compute; reflexivity))).
  - refine (proj2 (Hrecord (arrival (1700000000004 - 1800000) "mta") _ _ _)
                  "mta" _ _ _ _);
      vm_compute; (reflexivity || discriminate || exact I).
Defined.

(** Two identifiers that the service generates one after the other, a
    millisecond apart. *)
Lemma identifiers_differ_when_time_or_draw_differs_witness :
  fst (generateMessageId (supervising calm)) = Normal "ing_1700000000001_k2j4h6g8d" /\
  fst (generateMessageId (snd (generateMessageId (supervising calm))))
  = Normal "ing_1700000000002_k2j4h6g8d" /\
  ("ing_1700000000001_k2j4h6g8d" = "ing_1700000000002_k2j4h6g8d" <->
   clock (rt (supervising calm)) (ticks (rt (supervising calm)))
   = clock (rt (snd (generateMessageId (supervising calm))))
           (ticks (rt (snd (generateMessageId (supervising calm))))) /\
   substr 2 9 (random36 (rt (supervising calm)) (draws (rt (supervising calm))))
   = substr 2 9 (random36 (rt (snd (generateMessageId (supervising calm))))
                          (draws (rt (snd (generateMessageId (supervising calm))))))).
Proof.
  split; [vm_compute; reflexivity |]. split; [vm_compute; reflexivity |].
  refine (proj1 identifiers_differ_when_time_or_draw_differs
                (supervising calm) (snd (generateMessageId (supervising calm)))
                _ _ _ _); vm_compute; reflexivity.
Defined.

(** A record that is two hours old, on a broker that is up: the entry is
    handed to the broker for the topic of the dead letters. *)
Example rejected_record_reaches_the_broker :
  map (fun m => topic m)
      (dead_letters
         (snd (handleConnectorData "mta" (VRec (arrival (1700000000004 - 7200000) "mta"))
                 (snd (registerConnector "mta"
                         (constructor default_config MessageQueue.default_config calm))))))
  = ["dead-letter-queue"] /\
  raw_data
    (snd (handleConnectorData "mta" (VRec (arrival (1700000000004 - 7200000) "mta"))
            (snd (registerConnector "mta"
                    (constructor default_config MessageQueue.default_config calm)))))
  = [].
Proof. split; vm_compute; reflexivity. Qed.

End ServiceProperties.

(** * The connector under the service *)

Module PipelineProperties.
Import BaseConnector.

(** C9.  When the fetch resolves with null, or with another falsy value,
    the poll cycle counts a success: [successfulFetches] grows by one,
    [retryCount] is 0, [lastSuccessTime] is the current time, the breaker is
    closed, and the response time is folded into the average.  No [data]
    event is emitted, so the handlers of the service leave the service, and
    with it [dataCount] and [lastDataReceived] of the entry, as they were. *)
Theorem falsy_fetch_is_a_success_without_data
  {num : Type} `{Number num} (w : world (connector num)) (startTime : Z) (d : value) :
  truthy d = false ->
  let w' := snd (pollData_resume startTime (Normal d) w) in
  successfulFetches (metrics_of (this w')) = successfulFetches (metrics_of (this w)) + 1 /\
  failedFetches (metrics_of (this w')) = failedFetches (metrics_of (this w)) /\
  retryCount (this w') = 0 /\
  lastSuccessTime (this w') = Some (clock (rt w) (S (S (ticks (rt w))))) /\
  circuitBreakerOpen (this w') = false /\
  avgResponseTime (metrics_of (this w')) =
    div (add (mul (avgResponseTime (metrics_of (this w)))
                  (of_Z (successfulFetches (metrics_of (this w)) + 1 - 1)))
             (of_Z (clock (rt w) (ticks (rt w)) - startTime)))
        (of_Z (successfulFetches (metrics_of (this w)) + 1)) /\
  exists signals,
    emitted (rt w') = (emitted (rt w) ++ signals)%list /\
    (forall v, ~ In (SigData v) signals) /\
    forall n (s : world DataIngestionService.service),
      DataIngestionService.deliver n signals s = (Normal tt, s) /\
      DataIngestionService.connectors (this (snd (DataIngestionService.deliver n signals s)))
      = DataIngestionService.connectors (this s).
Proof.
  intros Hfalsy w'.
  destruct (ConnectorProperties.pollData_resume_succeeds w startTime d)
    as (_ & _ & _ & O & N & L & S & F & _ & A & _ & E).
  fold w' in O, N, L, S, F, A, E. rewrite Hfalsy in E.
  repeat (split; [assumption |]).
  exists (if circuitBreakerOpen (this w) then [SigCircuitBreakerClosed] else []).
  split; [now rewrite E, app_nil_r |].
  destruct (circuitBreakerOpen (this w)); cbn.
  - split; [intros v [Hv | []]; discriminate |]. intros n s. split; reflexivity.
  - split; [intros v [] |]. intros n s. split; reflexivity.
Qed.

(** The first fetch of a started connector resolves with [null]. *)
Lemma falsy_fetch_is_a_success_without_data_witness :
  successfulFetches
    (metrics_of (this (snd (pollData_resume 0 (Normal VNull) ConnectorScenarios.started))))
  = successfulFetches (metrics_of (this ConnectorScenarios.started)) + 1 /\
  emitted (rt (snd (pollData_resume 0 (Normal VNull) ConnectorScenarios.started)))
  = [SigStart].
Proof.
  split.
  - exact (proj1 (falsy_fetch_is_a_success_without_data
                    ConnectorScenarios.started 0 VNull eq_refl)).
  - vm_compute. reflexivity.
Defined.

End PipelineProperties.

(** * The life cycle of a connector *)

Module ConnectorLifecycle.
Import BaseConnector ConnectorScenarios LifecycleScenarios.

(** Close a goal on a state that differs from the old one in what it has
    emitted. *)
Ltac emitting signals :=
  split; [auto |]; split; [reflexivity |]; split; [reflexivity |];
  exists signals; split; [rewrite ?app_nil_r; reflexivity | reflexivity].

(** Close a goal of the form [well_kept], from the facts of the state
    before. *)
Ltac kept :=
  split; [reflexivity |]; split; [lia |]; split;
  [ let Hc := fresh in
    intros Hc; try discriminate Hc;
    try (match goal with
         | Hclosed : _ = false -> _ /\ _ |- _ => destruct (Hclosed Hc)
         end);
    split; first [lia | reflexivity | assumption]
  | let Hc := fresh in
    intros Hc; try discriminate Hc;
    first [reflexivity | match goal with Hs : _ = false -> _ |- _ => exact (Hs Hc) end] ].

Section Generic.
Context {num : Type} `{Number num}.
Implicit Types w : world (connector num).

Lemma stop_when_running w :
  isRunning (this w) = true ->
  stop w =
  (Normal tt,
   {| this := set_circuitBreakerTimer None (set_pollTimer None (set_isRunning false (this w)));
      rt := record_signal SigStop (rt w) |}).
Proof.
  intros Hrun. open_world w. now destruct ptimer, btimer.
Qed.

Lemma start_when_stopped w :
  isRunning (this w) = false ->
  start w =
  pollData_enter {| this := set_isRunning true (this w); rt := record_signal SigStart (rt w) |}.
Proof.
  intros Hrun. open_world w. reflexivity.
Qed.

Lemma step_stuck e w :
  stuck w ->
  stuck (step e w) /\
  successfulFetches (metrics_of (this (step e w))) = successfulFetches (metrics_of (this w)) /\
  failedFetches (metrics_of (this (step e w))) = failedFetches (metrics_of (this w)) /\
  exists signals,
    emitted (rt (step e w)) = (emitted (rt w) ++ signals)%list /\
    lifecycle_only signals = true.
Proof.
  unfold stuck. intros (Hopen & Htimer & Hidle).
  destruct e as [ | | | | i outcome | ]; open_world w.
  - run_methods. destruct running; cbn; [emitting (@nil signal) | emitting [SigStart]].
  - run_methods. destruct running, ptimer; cbn;
      first [emitting (@nil signal) | emitting [SigStop]].
  - destruct ptimer; [| cbn; emitting (@nil signal)].
    run_methods. destruct running; cbn; emitting (@nil signal).
  - cbn. emitting (@nil signal).
  - unfold settle. cbn. rewrite Hidle, lookup_nil. cbn. emitting (@nil signal).
  - run_methods. emitting (@nil signal).
Qed.

Lemma run_stuck es : forall w,
  stuck w ->
  stuck (run es w) /\
  successfulFetches (metrics_of (this (run es w))) = successfulFetches (metrics_of (this w)) /\
  failedFetches (metrics_of (this (run es w))) = failedFetches (metrics_of (this w)) /\
  exists signals,
    emitted (rt (run es w)) = (emitted (rt w) ++ signals)%list /\
    lifecycle_only signals = true.
Proof.
  induction es as [|e es IH]; intros w Hw.
  - cbn. split; [exact Hw |]. split; [reflexivity |]. split; [reflexivity |].
    exists []. now rewrite app_nil_r.
  - cbn [run fold_left]. fold (run es (step e w)).
    destruct (step_stuck e w Hw) as (Hw1 & S1 & F1 & sig1 & E1 & L1).
    destruct (IH _ Hw1) as (Hw2 & S2 & F2 & sig2 & E2 & L2).
    split; [exact Hw2 |]. rewrite S2, F2, E2, E1, S1, F1.
    split; [reflexivity |]. split; [reflexivity |].
    exists (sig1 ++ sig2)%list. rewrite app_assoc. split; [reflexivity |].
    unfold lifecycle_only in *. now rewrite forallb_app, L1, L2.
Qed.

(** X1.  [stop()] clears the timer that would close an open breaker, and
    nothing else closes it but a successful fetch: once a running connector
    whose breaker is open and that has no fetch in flight is stopped, no
    later event (restarts, timers, health checks) closes the breaker or
    starts a fetch.  The counts of successes and failures stay, and only
    [start] and [stop] events are emitted. *)
Theorem stop_with_open_breaker_is_final w es :
  isRunning (this w) = true ->
  circuitBreakerOpen (this w) = true ->
  awaiting (rt w) = [] ->
  let w' := run (Stop_called :: es) w in
  circuitBreakerOpen (this w') = true /\
  awaiting (rt w') = [] /\
  successfulFetches (metrics_of (this w')) = successfulFetches (metrics_of (this w)) /\
  failedFetches (metrics_of (this w')) = failedFetches (metrics_of (this w)) /\
  exists signals,
    emitted (rt w') = (emitted (rt w) ++ SigStop :: signals)%list /\
    lifecycle_only signals = true.
Proof.
  intros Hrun Hopen Hidle w'. subst w'.
  cbn [run fold_left]. fold (run es (step Stop_called w)).
  assert (Hstop : stuck (step Stop_called w) /\
                  successfulFetches (metrics_of (this (step Stop_called w)))
                  = successfulFetches (metrics_of (this w)) /\
                  failedFetches (metrics_of (this (step Stop_called w)))
                  = failedFetches (metrics_of (this w)) /\
                  emitted (rt (step Stop_called w)) = (emitted (rt w) ++ [SigStop])%list).
  { unfold stuck. open_world w. run_methods. destruct ptimer, btimer; cbn; auto 10. }
  destruct Hstop as (Hstuck & S1 & F1 & E1).
  destruct (run_stuck es _ Hstuck) as ((O & _ & I) & S2 & F2 & sigs & E2 & L2).
  rewrite S2, F2, S1, F1, E2, E1. do 4 (split; [auto |]).
  exists sigs. now rewrite <- app_assoc.
Qed.

(** *** What every reachable state satisfies *)

Lemma step_well_kept cfg e w :
  0 < maxRetries cfg -> well_kept cfg w -> well_kept cfg (step e w).
Proof.
  unfold well_kept. intros Hmax (Hcfg & Hcount & Hclosed & Hstopped).
  destruct e as [ | | | | i outcome | ]; open_world w.
  - run_methods. destruct running, open; cbn in *; kept.
  - run_methods. destruct running, ptimer, btimer; cbn in *; kept.
  - destruct ptimer; [| cbn; kept].
    run_methods. destruct running, open; cbn in *; kept.
  - destruct btimer; [| cbn; kept].
    run_methods. destruct open; cbn in *; kept.
  - unfold settle. cbn. destruct (awaiting r !! i) as [t0|]; [| cbn; kept].
    destruct outcome as [d | err]; run_methods.
    + destruct open, btimer, (truthy d), running; cbn in *; kept.
    + destruct (Z.leb_spec (maxRetries cfg) (retries + 1)), open, running; cbn in *; kept.
  - run_methods. kept.
Qed.

Lemma run_well_kept cfg es : forall w,
  0 < maxRetries cfg -> well_kept cfg w -> well_kept cfg (run es w).
Proof.
  induction es as [|e es IH]; intros w Hmax Hw; [exact Hw |].
  cbn [run fold_left]. fold (run es (step e w)). apply IH; [exact Hmax |].
  now apply step_well_kept.
Qed.

(** X2.  In every state that a connector reaches from its construction,
    whatever the events: the configuration is the one it was built with;
    [retryCount] is not negative; while the breaker is closed, fewer than
    [maxRetries] fetches have failed in a row and no breaker timer is held;
    and a stopped connector holds no poll timer. *)
Theorem breaker_and_timers_are_kept_consistent cfg clk rnd ops es :
  0 < maxRetries cfg ->
  let w := run es {| this := constructor cfg; rt := boot clk rnd ops |} in
  config_of (this w) = cfg /\
  0 <= retryCount (this w) /\
  (circuitBreakerOpen (this w) = false ->
   retryCount (this w) < maxRetries cfg /\ circuitBreakerTimer (this w) = None) /\
  (isRunning (this w) = false -> pollTimer (this w) = None).
Proof.
  intros Hmax w. apply (run_well_kept cfg es _ Hmax).
  unfold well_kept. cbn. repeat split; auto; lia.
Qed.

Lemma pollData_resume_when_stopped w startTime outcome :
  isRunning (this w) = false ->
  pollTimer (this (snd (pollData_resume startTime outcome w))) = pollTimer (this w).
Proof.
  intros Hrun. open_world w. destruct outcome as [d | err]; run_methods.
  - now destruct open, btimer, (truthy d).
  - now destruct open, (maxRetries cfg <=? retries + 1).
Qed.

Lemma settle_succeeds i w startTime d :
  awaiting (rt w) !! i = Some startTime ->
  let w' := snd (settle i (Normal d) w) in
  awaiting (rt w') = delete i (awaiting (rt w)) /\
  isRunning (this w') = isRunning (this w) /\
  circuitBreakerOpen (this w') = false /\
  successfulFetches (metrics_of (this w')) = successfulFetches (metrics_of (this w)) + 1 /\
  totalFetches (metrics_of (this w')) = totalFetches (metrics_of (this w)) /\
  emitted (rt w') =
    (emitted (rt w)
     ++ (if circuitBreakerOpen (this w) then [SigCircuitBreakerClosed] else [])
     ++ (if truthy d then [SigData d] else []))%list.
Proof.
  intros Hi. cbn zeta. rewrite (ConnectorProperties.settle_resumes i _ w startTime Hi).
  match goal with |- context [pollData_resume _ _ ?w1] =>
    destruct (ConnectorProperties.pollData_resume_succeeds w1 startTime d)
      as (R & A & _ & O & _ & _ & S & _ & T & _ & _ & E)
  end.
  cbn zeta in *. rewrite R, A, O, S, T, E. destruct w as [c r]. cbn. auto 10.
Qed.

(** X3.  [stop()] does not cancel a fetch in flight.  When the fetch
    resolves after the stop, it is counted as a success and its [data]
    event is emitted after the [stop] event, but no further poll is
    scheduled: the connector stays stopped and holds no poll timer. *)
Theorem fetch_in_flight_outlives_stop w i startTime d :
  isRunning (this w) = true ->
  awaiting (rt w) !! i = Some startTime ->
  truthy d = true ->
  let w' := run [Stop_called; Fetch_settles i (Normal d)] w in
  isRunning (this w') = false /\
  pollTimer (this w') = None /\
  awaiting (rt w') = delete i (awaiting (rt w)) /\
  successfulFetches (metrics_of (this w')) = successfulFetches (metrics_of (this w)) + 1 /\
  emitted (rt w') =
    (emitted (rt w) ++ [SigStop]
     ++ (if circuitBreakerOpen (this w) then [SigCircuitBreakerClosed] else [])
     ++ [SigData d])%list.
Proof.
  intros Hrun Hi Hd w'. subst w'. cbn [run fold_left step].
  assert (Hstop : isRunning (this (snd (stop w))) = false /\
                  pollTimer (this (snd (stop w))) = None /\
                  successfulFetches (metrics_of (this (snd (stop w))))
                  = successfulFetches (metrics_of (this w)) /\
                  circuitBreakerOpen (this (snd (stop w))) = circuitBreakerOpen (this w) /\
                  awaiting (rt (snd (stop w))) = awaiting (rt w) /\
                  emitted (rt (snd (stop w))) = (emitted (rt w) ++ [SigStop])%list).
  { clear Hi. open_world w.
    unfold stop, when, emit, with_rt, bind, ret, gets, modify.
    destruct ptimer, btimer; cbn; auto 10. }
  set (w1 := snd (stop w)) in *. clearbody w1.
  destruct Hstop as (R1 & P1 & S1 & O1 & A1 & E1).
  rewrite (ConnectorProperties.settle_resumes i _ _ startTime) by now rewrite A1.
  rewrite A1.
  match goal with |- context [pollData_resume ?t _ ?w1a] =>
    destruct (ConnectorProperties.pollData_resume_succeeds w1a t d)
      as (R & A & _ & _ & _ & _ & S & _ & _ & _ & _ & E);
    pose proof (pollData_resume_when_stopped w1a t (Normal d) R1) as P
  end.
  cbn [this rt awaiting set_awaiting emitted] in R, A, S, E, P.
  rewrite R, A, S, E, P, Hd, R1, P1, S1, O1, E1, <- app_assoc. repeat split; auto.
Qed.

(** X4.  [start()] does not wait for a fetch that is still in flight from
    before a [stop()]: after [stop()] and [start()] a second fetch is in
    flight beside the first, and when both resolve both are counted and
    both [data] events are emitted. *)
Theorem restart_during_a_fetch_runs_two_cycles w t0 d1 d2 :
  isRunning (this w) = true ->
  circuitBreakerOpen (this w) = false ->
  awaiting (rt w) = [t0] ->
  truthy d1 = true -> truthy d2 = true ->
  let w1 := run [Stop_called; Start_called] w in
  let w2 := run [Fetch_settles 0 (Normal d1); Fetch_settles 0 (Normal d2)] w1 in
  awaiting (rt w1) = [t0; clock (rt w) (ticks (rt w))] /\
  isRunning (this w1) = true /\
  awaiting (rt w2) = [] /\
  successfulFetches (metrics_of (this w2)) = successfulFetches (metrics_of (this w)) + 2 /\
  totalFetches (metrics_of (this w2)) = totalFetches (metrics_of (this w)) + 1 /\
  emitted (rt w2) = (emitted (rt w) ++ [SigStop; SigStart; SigData d1; SigData d2])%list.
Proof.
  intros Hrun Hopen Hidle Hd1 Hd2.
  assert (H1 : let w1 := run [Stop_called; Start_called] w in
               awaiting (rt w1) = [t0; clock (rt w) (ticks (rt w))] /\
               isRunning (this w1) = true /\ circuitBreakerOpen (this w1) = false /\
               successfulFetches (metrics_of (this w1))
               = successfulFetches (metrics_of (this w)) /\
               totalFetches (metrics_of (this w1)) = totalFetches (metrics_of (this w)) + 1 /\
               emitted (rt w1) = (emitted (rt w) ++ [SigStop; SigStart])%list).
  { cbn zeta. unfold run. cbn [fold_left step].
    rewrite (stop_when_running w Hrun). cbn [snd].
    rewrite start_when_stopped by reflexivity.
    rewrite ConnectorProperties.pollData_enter_closed by (cbn; auto).
    open_world w. rewrite Hidle, <- app_assoc. auto 10. }
  cbn zeta in *. destruct H1 as (A1 & R1 & O1 & S1 & T1 & E1).
  generalize dependent (run [Stop_called; Start_called] w). intros w1 A1 R1 O1 S1 T1 E1.
  unfold run. cbn [fold_left step].
  destruct (settle_succeeds 0 w1 t0 d1) as (Aa & _ & Oa & Sa & Ta & Ea);
    [now rewrite A1 |].
  rewrite A1 in Aa. cbn [delete list_delete] in Aa.
  generalize dependent (snd (settle 0 (Normal d1) w1)). intros wa Aa Oa Sa Ta Ea.
  destruct (settle_succeeds 0 wa (clock (rt w) (ticks (rt w))) d2) as (Ab & _ & _ & Sb & Tb & Eb);
    [now rewrite Aa |].
  rewrite Aa in Ab. cbn [delete list_delete] in Ab.
  generalize dependent (snd (settle 0 (Normal d2) wa)). intros wb Ab Sb Tb Eb.
  rewrite Ab, Sb, Tb, Eb, Sa, Ta, Ea, Oa, O1, S1, T1, E1, Hd1, Hd2.
  cbn. rewrite <- !app_assoc. cbn. repeat split; auto; lia.
Qed.

End Generic.

(** The success rate over the rationals. *)
Lemma step_counted e (w : world (connector Q)) : counted w -> counted (step e w).
Proof.
  unfold counted. intros (Hs & Hf).
  destruct e as [ | | | | i outcome | ]; open_world w.
  - run_methods. destruct running, open; cbn; auto.
  - run_methods. destruct running, ptimer, btimer; cbn; auto.
  - destruct ptimer; [| cbn; auto].
    run_methods. destruct running, open; cbn; auto.
  - destruct btimer; [| cbn; auto].
    run_methods. destruct open; cbn; auto.
  - unfold settle. cbn. destruct (awaiting r !! i) as [t0|]; [| cbn; auto].
    destruct outcome as [d | err]; run_methods.
    + destruct open, btimer, (truthy d), running; cbn; split; lia.
    + destruct open, (maxRetries cfg <=? retries + 1), running; cbn; split; lia.
  - run_methods. auto.
Qed.

Lemma run_counted es : forall (w : world (connector Q)), counted w -> counted (run es w).
Proof.
  induction es as [|e es IH]; intros w Hw; [exact Hw |].
  cbn [run fold_left]. fold (run es (step e w)). apply IH. now apply step_counted.
Qed.

(** X5.  In exact arithmetic, the success rate that [getHealth()] reports
    is a fraction between 0 and 1 in every state that a connector reaches
    from its construction. *)
Theorem successRate_is_between_0_and_1 cfg clk rnd ops es :
  let w : world (connector Q) :=
    run es {| this := constructor cfg; rt := boot clk rnd ops |} in
  exists h, fst (getHealth w) = Normal h /\ (0 <= successRate h <= 1)%Q.
Proof.
  intros w.
  pose proof (ConnectorProperties.run_begun es
                {| this := constructor (num := Q) cfg; rt := boot clk rnd ops |}) as Hle.
  pose proof (run_counted es
                {| this := constructor (num := Q) cfg; rt := boot clk rnd ops |}) as Hpos.
  fold w in Hle, Hpos. unfold begun, counted in *. cbn in Hle, Hpos.
  specialize (Hle ltac:(lia)). specialize (Hpos ltac:(lia)).
  destruct Hpos as [Hs Hf].
  destruct w as [[c run rc open lp ls pt bt [tot suc fl avg lf]] r]. cbn in *.
  eexists. split; [reflexivity |]. cbn.
  destruct tot as [|p|p]; cbn.
  - split; unfold Qle; cbn; lia.
  - unfold Qdiv, Qmult, Qinv, Qle. cbn. split; nia.
  - split; unfold Qle; cbn; lia.
Qed.

(** Stopping the connector whose breaker is open, and four more events. *)
Lemma stop_with_open_breaker_is_final_witness :
  circuitBreakerOpen
    (this (run [Stop_called; Start_called; PollTimer_fires; CircuitBreakerTimer_fires;
                GetHealth_called] tripped)) = true /\
  awaiting
    (rt (run [Stop_called; Start_called; PollTimer_fires; CircuitBreakerTimer_fires;
              GetHealth_called] tripped)) = [].
Proof.
  refine (let H := stop_with_open_breaker_is_final tripped
                     [Start_called; PollTimer_fires; CircuitBreakerTimer_fires;
                      GetHealth_called] _ _ _ in
          conj (proj1 H) (proj1 (proj2 H)));
    vm_compute; reflexivity.
Defined.

Lemma breaker_and_timers_are_kept_consistent_witness :
  retryCount (this (run restart_with_open_breaker (fresh (num := Q) default_config))) = 3 /\
  0 <= retryCount (this (run restart_with_open_breaker (fresh (num := Q) default_config))).
Proof.
  split; [vm_compute; reflexivity |].
  refine (proj1 (proj2 (breaker_and_timers_are_kept_consistent
                          default_config (fun n => 1000 * Z.of_nat n) (fun _ => "0.5")
                          (fun _ => Normal tt) restart_with_open_breaker _)));
    vm_compute; reflexivity.
Defined.

Lemma fetch_in_flight_outlives_stop_witness :
  isRunning (this (run [Stop_called; Fetch_settles 0 (Normal (VRec sample))] started)) = false /\
  emitted (rt (run [Stop_called; Fetch_settles 0 (Normal (VRec sample))] started))
  = [SigStart; SigStop; SigData (VRec sample)].
Proof.
  refine (let H := fetch_in_flight_outlives_stop started 0%nat 0 (VRec sample) _ _ _ in
          conj (proj1 H) (proj2 (proj2 (proj2 (proj2 H)))));
    vm_compute; reflexivity.
Defined.

Lemma restart_during_a_fetch_runs_two_cycles_witness :
  awaiting (rt (run [Stop_called; Start_called] started)) = [0; 1000] /\
  isRunning (this (run [Stop_called; Start_called] started)) = true.
Proof.
  refine (let H := restart_during_a_fetch_runs_two_cycles
                     started 0 (VRec sample) (VRec sample) _ _ _ _ _ in
          conj (proj1 H) (proj1 (proj2 H)));
    vm_compute; reflexivity.
Defined.

End ConnectorLifecycle.

(** * Publishing, delivery and statistics of the message queue *)

Module QueueOperations.
Import MessageQueue QueueScenarios DeliveryScenarios.

(** X6.  The set-up of the queue never throws, whatever the configuration
    and whatever the broker or the store answers.  Afterwards the type is
    the configured one or [memory]; [isConnected] is true exactly when the
    configured backend was set up; and with the type [memory] every
    configured topic has an empty buffer and no other topic has one. *)
Theorem setupQueue_always_returns cfg r :
  let w := snd (setupQueue {| this := constructor cfg; rt := r |}) in
  fst (setupQueue {| this := constructor cfg; rt := r |}) = Normal tt /\
  (type (config_of (this w)) = type cfg \/ type (config_of (this w)) = memory) /\
  (forall n, type (config_of (this w)) <> unsupported n) /\
  (isConnected (this w) = true <->
   type cfg = memory \/
   ((type cfg = kafka \/ type cfg = redis) /\ io r (ios r) = Normal tt)) /\
  (type (config_of (this w)) = memory ->
   forall t, messageBuffer (this w) !! t
             = if bool_decide (t ∈ topic_values (topics_of cfg)) then Some [] else None).
Proof.
  assert (Hbuf : forall ts t,
             empty_buffers ts !! t
             = if bool_decide (t ∈ topic_values ts) then Some [] else None).
  { intros [t1 t2 t3 t4] t. unfold empty_buffers, topic_values. cbn.
    destruct (decide (t = t4)) as [-> | H4].
    { rewrite lookup_insert_eq, bool_decide_eq_true_2; [reflexivity |].
      rewrite !elem_of_cons. auto. }
    rewrite lookup_insert_ne by congruence.
    destruct (decide (t = t3)) as [-> | H3].
    { rewrite lookup_insert_eq, bool_decide_eq_true_2; [reflexivity |].
      rewrite !elem_of_cons. auto. }
    rewrite lookup_insert_ne by congruence.
    destruct (decide (t = t2)) as [-> | H2].
    { rewrite lookup_insert_eq, bool_decide_eq_true_2; [reflexivity |].
      rewrite !elem_of_cons. auto. }
    rewrite lookup_insert_ne by congruence.
    destruct (decide (t = t1)) as [-> | H1].
    { rewrite lookup_insert_eq, bool_decide_eq_true_2; [reflexivity |].
      rewrite !elem_of_cons. auto. }
    rewrite lookup_insert_ne by congruence. rewrite lookup_empty.
    rewrite bool_decide_eq_false_2; [reflexivity |].
    rewrite !elem_of_cons, elem_of_nil. tauto. }
  destruct cfg as [[ | | | n] ts]; cbn zeta;
    unfold setupQueue, setupKafka, setupRedis, external, try_catch, bind, gets, modify,
      throw, when, ret; cbn.
  - destruct (io r (ios r)) as [[] | e] eqn:Hio; cbn;
      (split; [reflexivity |]); (split; [auto |]); (split; [discriminate |]); split.
    + split; [auto | reflexivity].
    + discriminate.
    + split; [discriminate | intros [? | [_ ?]]; discriminate].
    + intros _. apply Hbuf.
  - destruct (io r (ios r)) as [[] | e] eqn:Hio; cbn;
      (split; [reflexivity |]); (split; [auto |]); (split; [discriminate |]); split.
    + split; [auto | reflexivity].
    + discriminate.
    + split; [discriminate | intros [? | [_ ?]]; discriminate].
    + intros _. apply Hbuf.
  - (split; [reflexivity |]); (split; [auto |]); (split; [discriminate |]); split.
    + split; [auto | reflexivity].
    + intros _. apply Hbuf.
  - (split; [reflexivity |]); (split; [auto |]); (split; [discriminate |]); split.
    + split; [discriminate | intros [? | [[? | ?] _]]; discriminate].
    + intros _. apply Hbuf.
Qed.

Lemma publish_rejected w t p meta e :
  type (config_of (this w)) = kafka \/ type (config_of (this w)) = redis ->
  io (rt w) (ios (rt w)) = Throw e ->
  publish t p meta w
  = (Throw e, {| this := this w; rt := operate (tick (draw (tick (rt w)))) |}).
Proof.
  intros Hty Hio. destruct w as [[[ty ts] c b l h] r]. cbn in *.
  unfold publish, generateMessageId, publishToKafka, publishToRedis, try_catch, bind, gets,
    modify, emit, with_rt, ret, throw, external, Date_now, Math_random_toString36.
  destruct Hty as [-> | ->]; cbn; rewrite Hio; reflexivity.
Qed.

(** X7.  When the broker or the store rejects a message, [publish] throws
    the error it was given and nothing records the message: the queue is
    as before, no [published] event is emitted and no delivery is pending.
    The identifier and the timestamp of the message have been drawn, so the
    clock has been read twice and one random number is used. *)
Theorem rejected_publish_throws_and_records_nothing w t p meta e :
  type (config_of (this w)) = kafka \/ type (config_of (this w)) = redis ->
  io (rt w) (ios (rt w)) = Throw e ->
  let w' := snd (publish t p meta w) in
  fst (publish t p meta w) = Throw e /\
  this w' = this w /\
  emitted (rt w') = emitted (rt w) /\
  immediates (rt w') = immediates (rt w) /\
  ticks (rt w') = S (S (ticks (rt w))) /\
  draws (rt w') = S (draws (rt w)) /\
  ios (rt w') = S (ios (rt w)).
Proof.
  intros Hty Hio. cbn zeta. rewrite (publish_rejected w t p meta e Hty Hio).
  cbn. auto 10.
Qed.

(** *** Order *)

Lemma drain_calls ms : forall (w : world queue) t,
  immediates (rt w) = map (fun m => (t, m)) ms ->
  let w' := snd (drain (length ms) w) in
  this w' = this w /\
  immediates (rt w') = [] /\
  invoked (rt w') = (invoked (rt w) ++ calls (default [] (listeners (this w) !! t)) ms)%list.
Proof.
  induction ms as [|m ms IH]; intros w t Himm.
  - cbn. rewrite app_nil_r. auto.
  - cbn [length drain]. unfold bind.
    assert (Hrun : run_immediate w =
                   (Normal tt,
                    {| this := this w;
                       rt := record_calls
                               (map (fun h => (h, m)) (default [] (listeners (this w) !! t)))
                               (set_immediates (map (fun m => (t, m)) ms) (rt w)) |})).
    { unfold run_immediate. now rewrite Himm. }
    rewrite Hrun.
    match goal with |- context [drain (length ms) ?w1] =>
      destruct (IH w1 t) as (T & I & V); [reflexivity |] end.
    cbn zeta in *. rewrite I, V, T. cbn. rewrite <- app_assoc. auto.
Qed.

Lemma publish_each_to_memory ps : forall (w : world queue) t meta,
  type (config_of (this w)) = memory ->
  let w' := snd (publish_each t ps meta w) in
  fst (publish_each t ps meta w) = Normal tt /\
  type (config_of (this w')) = memory /\
  listeners (this w') = listeners (this w) /\
  invoked (rt w') = invoked (rt w) /\
  (forall t', t' <> t -> published_to t' (this w') = published_to t' (this w)) /\
  exists ms,
    map data ms = ps /\
    Forall (fun m => topic m = t) ms /\
    published_to t (this w') = (published_to t (this w) ++ ms)%list /\
    immediates (rt w') = (immediates (rt w) ++ map (fun m => (t, m)) ms)%list.
Proof.
  induction ps as [|p ps IH]; intros w t meta Hty.
  - cbn. do 5 (split; [auto |]). exists []. rewrite !app_nil_r. auto.
  - cbn [publish_each]. unfold bind.
    destruct (QueueProperties.publish_to_memory w t p meta Hty) as (Hret & _ & Himm & Hty' & _).
    destruct (QueueProperties.publish_keeps w t p meta) as (_ & _ & Hlis & Hother).
    destruct (QueueProperties.publish_writes w t p meta) as (_ & Hpub).
    { unfold accepts_next. now rewrite Hty. }
    assert (Hinv : invoked (rt (snd (publish t p meta w))) = invoked (rt w)).
    { clear. destruct w as [[[ty ts] c b l h] r].
      unfold publish, generateMessageId, publishToMemory, publishToKafka, publishToRedis,
        try_catch, bind, gets, modify, when, emit, with_rt, ret, throw, external, Date_now,
        Math_random_toString36. cbn.
      destruct ty; cbn; [destruct (io r (ios r)) | destruct (io r (ios r)) | |];
        cbn; try reflexivity.
      now destruct (bool_decide (b !! t = None)). }
    destruct (publish t p meta w) as [c w1]. cbn [fst snd] in *. subst c.
    destruct (IH w1 t meta Hty') as (R & T & L & V & O & ms & D & F & P & I).
    cbn zeta in *. rewrite R, T, L, V, Hlis, Hinv. do 4 (split; [auto |]). split.
    + intros t' Hne. now rewrite O, Hother.
    + exists (envelope t p meta (rt w) :: ms). cbn [map].
      rewrite D, P, I, Hpub, Himm, <- !app_assoc.
      split; [reflexivity |]. split; [constructor; [reflexivity | exact F] |].
      split; reflexivity.
Qed.

(** X8.  The in-process buffer keeps the order of publication.  Messages
    published one after the other to a topic are appended to the buffer of
    the topic in that order, the other topics are left alone, and the
    deferred deliveries call the handlers of the topic message by message
    in the same order, each message reaching the handlers in the order of
    their subscription. *)
Theorem buffer_and_delivery_keep_the_order w t ps meta :
  type (config_of (this w)) = memory ->
  immediates (rt w) = [] ->
  let w' := snd (publish_each t ps meta w) in
  let w'' := snd (drain (length ps) w') in
  fst (publish_each t ps meta w) = Normal tt /\
  (forall t', t' <> t -> published_to t' (this w') = published_to t' (this w)) /\
  exists ms,
    map data ms = ps /\
    Forall (fun m => topic m = t) ms /\
    published_to t (this w') = (published_to t (this w) ++ ms)%list /\
    invoked (rt w'') =
      (invoked (rt w) ++ calls (default [] (listeners (this w) !! t)) ms)%list /\
    immediates (rt w'') = [].
Proof.
  intros Hty Hidle. cbn zeta.
  destruct (publish_each_to_memory ps w t meta Hty) as (R & _ & L & V & O & ms & D & F & P & I).
  cbn zeta in *. split; [exact R |]. split; [exact O |].
  exists ms. rewrite Hidle in I. cbn in I.
  assert (Hlen : length ps = length ms) by now rewrite <- D, length_map.
  destruct (drain_calls ms (snd (publish_each t ps meta w)) t I) as (_ & I' & V').
  cbn zeta in *. rewrite Hlen, V', I', V, L. auto.
Qed.

(** X9.  A deferred delivery calls the handlers that are subscribed when
    it runs, not those of the time of the publication: a handler that
    subscribes between the two is called, and after [unsubscribe] in
    between nobody is called, while the message stays in the buffer.
    [unsubscribe] removes all the handlers of its topic and leaves the
    other topics alone. *)
Theorem delivery_uses_the_subscriptions_of_its_time w t p meta handler :
  type (config_of (this w)) = memory ->
  immediates (rt w) = [] ->
  let m := envelope t p meta (rt w) in
  let w1 := snd (publish t p meta w) in
  invoked (rt (snd (run_immediate (snd (subscribe t handler w1))))) =
    (invoked (rt w)
     ++ map (fun h => (h, m)) (default [] (listeners (this w) !! t) ++ [handler]))%list /\
  invoked (rt (snd (run_immediate (snd (unsubscribe t w1))))) = invoked (rt w) /\
  published_to t (this (snd (unsubscribe t w1))) = (published_to t (this w) ++ [m])%list /\
  listeners (this (snd (unsubscribe t w))) !! t = None /\
  forall t', t' <> t ->
    listeners (this (snd (unsubscribe t w))) !! t' = listeners (this w) !! t'.
Proof.
  intros Hty Hidle. destruct w as [[[ty ts] c b l h] r]. cbn in *. subst.
  unfold envelope, published_to, publish, generateMessageId, publishToMemory, try_catch, bind,
    gets, modify, when, with_rt, emit, ret, Date_now, Math_random_toString36, run_immediate,
    subscribe, unsubscribe.
  cbn. destruct (b !! t) as [old|] eqn:Hb; cbn; rewrite Hidle; cbn;
    rewrite ?lookup_insert_eq, ?lookup_delete_eq, ?lookup_alter_eq, ?Hb, ?app_nil_r; cbn;
    repeat split; auto; try (intros t' Hne; now rewrite lookup_delete_ne by congruence);
    now rewrite lookup_insert_eq.
Qed.

(** *** The convenience methods *)

Lemma subscriber_receives_from (project : topics -> string) x extra
      (sub : nat -> M queue unit) (pub : payload -> string -> M queue unit) :
  (forall h w, sub h w = subscribe (project (topics_of (config_of (this w)))) h w) ->
  (forall d y w, pub d y w =
                 publish (project (topics_of (config_of (this w)))) d
                         {| arg_source := None; arg_version := None;
                            arg_extra := [(extra, y)] |} w) ->
  forall w handler d,
    type (config_of (this w)) = memory ->
    immediates (rt w) = [] ->
    let t := project (topics_of (config_of (this w))) in
    let w1 := snd (sub handler w) in
    let w2 := snd (pub d x w1) in
    let w3 := snd (run_immediate w2) in
    fst (pub d x w1) = Normal tt /\
    exists m,
      data m = d /\ topic m = t /\
      md_source (msg_metadata m) = "unknown" /\
      md_version (msg_metadata m) = "1.0" /\
      md_extra (msg_metadata m) = [(extra, x)] /\
      published_to t (this w2) = (published_to t (this w) ++ [m])%list /\
      invoked (rt w3) =
        (invoked (rt w) ++ map (fun h => (h, m)) (default [] (listeners (this w) !! t)
                                                   ++ [handler]))%list.
Proof.
  intros Hsub Hpub w handler d Hty Hidle. cbn zeta.
  rewrite Hsub.
  assert (Hcfg : config_of (this (snd (subscribe (project (topics_of (config_of (this w))))
                                          handler w))) = config_of (this w)).
  { now destruct w as [[] ?]. }
  rewrite Hpub, Hcfg.
  set (t := project (topics_of (config_of (this w)))).
  set (meta := {| arg_source := None; arg_version := None; arg_extra := [(extra, x)] |}).
  destruct (QueueProperties.subscriber_receives w t handler d meta Hty Hidle) as (_ & Hret & Hcall).
  cbn zeta in Hcall. split; [exact Hret |].
  exists (envelope t d meta (rt w)). rewrite Hcall.
  destruct (QueueProperties.publish_writes (snd (subscribe t handler w)) t d meta) as (_ & Hw).
  { unfold accepts_next. destruct w as [[] ?]. cbn in *. now rewrite Hty. }
  rewrite Hw. do 5 (split; [reflexivity |]). split; [| reflexivity].
  destruct w as [[] ?]. reflexivity.
Qed.

(** X10.  Each of the four pairs of convenience methods works on its own
    configured topic: a handler subscribed with [subscribeToRawData],
    [subscribeToProcessedData], [subscribeToPredictions] or
    [subscribeToAlerts] is called with the next message that the matching
    [publish...] method publishes on the in-process buffer.  The message
    carries the data unchanged; [publishRawData] names its second argument
    as the source, the other three leave the source ['unknown'] and record
    the argument under [processor], [model] and [alertType]. *)
Theorem convenience_methods_pair_up w handler :
  type (config_of (this w)) = memory ->
  immediates (rt w) = [] ->
  let ts := topics_of (config_of (this w)) in
  let called t m :=
    (invoked (rt w) ++ map (fun h => (h, m)) (default [] (listeners (this w) !! t)
                                               ++ [handler]))%list in
  (forall r src,
      exists m,
        invoked (rt (snd (run_immediate
                            (snd (publishRawData r src (snd (subscribeToRawData handler w)))))))
        = called (rawData ts) m /\
        data m = PRecord r /\ md_source (msg_metadata m) = src) /\
  (forall d x,
      exists m,
        invoked (rt (snd (run_immediate
                            (snd (publishProcessedData d x
                                    (snd (subscribeToProcessedData handler w)))))))
        = called (processedData ts) m /\
        data m = d /\ md_source (msg_metadata m) = "unknown" /\
        md_extra (msg_metadata m) = [("processor", x)]) /\
  (forall d x,
      exists m,
        invoked (rt (snd (run_immediate
                            (snd (publishPrediction d x
                                    (snd (subscribeToPredictions handler w)))))))
        = called (predictions ts) m /\
        data m = d /\ md_source (msg_metadata m) = "unknown" /\
        md_extra (msg_metadata m) = [("model", x)]) /\
  (forall d x,
      exists m,
        invoked (rt (snd (run_immediate
                            (snd (publishAlert d x (snd (subscribeToAlerts handler w)))))))
        = called (alerts ts) m /\
        data m = d /\ md_source (msg_metadata m) = "unknown" /\
        md_extra (msg_metadata m) = [("alertType", x)]).
Proof.
  intros Hty Hidle ts called. repeat apply conj.
  - intros r src.
    assert (Hcfg : config_of (this (snd (subscribeToRawData handler w))) = config_of (this w)).
    { now destruct w as [[] ?]. }
    unfold publishRawData, subscribeToRawData, bind, gets in *. cbn [fst snd] in *.
    rewrite Hcfg.
    destruct (QueueProperties.subscriber_receives w (rawData ts) handler (PRecord r)
                {| arg_source := Some src; arg_version := None; arg_extra := [] |} Hty Hidle)
      as (_ & _ & Hcall).
    cbn zeta in Hcall. eexists. split; [exact Hcall |]. split; reflexivity.
  - intros d x.
    destruct (subscriber_receives_from processedData x "processor"
                subscribeToProcessedData publishProcessedData
                ltac:(reflexivity) ltac:(reflexivity) w handler d Hty Hidle)
      as (_ & m & D & _ & S & _ & E & _ & V).
    exists m. auto.
  - intros d x.
    destruct (subscriber_receives_from predictions x "model"
                subscribeToPredictions publishPrediction
                ltac:(reflexivity) ltac:(reflexivity) w handler d Hty Hidle)
      as (_ & m & D & _ & S & _ & E & _ & V).
    exists m. auto.
  - intros d x.
    destruct (subscriber_receives_from alerts x "alertType"
                subscribeToAlerts publishAlert
                ltac:(reflexivity) ltac:(reflexivity) w handler d Hty Hidle)
      as (_ & m & D & _ & S & _ & E & _ & V).
    exists m. auto.
Qed.

(** *** Statistics, health and closing *)

(** X11.  [getStats()] never throws and changes nothing.  It reports the
    type and [isConnected]; for the in-process buffer the length of every
    buffered topic, those created on the fly included, so a message
    published to a topic raises the reported size of that topic by one and
    of no other; for the broker no sizes but a note; for the store a size
    for every configured topic, which is the string ['error'] when the
    store does not answer. *)
Theorem getStats_reports_the_sizes w lLen :
  exists st,
    getStats lLen w = (Normal st, w) /\
    st_type st = type (config_of (this w)) /\
    st_connected st = isConnected (this w) /\
    (type (config_of (this w)) = memory ->
     (forall t, reported_size st t
                = (fun l => Size (Z.of_nat (length l))) <$> messageBuffer (this w) !! t) /\
     forall t p meta,
       exists st',
         fst (getStats lLen (snd (publish t p meta w))) = Normal st' /\
         reported_size st' t
         = Some (Size (Z.of_nat (length (default [] (messageBuffer (this w) !! t))) + 1)) /\
         forall t', t' <> t -> reported_size st' t' = reported_size st t') /\
    (type (config_of (this w)) = kafka ->
     queueSizes st = None /\ note st = Some "Kafka stats require admin client") /\
    (type (config_of (this w)) = redis ->
     let ts := topics_of (config_of (this w)) in
     (forall t, is_Some (reported_size st t) <-> t ∈ topic_values ts) /\
     (NoDup (topic_values ts) ->
      reported_size st (rawData ts) = Some (size_of_reply (lLen 0%nat)) /\
      reported_size st (processedData ts) = Some (size_of_reply (lLen 1%nat)) /\
      reported_size st (predictions ts) = Some (size_of_reply (lLen 2%nat)) /\
      reported_size st (alerts ts) = Some (size_of_reply (lLen 3%nat)))).
Proof.
  destruct w as [[[ty [t1 t2 t3 t4]] c b l h] r].
  destruct ty as [ | | | n]; (eexists; split; [reflexivity |]); cbn;
    (split; [reflexivity |]); (split; [reflexivity |]);
    (split; [| split]); try discriminate; intros _.
  - split; reflexivity.
  - unfold reported_size, size_of_reply. cbn. split.
    + intros t. rewrite !lookup_insert_is_Some, lookup_empty.
      unfold topic_values. cbn. rewrite !elem_of_cons, elem_of_nil.
      split.
      * intros [<- | [_ [<- | [_ [<- | [_ [<- | [_ Hn]]]]]]]]; auto.
        now destruct Hn.
      * intros Hin.
        destruct (decide (t4 = t)); [now left | right; split; [assumption |]].
        destruct (decide (t3 = t)); [now left | right; split; [assumption |]].
        destruct (decide (t2 = t)); [now left | right; split; [assumption |]].
        destruct (decide (t1 = t)); [now left | exfalso].
        destruct Hin as [-> | [-> | [-> | [-> | []]]]]; congruence.
    + unfold topic_values. cbn. intros Hnd.
      apply NoDup_cons in Hnd as [H1 Hnd]. apply NoDup_cons in Hnd as [H2 Hnd].
      apply NoDup_cons in Hnd as [H3 _].
      assert (t1 <> t2 /\ t1 <> t3 /\ t1 <> t4 /\ t2 <> t3 /\ t2 <> t4 /\ t3 <> t4)
        as (N12 & N13 & N14 & N23 & N24 & N34).
      { repeat split; intros ->;
          solve [apply H1; rewrite !elem_of_cons; auto
                | apply H2; rewrite !elem_of_cons; auto
                | apply H3; rewrite !elem_of_cons; auto]. }
      repeat split.
      * rewrite !lookup_insert_ne by congruence. now rewrite lookup_insert_eq.
      * rewrite !lookup_insert_ne by congruence. now rewrite lookup_insert_eq.
      * rewrite !lookup_insert_ne by congruence. now rewrite lookup_insert_eq.
      * now rewrite lookup_insert_eq.
  - unfold reported_size. cbn. split.
    + intros t. now rewrite lookup_fmap.
    + intros t p meta.
      unfold publish, generateMessageId, publishToMemory, try_catch, bind, gets, modify,
        when, with_rt, emit, ret, Date_now, Math_random_toString36, getStats, get. cbn.
      destruct (b !! t) as [old|] eqn:Hb; cbn; eexists; (split; [reflexivity |]); cbn.
      * rewrite lookup_fmap, lookup_alter_eq, Hb. cbn. rewrite length_app. cbn.
        split; [do 2 f_equal; lia |].
        intros t' Hne. now rewrite !lookup_fmap, lookup_alter_ne by congruence.
      * rewrite lookup_fmap, lookup_alter_eq, lookup_insert_eq. cbn.
        split; [reflexivity |].
        intros t' Hne.
        now rewrite !lookup_fmap, lookup_alter_ne, lookup_insert_ne by congruence.
Qed.

Lemma healthCheck_returns w : exists h, fst (healthCheck w) = Normal h.
Proof.
  destruct w as [[[ty ts] c b l h] r].
  unfold healthCheck, publish, generateMessageId, publishToKafka, try_catch, bind, gets,
    modify, emit, with_rt, ret, throw, external, Date_now, Math_random_toString36.
  cbn. destruct ty; cbn; try destruct (io r (ios r)); cbn; eauto.
Qed.

(** X12.  [healthCheck()] never throws.  On the broker it publishes a test
    message to the topic [health-check] each time it is called; when the
    broker takes the message the answer is [healthy] with [isConnected],
    and when it does not, or when the store does not answer the ping, the
    answer is [unhealthy], not connected, with the message of the error. *)
Theorem healthCheck_probes_the_backend w :
  (exists h, fst (healthCheck w) = Normal h) /\
  (type (config_of (this w)) = kafka -> io (rt w) (ios (rt w)) = Normal tt ->
   fst (healthCheck w)
   = Normal {| hc_status := "healthy"; connected := isConnected (this w); hc_error := None |} /\
   exists m,
     handed_over (this (snd (healthCheck w)))
     = (handed_over (this w) ++ [("health-check", m)])%list /\
     data m = PTest /\ md_source (msg_metadata m) = "health-check") /\
  (type (config_of (this w)) = redis -> io (rt w) (ios (rt w)) = Normal tt ->
   fst (healthCheck w)
   = Normal {| hc_status := "healthy"; connected := isConnected (this w); hc_error := None |} /\
   this (snd (healthCheck w)) = this w) /\
  (forall e,
      type (config_of (this w)) = kafka \/ type (config_of (this w)) = redis ->
      io (rt w) (ios (rt w)) = Throw e ->
      fst (healthCheck w)
      = Normal {| hc_status := "unhealthy"; connected := false;
                  hc_error := Some (message e) |} /\
      this (snd (healthCheck w)) = this w).
Proof.
  destruct w as [[[ty ts] c b l h] r].
  unfold healthCheck, publish, generateMessageId, publishToKafka, try_catch, bind, gets,
    modify, emit, with_rt, ret, throw, external, Date_now, Math_random_toString36.
  cbn. repeat apply conj.
  - apply (healthCheck_returns
             {| this := {| config_of := {| type := ty; topics_of := ts |}; isConnected := c;
                           messageBuffer := b; listeners := l; handed_over := h |};
                rt := r |}).
  - intros -> Hio. cbn. rewrite Hio. cbn. split; [reflexivity |].
    eexists. split; [reflexivity |]. split; reflexivity.
  - intros -> Hio. cbn. rewrite Hio. cbn. split; reflexivity.
  - intros e [-> | ->] Hio; cbn; rewrite Hio; cbn; split; reflexivity.
Qed.

(** X13.  [close()] never throws and touches nothing but [isConnected],
    which is false afterwards unless the store fails to quit, in which
    case it keeps its value.  [publish] never looks at [isConnected]: it
    does to a queue that is marked as not connected what it does to one
    that is marked as connected, so a closed in-process queue goes on
    taking and delivering messages. *)
Theorem close_marks_the_queue_and_publish_ignores_it w c :
  let w' := snd (close c w) in
  fst (close c w) = Normal tt /\
  config_of (this w') = config_of (this w) /\
  messageBuffer (this w') = messageBuffer (this w) /\
  listeners (this w') = listeners (this w) /\
  handed_over (this w') = handed_over (this w) /\
  isConnected (this w') =
    (if redisClient c
     then match io (rt w) (ios (rt w)) with
          | Normal _ => false
          | Throw _ => isConnected (this w)
          end
     else false) /\
  forall flag t p meta,
    publish t p meta {| this := set_isConnected flag (this w); rt := rt w |}
    = (fst (publish t p meta w),
       {| this := set_isConnected flag (this (snd (publish t p meta w)));
          rt := rt (snd (publish t p meta w)) |}).
Proof.
  destruct w as [[[ty ts] conn b l h] r]. destruct c as [pr co rc].
  unfold close, external, try_catch, bind, when, modify, ret. cbn.
  repeat apply conj.
  1-6: destruct rc; cbn; try destruct (io r (ios r)) as [[] | e]; reflexivity.
  intros flag t p meta.
  unfold publish, generateMessageId, publishToMemory, publishToKafka, publishToRedis,
    try_catch, bind, gets, modify, when, with_rt, emit, ret, throw, external, Date_now,
    Math_random_toString36. cbn.
  destruct ty; cbn; [destruct (io r (ios r)) | destruct (io r (ios r)) | |];
    cbn; try reflexivity.
  now destruct (bool_decide (b !! t = None)).
Qed.

(** The broker has stopped answering when a record is published. *)
Lemma rejected_publish_throws_and_records_nothing_witness :
  fst (publish "raw-data" (PRecord a_record) from_mta kafka_gone)
  = Throw (Error "BrokerNotAvailableError") /\
  this (snd (publish "raw-data" (PRecord a_record) from_mta kafka_gone)) = this kafka_gone.
Proof.
  refine (let H := rejected_publish_throws_and_records_nothing
                     kafka_gone "raw-data" (PRecord a_record) from_mta
                     (Error "BrokerNotAvailableError") _ _ in
          conj (proj1 H) (proj1 (proj2 H))).
  - left. reflexivity.
  - reflexivity.
Defined.

(** Three messages for the topic of the raw data, on the buffer that the
    failed set-up has left. *)
Lemma buffer_and_delivery_keep_the_order_witness :
  fst (publish_each "raw-data" three_payloads from_mta fallen_back) = Normal tt /\
  exists ms,
    map data ms = three_payloads /\
    published_to "raw-data" (this (snd (publish_each "raw-data" three_payloads from_mta
                                          fallen_back)))
    = (published_to "raw-data" (this fallen_back) ++ ms)%list.
Proof.
  destruct (buffer_and_delivery_keep_the_order fallen_back "raw-data" three_payloads from_mta
              eq_refl eq_refl) as (R & _ & ms & D & _ & P & _).
  exact (conj R (ex_intro _ ms (conj D P))).
Defined.

Lemma delivery_uses_the_subscriptions_of_its_time_witness :
  invoked (rt (snd (run_immediate
                      (snd (unsubscribe "raw-data"
                              (snd (publish "raw-data" (PRecord a_record) from_mta
                                      in_memory)))))))
  = invoked (rt in_memory).
Proof.
  exact (proj1 (proj2 (delivery_uses_the_subscriptions_of_its_time
                         in_memory "raw-data" (PRecord a_record) from_mta 7%nat
                         eq_refl eq_refl))).
Defined.

Lemma convenience_methods_pair_up_witness :
  exists m,
    invoked (rt (snd (run_immediate
                        (snd (publishAlert PTest "delay"
                                (snd (subscribeToAlerts 7%nat in_memory)))))))
    = [(7%nat, m)] /\
    data m = PTest /\ md_extra (msg_metadata m) = [("alertType", "delay")].
Proof.
  destruct (proj2 (proj2 (proj2 (convenience_methods_pair_up in_memory 7%nat
                                   eq_refl eq_refl))) PTest "delay")
    as (m & V & D & _ & E).
  exact (ex_intro _ m (conj V (conj D E))).
Defined.

End QueueOperations.

(** * The registry, the handlers and the health of the service *)

Module ServiceOperations.
Import DataIngestionService ServiceScenarios IngestionScenarios.

#[local] Arguments MessageQueue.publish : simpl never.
#[local] Arguments sendToDeadLetterQueue : simpl never.
#[local] Arguments handleConnectorError : simpl never.
#[local] Arguments validateData : simpl never.

(** X14.  [registerConnector] adds a name once.  For a name that is not
    registered it writes a fresh entry (no data, no errors, healthy,
    registered now), leaves the other entries and the queue alone, counts
    the registration and emits [connectorRegistered]; for a name that is
    registered, as the name is from then on, it throws and changes
    nothing. *)
Theorem registerConnector_adds_a_name_once w n :
  (connectors (this w) !! n = None ->
   let now := clock (rt w) (ticks (rt w)) in
   let w' := snd (registerConnector n w) in
   fst (registerConnector n w) = Normal tt /\
   connectors (this w') = <[n := registered n now]> (connectors (this w)) /\
   connectorsRegistered (metrics_of (this w'))
   = connectorsRegistered (metrics_of (this w)) + 1 /\
   messageQueue (this w') = messageQueue (this w) /\
   emitted (rt w') = (emitted (rt w) ++ [SigConnectorRegistered n])%list /\
   registerConnector n w'
   = (Throw (Error ("Connector " ++ n ++ " is already registered")), w')) /\
  (forall info,
      connectors (this w) !! n = Some info ->
      registerConnector n w
      = (Throw (Error ("Connector " ++ n ++ " is already registered")), w)).
Proof.
  open_service w. split.
  - intros Hn. unfold registerConnector, bind, gets, modify, throw, emit, with_rt, Date_now.
    cbn. rewrite Hn. cbn. rewrite lookup_insert_eq. cbn. auto 10.
  - intros info Hn. unfold registerConnector, bind, gets, throw. cbn. now rewrite Hn.
Qed.

(** *** What the handlers write *)

Lemma sendToDeadLetterQueue_frame w n e d :
  fst (sendToDeadLetterQueue n e d w) = Normal tt /\
  exists q, this (snd (sendToDeadLetterQueue n e d w)) = set_messageQueue q (this w).
Proof.
  destruct w as [s r].
  unfold sendToDeadLetterQueue, try_catch, bind, Date_now, on_messageQueue, zoom, ret.
  cbn [this rt fst snd].
  destruct (MessageQueue.publish _ _ _ _) as [[[] | err] W']; cbn; eauto.
Qed.

Lemma handleConnectorError_frame w n e d :
  fst (handleConnectorError n e d w) = Normal tt /\
  (exists q,
      this (snd (handleConnectorError n e d w))
      = set_messageQueue q (on_metrics incr_totalErrorsHandled (blamed n (this w)))) /\
  (deadLetterQueueEnabled (config_of (this w)) && truthy d = false ->
   snd (handleConnectorError n e d w)
   = {| this := on_metrics incr_totalErrorsHandled (blamed n (this w));
        rt := record_signal (SigConnectorError n e d (clock (rt w) (ticks (rt w))))
                            (tick (rt w)) |}).
Proof.
  destruct w as [s r].
  unfold handleConnectorError, bind, gets, when, modify, emit, with_rt, Date_now, ret, blamed.
  cbn [this rt fst snd].
  destruct (bool_decide (connectors s !! n <> None)); cbn [this rt fst snd].
  - destruct (deadLetterQueueEnabled (config_of _) && truthy d) eqn:Hdl.
    + match goal with |- context [sendToDeadLetterQueue ?a ?b ?c ?W] =>
        destruct (sendToDeadLetterQueue_frame W a b c) as (Hret & q & Hq);
        destruct (sendToDeadLetterQueue a b c W) as [c0 W'] end.
      cbn [this rt fst snd] in *. subst c0. cbn. rewrite Hq.
      split; [reflexivity |]. split; [now exists q |].
      destruct s. cbn in *. congruence.
    + split; [reflexivity |]. split.
      * exists (messageQueue s). now destruct s.
      * intros _. destruct s. reflexivity.
  - destruct (deadLetterQueueEnabled (config_of _) && truthy d) eqn:Hdl.
    + match goal with |- context [sendToDeadLetterQueue ?a ?b ?c ?W] =>
        destruct (sendToDeadLetterQueue_frame W a b c) as (Hret & q & Hq);
        destruct (sendToDeadLetterQueue a b c W) as [c0 W'] end.
      cbn [this rt fst snd] in *. subst c0. cbn. rewrite Hq.
      split; [reflexivity |]. split; [now exists q |].
      destruct s. cbn in *. congruence.
    + split; [reflexivity |]. split.
      * exists (messageQueue s). now destruct s.
      * intros _. destruct s. reflexivity.
Qed.

Lemma handleConnectorData_returns w n d :
  fst (handleConnectorData n d w) = Normal tt.
Proof.
  destruct w as [s r].
  unfold handleConnectorData, bind, gets. cbn [this rt fst snd].
  destruct (bool_decide (connectors s !! n = None)); [reflexivity |].
  unfold try_catch, generateMessageId, bind, gets, modify, Date_now, Math_random_toString36,
    ret, throw, emit, with_rt.
  cbn [this rt fst snd]. rewrite ServiceProperties.validateData_runs. cbn [timestamp source with_ingestion].
  destruct (truthy_num _ && truthy_str _); cbn [this rt fst snd];
    [destruct (in_window _ _); cbn [this rt fst snd] | ];
    try apply handleConnectorError_frame.
  unfold on_messageQueue, zoom, MessageQueue.publishRawData, bind, gets. cbn [this rt fst snd].
  destruct (MessageQueue.publish _ _ _ _) as [[[] | err] W']; cbn [this rt fst snd];
    [reflexivity | apply handleConnectorError_frame].
Qed.

Lemma on_connector_signal_returns w n s :
  fst (on_connector_signal n s w) = Normal tt.
Proof.
  destruct s; try reflexivity.
  - apply handleConnectorData_returns.
  - apply handleConnectorError_frame.
Qed.

Lemma deliver_returns n signals : forall w, fst (deliver n signals w) = Normal tt.
Proof.
  induction signals as [|s rest IH]; intros w; [reflexivity |].
  cbn [deliver]. unfold bind. pose proof (on_connector_signal_returns w n s) as Hs.
  destruct (on_connector_signal n s w) as [c w1]. cbn in Hs. subst c. apply IH.
Qed.

(** X15.  No exception escapes the handlers of the service.  Whatever
    arrives from a connector, whatever the state of the registry, and
    whatever the broker answers, [handleConnectorData],
    [handleConnectorError], [sendToDeadLetterQueue] and the listeners
    attached to a connector return normally. *)
Theorem handlers_never_throw w n d e s signals :
  fst (handleConnectorData n d w) = Normal tt /\
  fst (handleConnectorError n e d w) = Normal tt /\
  fst (sendToDeadLetterQueue n e d w) = Normal tt /\
  fst (on_connector_signal n s w) = Normal tt /\
  fst (deliver n signals w) = Normal tt.
Proof.
  repeat apply conj.
  - apply handleConnectorData_returns.
  - apply handleConnectorError_frame.
  - apply sendToDeadLetterQueue_frame.
  - apply on_connector_signal_returns.
  - apply deliver_returns.
Qed.

(** X16.  What comes from a name that is not registered: a record is
    dropped without a trace (nothing is counted, published, dead-lettered
    or emitted), while an error is still counted in [totalErrorsHandled]
    and announced by a [connectorError] event. *)
Theorem unregistered_data_is_dropped_but_errors_are_counted w n d e :
  connectors (this w) !! n = None ->
  handleConnectorData n d w = (Normal tt, w) /\
  snd (on_connector_signal n (SigError e) w)
  = {| this := on_metrics incr_totalErrorsHandled (this w);
       rt := record_signal (SigConnectorError n e VNull (clock (rt w) (ticks (rt w))))
                           (tick (rt w)) |}.
Proof.
  intros Hn. split.
  - destruct w as [s r]. unfold handleConnectorData, bind, gets. cbn in *. now rewrite Hn.
  - cbn [on_connector_signal].
    destruct (handleConnectorError_frame w n e VNull) as (_ & _ & Hw).
    rewrite Hw by apply andb_false_r. unfold blamed. now rewrite Hn.
Qed.


(** *** A record that the broker rejects *)

Lemma sendToDeadLetterQueue_rejected w n e d e' :
  MessageQueue.type (MessageQueue.config_of (messageQueue (this w))) = MessageQueue.kafka \/
  MessageQueue.type (MessageQueue.config_of (messageQueue (this w))) = MessageQueue.redis ->
  io (rt w) (ios (rt w)) = Throw e' ->
  sendToDeadLetterQueue n e d w
  = (Normal tt,
     {| this := this w; rt := operate (tick (draw (tick (tick (tick (rt w)))))) |}).
Proof.
  intros Hty Hio. destruct w as [s r].
  unfold sendToDeadLetterQueue, try_catch, bind, Date_now, on_messageQueue, zoom, ret.
  cbn [this rt fst snd] in *.
  rewrite (QueueOperations.publish_rejected _ _ _ _ e') by (cbn; assumption).
  destruct s. reflexivity.
Qed.

(** X17.  A record is lost when the broker rejects it and then rejects
    its dead letter as well: [handleConnectorData] returns normally, the
    queue is as before, so the record is neither published nor
    dead-lettered, and what is left of it is the counts (one record
    received, one error, also in the entry of the connector) and a
    [connectorError] event that carries the error of the broker and the
    record. *)
Theorem record_is_lost_when_the_broker_rejects_it_twice w n r info e1 e2 :
  connectors (this w) !! n = Some info ->
  passes r w = true ->
  MessageQueue.type (MessageQueue.config_of (messageQueue (this w))) = MessageQueue.kafka \/
  MessageQueue.type (MessageQueue.config_of (messageQueue (this w))) = MessageQueue.redis ->
  io (rt w) (ios (rt w)) = Throw e1 ->
  io (rt w) (S (ios (rt w))) = Throw e2 ->
  let w' := snd (handleConnectorData n (VRec r) w) in
  fst (handleConnectorData n (VRec r) w) = Normal tt /\
  messageQueue (this w') = messageQueue (this w) /\
  connectors (this w') !! n = Some (failed (received (clock (rt w) (ticks (rt w))) info)) /\
  totalDataReceived (metrics_of (this w')) = totalDataReceived (metrics_of (this w)) + 1 /\
  totalErrorsHandled (metrics_of (this w')) = totalErrorsHandled (metrics_of (this w)) + 1 /\
  exists t, emitted (rt w') = (emitted (rt w) ++ [SigConnectorError n e1 (VRec r) t])%list.
Proof.
  intros Hn Hpass Hty Hio1 Hio2. unfold passes in Hpass.
  apply andb_true_iff in Hpass as [Hfields Hwin].
  assert (Heq : exists t r',
             handleConnectorData n (VRec r) w
             = (Normal tt,
                {| this := on_metrics incr_totalErrorsHandled
                             (on_connectorInfo n failed
                                (on_metrics incr_totalDataReceived
                                   (on_connectorInfo n (received (clock (rt w) (ticks (rt w))))
                                      (this w))));
                   rt := record_signal (SigConnectorError n e1 (VRec r) t) r' |}) /\
             emitted r' = emitted (rt w)).
  { destruct w as [s r0]. cbn [this rt] in *.
    unfold handleConnectorData, bind, gets. cbn [this rt fst snd].
    rewrite Hn, bool_decide_eq_false_2 by discriminate.
    unfold try_catch, generateMessageId, bind, gets, modify, Date_now, Math_random_toString36,
      ret, throw, emit, with_rt.
    cbn [this rt fst snd]. rewrite ServiceProperties.validateData_runs.
    cbn [timestamp source with_ingestion spread this rt ticks tick draw clock].
    rewrite Hfields, Hwin. cbn [this rt fst snd].
    unfold on_messageQueue, zoom, MessageQueue.publishRawData, bind, gets.
    cbn [this rt fst snd].
    rewrite (QueueOperations.publish_rejected _ _ _ _ e1)
      by (destruct s; cbn in *; assumption).
    cbn [this rt fst snd].
    match goal with |- context [handleConnectorError ?a ?b ?c ?W] => set (W1 := W) end.
    unfold handleConnectorError, bind, gets, when, modify, emit, with_rt, Date_now, ret.
    assert (Hreg : connectors (this W1) !! n = Some (received (clock r0 (ticks r0)) info)).
    { subst W1. destruct s. cbn in *. now rewrite lookup_alter_eq, Hn. }
    cbn [this rt fst snd]. rewrite Hreg, bool_decide_eq_true_2 by discriminate.
    cbn [this rt fst snd truthy andb].
    destruct (deadLetterQueueEnabled _) eqn:Hdl; cbn [andb].
    - rewrite (sendToDeadLetterQueue_rejected _ _ _ _ e2);
        [| subst W1; destruct s; cbn in *; assumption
         | subst W1; destruct s; cbn in *; assumption].
      subst W1. destruct s. cbn. eexists _, _. split; reflexivity.
    - subst W1. destruct s. cbn. eexists _, _. split; reflexivity. }
  destruct Heq as (t & r' & Heq & Hem). cbn zeta. rewrite Heq. cbn [fst snd this rt].
  destruct w as [[] r0]. cbn in *. rewrite !lookup_alter_eq, Hn, Hem. cbn.
  repeat split; eauto.
Qed.


(** *** Records that fail the validation *)

Lemma handleConnectorData_invalid w n d info :
  connectors (this w) !! n = Some info ->
  lacks_a_field d = true ->
  MessageQueue.rawData
    (MessageQueue.topics_of (MessageQueue.config_of (messageQueue (this w))))
    <> "dead-letter-queue" ->
  let w' := snd (handleConnectorData n d w) in
  connectors (this w') !! n = Some (failed (received (clock (rt w) (ticks (rt w))) info)) /\
  metrics_of (this w') = incr_totalErrorsHandled (incr_totalDataReceived (metrics_of (this w))) /\
  MessageQueue.config_of (messageQueue (this w'))
    = MessageQueue.config_of (messageQueue (this w)) /\
  raw_data w' = raw_data w.
Proof.
  intros Hn Hlack Hraw. unfold lacks_a_field in Hlack. apply negb_true_iff in Hlack.
  destruct w as [s r0]. cbn [this rt] in *. cbn zeta.
  unfold handleConnectorData, bind, gets. cbn [this rt fst snd].
  rewrite Hn, bool_decide_eq_false_2 by discriminate.
  unfold try_catch, generateMessageId, bind, gets, modify, Date_now, Math_random_toString36,
    ret, throw, emit, with_rt.
  cbn [this rt fst snd]. rewrite ServiceProperties.validateData_runs.
  cbn [timestamp source with_ingestion this rt]. rewrite Hlack. cbn [this rt fst snd].
  match goal with |- context [handleConnectorError ?a ?b ?c ?W] =>
    pose proof (ServiceProperties.handleConnectorError_effect W a b c
                  (received (clock r0 (ticks r0)) info)) as Herr;
    destruct (handleConnectorError_frame W a b c) as (_ & (q & Hq) & _);
    set (W1 := W) in *
  end.
  assert (Hreg : connectors (this W1) !! n = Some (received (clock r0 (ticks r0)) info)).
  { subst W1. destruct s. cbn in *. now rewrite lookup_alter_eq, Hn. }
  destruct (Herr Hreg) as (_ & Hconn & _ & Hcfg & Hother & _). clear Herr.
  unfold raw_data. rewrite Hcfg, Hconn, Hother.
  - rewrite Hq. subst W1. destruct s. cbn in *.
    rewrite !lookup_alter_eq, Hn. split; [reflexivity |].
    split; [unfold blamed; now destruct (bool_decide _) | auto].
  - subst W1. destruct s. cbn in *. assumption.
Qed.

Lemma deliver_invalid n ds : forall w info,
  connectors (this w) !! n = Some info ->
  MessageQueue.rawData
    (MessageQueue.topics_of (MessageQueue.config_of (messageQueue (this w))))
    <> "dead-letter-queue" ->
  forallb lacks_a_field ds = true ->
  let w' := snd (deliver n (map SigData ds) w) in
  let k := Z.of_nat (length ds) in
  raw_data w' = raw_data w /\
  totalDataReceived (metrics_of (this w')) = totalDataReceived (metrics_of (this w)) + k /\
  totalErrorsHandled (metrics_of (this w')) = totalErrorsHandled (metrics_of (this w)) + k /\
  exists info',
    connectors (this w') !! n = Some info' /\
    dataCount info' = dataCount info + k /\
    errorCount info' = errorCount info + k /\
    (ds <> [] -> isHealthy info' = negb (5 <? errorCount info')).
Proof.
  induction ds as [|d ds IH]; intros w info Hn Hraw Hall.
  - cbn. rewrite !Z.add_0_r. do 3 (split; [reflexivity |]).
    exists info. repeat split; auto; try lia. congruence.
  - cbn [forallb] in Hall. apply andb_true_iff in Hall as [Hd Hall].
    cbn [map deliver on_connector_signal]. unfold bind.
    destruct (handleConnectorData_invalid w n d info Hn Hd Hraw) as (Hc & Hm & Hq & Hr).
    pose proof (handleConnectorData_returns w n d) as Hret.
    destruct (handleConnectorData n d w) as [c w1]. cbn [fst snd] in *. subst c.
    destruct (IH w1 _ Hc) as (R & TD & TE & info' & Hn' & DC & EC & HH); [congruence | exact Hall |].
    cbn zeta in *. rewrite R, Hr, TD, TE, Hm. cbn [length].
    split; [reflexivity |]. split; [cbn; lia |]. split; [cbn; lia |].
    exists info'. split; [exact Hn' |]. cbn in DC, EC.
    split; [lia |]. split; [lia |]. intros _.
    destruct ds as [|d' ds']; [| apply HH; discriminate].
    cbn in Hn'. rewrite Hc in Hn'. injection Hn' as <-. cbn.
    now destruct (5 <? errorCount info + 1).
Qed.

(** X18.  Records that lack a timestamp or a source are counted as
    records and as errors, and none of them is published.  After [k >= 1]
    such records of a registered connector its [dataCount] and
    [errorCount] have both grown by [k], and the connector is marked
    healthy exactly while its [errorCount] is at most 5: every record sets
    [isHealthy] and every error beyond the fifth clears it again. *)
Theorem records_without_required_fields_are_counted_twice w n info ds :
  connectors (this w) !! n = Some info ->
  MessageQueue.rawData
    (MessageQueue.topics_of (MessageQueue.config_of (messageQueue (this w))))
    <> "dead-letter-queue" ->
  forallb lacks_a_field ds = true ->
  ds <> [] ->
  let w' := snd (deliver n (map SigData ds) w) in
  let k := Z.of_nat (length ds) in
  fst (deliver n (map SigData ds) w) = Normal tt /\
  raw_data w' = raw_data w /\
  totalDataReceived (metrics_of (this w')) = totalDataReceived (metrics_of (this w)) + k /\
  totalErrorsHandled (metrics_of (this w')) = totalErrorsHandled (metrics_of (this w)) + k /\
  exists info',
    connectors (this w') !! n = Some info' /\
    dataCount info' = dataCount info + k /\
    errorCount info' = errorCount info + k /\
    isHealthy info' = negb (5 <? errorCount info').
Proof.
  intros Hn Hraw Hall Hne. cbn zeta.
  destruct (deliver_invalid n ds w info Hn Hraw Hall) as (R & TD & TE & info' & Hn' & DC & EC & HH).
  split; [apply deliver_returns |].
  do 3 (split; [assumption |]). exists info'. auto.
Qed.


(** *** The health of the service *)

Lemma exceeds_half_spec a b : exceeds_half a b = (b <? 2 * a).
Proof.
  unfold exceeds_half, Qle_bool, Qdiv, Qmult, Qinv, inject_Z. cbn.
  change (Z.pos (1 * 2)) with 2.
  destruct (Z.leb_spec (a * 2) (b * 1 * 1)), (Z.ltb_spec b (2 * a)); cbn; auto; lia.
Qed.

Lemma tally_spec (entries : gmap string entry) :
  (tally entries).1.1 = Z.of_nat (size entries) /\
  (tally entries).1.2 + Z.of_nat (size (tally entries).2) = Z.of_nat (size entries) /\
  0 <= (tally entries).1.2 /\
  forall n, n ∈ (tally entries).2 <->
            exists info, entries !! n = Some info /\ isHealthy info = false.
Proof.
  unfold tally.
  apply (map_fold_weak_ind
           (fun (acc : Z * Z * gset string) (m : gmap string entry) =>
              acc.1.1 = Z.of_nat (size m) /\
              acc.1.2 + Z.of_nat (size acc.2) = Z.of_nat (size m) /\
              0 <= acc.1.2 /\
              forall n, n ∈ acc.2 <-> exists info, m !! n = Some info /\ isHealthy info = false)).
  - cbn. rewrite map_size_empty, size_empty. repeat split; try lia.
    + intros Hin. now apply not_elem_of_empty in Hin.
    + intros (info & Hn & _). now rewrite lookup_empty in Hn.
  - intros n info m [[total healthyCount] unhealthyNames] Hfresh (Ht & Hsum & Hpos & Hin).
    cbn [fst snd] in *. rewrite map_size_insert_None by exact Hfresh.
    destruct (isHealthy info) eqn:Hh; cbn [fst snd].
    + repeat split; try lia.
      * intros Hn. apply Hin in Hn as (info' & Hn & Hu).
        exists info'. rewrite lookup_insert_ne; [auto | congruence].
      * intros (info' & Hn & Hu).
        destruct (decide (n = n0)) as [-> | Hne].
        -- rewrite lookup_insert_eq in Hn. congruence.
        -- rewrite lookup_insert_ne in Hn by exact Hne. apply Hin. eauto.
    + assert (Hnew : n ∉ unhealthyNames).
      { intros Hn. apply Hin in Hn as (info' & Hn & _). congruence. }
      rewrite size_union by (apply disjoint_singleton_l; exact Hnew).
      rewrite size_singleton.
      repeat split; try lia.
      * intros Hn. apply elem_of_union in Hn as [Hn | Hn].
        -- apply elem_of_singleton in Hn as ->. exists info. now rewrite lookup_insert_eq.
        -- apply Hin in Hn as (info' & Hn & Hu).
           exists info'. rewrite lookup_insert_ne; [auto | congruence].
      * intros (info' & Hn & Hu).
        destruct (decide (n = n0)) as [-> | Hne].
        -- apply elem_of_union. left. now apply elem_of_singleton.
        -- rewrite lookup_insert_ne in Hn by exact Hne.
           apply elem_of_union. right. apply Hin. eauto.
Qed.

(** X19.  [getHealth()] of the service counts every entry of the registry
    once: the total is the size of the registry, the names reported as
    unhealthy are those of the entries whose [isHealthy] is false, and the
    healthy count is the rest.  The status is [critical] exactly when the
    service is not running or the queue reports that it is not connected,
    whatever the connectors; otherwise [degraded] when more than half of
    the connectors are unhealthy, [warning] when some are, and [healthy]
    when none is.  A queue on the in-process buffer reports its
    [isConnected], so a service whose queue fell back to the buffer at its
    set-up is [critical] however healthy its connectors are. *)
Theorem service_health_counts_the_registry_and_needs_the_queue w :
  exists h,
    fst (getHealth w) = Normal h /\
    let unhealthy := Z.of_nat (size (unhealthyConnectors h)) in
    totalConnectors h = Z.of_nat (size (connectors (this w))) /\
    healthyConnectors h + unhealthy = totalConnectors h /\
    (forall n, n ∈ unhealthyConnectors h <->
               exists info, connectors (this w) !! n = Some info /\ isHealthy info = false) /\
    fst (MessageQueue.healthCheck {| this := messageQueue (this w); rt := rt w |})
    = Normal (sh_messageQueue h) /\
    sh_status h =
      (if negb (isRunning (this w)) || negb (MessageQueue.connected (sh_messageQueue h))
       then sv_critical
       else if totalConnectors h <? 2 * unhealthy then sv_degraded
            else if 0 <? unhealthy then sv_warning
                 else sv_healthy) /\
    (MessageQueue.type (MessageQueue.config_of (messageQueue (this w))) = MessageQueue.memory ->
     MessageQueue.isConnected (messageQueue (this w)) = false ->
     sh_status h = sv_critical).
Proof.
  destruct (tally_spec (connectors (this w))) as (Ht & Hsum & _ & Hin).
  destruct w as [s r].
  unfold getHealth, bind, gets, ret, on_messageQueue, zoom. cbn [this rt fst snd] in *.
  destruct (tally (connectors s)) as [[total healthyCount] unhealthyNames].
  cbn [fst snd] in *.
  destruct (QueueOperations.healthCheck_returns {| this := messageQueue s; rt := r |})
    as (q & Hq).
  pose proof (QueueProperties.healthCheck_of_memory {| this := messageQueue s; rt := r |})
    as Hmem.
  destruct (MessageQueue.healthCheck _) as [c W']. cbn [fst snd this rt] in *. subst c.
  eexists. split; [reflexivity |]. cbn.
  rewrite exceeds_half_spec.
  split; [exact Ht |]. split; [lia |]. split; [exact Hin |]. split; [reflexivity |].
  split; [now destruct s |].
  intros Hty Hconn. specialize (Hmem Hty). injection Hmem as -> _.
  destruct s. cbn in *. rewrite Hconn. now rewrite orb_true_r.
Qed.

(** A record reaches a service on the in-process buffer. *)

Lemma publish_keeps_the_clock (w : world MessageQueue.queue) t p meta :
  clock (rt (snd (MessageQueue.publish t p meta w))) = clock (rt w).
Proof.
  destruct w as [[[ty ts] c b l h] r].
  unfold MessageQueue.publish, MessageQueue.generateMessageId, MessageQueue.publishToMemory,
    MessageQueue.publishToKafka, MessageQueue.publishToRedis, try_catch, bind, gets, modify,
    when, with_rt, emit, ret, throw, external, Date_now, Math_random_toString36. cbn.
  destruct ty; cbn.
  - destruct (io r (ios r)); reflexivity.
  - destruct (io r (ios r)); reflexivity.
  - destruct (bool_decide (b !! t = None)); reflexivity.
  - reflexivity.
Qed.

Lemma handleConnectorData_buffered (w : world DataIngestionService.service) n r info :
  DataIngestionService.connectors (this w) !! n = Some info ->
  MessageQueue.type (MessageQueue.config_of (DataIngestionService.messageQueue (this w)))
  = MessageQueue.memory ->
  MessageQueue.rawData
    (MessageQueue.topics_of
       (MessageQueue.config_of (DataIngestionService.messageQueue (this w))))
  <> "dead-letter-queue" ->
  ServiceScenarios.passes r w = true ->
  let w' := snd (DataIngestionService.handleConnectorData n (VRec r) w) in
  DataIngestionService.connectors (this w')
  = alter (DataIngestionService.received (clock (rt w) (ticks (rt w)))) n
          (DataIngestionService.connectors (this w)) /\
  DataIngestionService.totalDataReceived (DataIngestionService.metrics_of (this w'))
  = DataIngestionService.totalDataReceived (DataIngestionService.metrics_of (this w)) + 1 /\
  DataIngestionService.totalErrorsHandled (DataIngestionService.metrics_of (this w'))
  = DataIngestionService.totalErrorsHandled (DataIngestionService.metrics_of (this w)) /\
  MessageQueue.config_of (DataIngestionService.messageQueue (this w'))
  = MessageQueue.config_of (DataIngestionService.messageQueue (this w)) /\
  clock (rt w') = clock (rt w) /\
  exists m,
    ServiceScenarios.raw_data w' = (ServiceScenarios.raw_data w ++ [m])%list /\
    data m = PRecord (ServiceScenarios.enriched n r w).
Proof.
  intros Hn Hty Hraw Hpass.
  unfold ServiceScenarios.passes, ServiceScenarios.enriched, ServiceScenarios.raw_data in *.
  ServiceScenarios.open_service w.
  unfold DataIngestionService.handleConnectorData, DataIngestionService.generateMessageId,
    bind, gets, modify, try_catch, Date_now, Math_random_toString36, ret, throw, emit, with_rt.
  apply andb_true_iff in Hpass as [Hfields Hwin].
  cbn. rewrite Hn. cbn. rewrite ServiceProperties.validateData_runs. cbn.
  rewrite Hfields. cbn. rewrite Hwin. cbn.
  unfold DataIngestionService.on_messageQueue, zoom, MessageQueue.publishRawData, bind, gets.
  cbn.
  match goal with |- context [MessageQueue.publish ?t ?p ?m ?W] =>
    pose proof (QueueProperties.publish_keeps W t p m) as Hkeep;
    pose proof (QueueProperties.publish_writes W t p m I) as Hwrite;
    pose proof (publish_keeps_the_clock W t p m) as Hclock;
    destruct (MessageQueue.publish t p m W) as [c W'] end.
  cbn in Hkeep, Hwrite, Hclock. destruct Hkeep as (Hcfg & _ & _ & Hother).
  destruct Hwrite as (-> & Hpub). cbn.
  rewrite Hcfg. cbn. rewrite Hpub.
  do 5 (split; [first [reflexivity | assumption] |]).
  eexists. split; reflexivity.
Qed.

Lemma passes_within_the_window (w : world DataIngestionService.service) r t s :
  timestamp r = Some t -> t <> 0 -> source r = Some s -> s <> "" ->
  (forall k, ServiceScenarios.in_window (clock (rt w) k) t = true) ->
  ServiceScenarios.passes r w = true.
Proof.
  intros Ht Ht0 Hs Hs0 Hwin. unfold ServiceScenarios.passes. rewrite Ht, Hs, Hwin. cbn.
  apply Z.eqb_neq in Ht0. apply String.eqb_neq in Hs0. now rewrite Ht0, Hs0.
Qed.

(** The same record reaches the service twice under the name [n]. *)
Lemma record_handled_twice (w : world DataIngestionService.service) n r info t s :
  DataIngestionService.connectors (this w) !! n = Some info ->
  MessageQueue.type (MessageQueue.config_of (DataIngestionService.messageQueue (this w)))
  = MessageQueue.memory ->
  MessageQueue.rawData
    (MessageQueue.topics_of
       (MessageQueue.config_of (DataIngestionService.messageQueue (this w))))
  <> "dead-letter-queue" ->
  timestamp r = Some t -> t <> 0 -> source r = Some s -> s <> "" ->
  (forall k, ServiceScenarios.in_window (clock (rt w) k) t = true) ->
  let w' := snd (DataIngestionService.handleConnectorData n (VRec r)
                   (snd (DataIngestionService.handleConnectorData n (VRec r) w))) in
  (exists m1 m2 r1 r2,
      ServiceScenarios.raw_data w' = (ServiceScenarios.raw_data w ++ [m1; m2])%list /\
      data m1 = PRecord r1 /\ data m2 = PRecord r2 /\
      timestamp r1 = Some t /\ source r1 = Some s /\ others r1 = others r /\
      timestamp r2 = Some t /\ source r2 = Some s /\ others r2 = others r) /\
  (exists info',
      DataIngestionService.connectors (this w') !! n = Some info' /\
      DataIngestionService.dataCount info' = DataIngestionService.dataCount info + 2 /\
      DataIngestionService.errorCount info' = DataIngestionService.errorCount info) /\
  DataIngestionService.totalDataReceived (DataIngestionService.metrics_of (this w'))
  = DataIngestionService.totalDataReceived (DataIngestionService.metrics_of (this w)) + 2 /\
  DataIngestionService.totalErrorsHandled (DataIngestionService.metrics_of (this w'))
  = DataIngestionService.totalErrorsHandled (DataIngestionService.metrics_of (this w)).
Proof.
  intros Hn Hty Hraw Ht Ht0 Hs Hs0 Hwin. cbn zeta.
  destruct (handleConnectorData_buffered w n r info Hn Hty Hraw
              (passes_within_the_window w r t s Ht Ht0 Hs Hs0 Hwin))
    as (C1 & D1 & E1 & Q1 & K1 & m1 & R1 & M1).
  cbn zeta in *.
  set (w1 := snd (DataIngestionService.handleConnectorData n (VRec r) w)) in *. clearbody w1.
  assert (Hn1 : DataIngestionService.connectors (this w1) !! n
                = Some (DataIngestionService.received (clock (rt w) (ticks (rt w))) info))
    by now rewrite C1, lookup_alter_eq, Hn.
  destruct (handleConnectorData_buffered w1 n r _ Hn1) as (C2 & D2 & E2 & Q2 & K2 & m2 & R2 & M2);
    [now rewrite Q1 | now rewrite Q1
    | apply (passes_within_the_window w1 r t s Ht Ht0 Hs Hs0); intros k; rewrite K1; apply Hwin |].
  cbn zeta in *.
  set (w2 := snd (DataIngestionService.handleConnectorData n (VRec r) w1)) in *. clearbody w2.
  split; [| split; [| split]].
  - exists m1, m2, (ServiceScenarios.enriched n r w), (ServiceScenarios.enriched n r w1).
    rewrite R2, R1, <- app_assoc. cbn. auto 10.
  - eexists. split; [rewrite C2, lookup_alter_eq, Hn1; reflexivity |]. cbn. split; [lia | reflexivity].
  - lia.
  - congruence.
Qed.

(** The broker has gone when a record of [mta] arrives. *)
Lemma record_is_lost_when_the_broker_rejects_it_twice_witness :
  fst (handleConnectorData "mta" (VRec (arrival 1700000000000 "mta")) broker_lost) = Normal tt /\
  messageQueue (this (snd (handleConnectorData "mta" (VRec (arrival 1700000000000 "mta"))
                             broker_lost)))
  = messageQueue (this broker_lost).
Proof.
  refine (let H := record_is_lost_when_the_broker_rejects_it_twice
                     broker_lost "mta" (arrival 1700000000000 "mta")
                     (registered "mta" 1700000000000)
                     (Error "BrokerNotAvailableError") (Error "BrokerNotAvailableError")
                     _ _ _ _ _ in
          conj (proj1 H) (proj1 (proj2 H)));
    vm_compute; auto.
Defined.

Lemma unregistered_data_is_dropped_but_errors_are_counted_witness :
  handleConnectorData "bus" (VRec (arrival 1700000000000 "bus")) (supervising calm)
  = (Normal tt, supervising calm).
Proof.
  refine (proj1 (unregistered_data_is_dropped_but_errors_are_counted
                   (supervising calm) "bus" (VRec (arrival 1700000000000 "bus"))
                   (Error "ETIMEDOUT") _)).
  vm_compute. reflexivity.
Defined.

Lemma records_without_required_fields_are_counted_twice_witness :
  raw_data (snd (deliver "mta" (map SigData seven_nameless) (supervising calm)))
  = raw_data (supervising calm) /\
  exists info',
    connectors (this (snd (deliver "mta" (map SigData seven_nameless) (supervising calm))))
    !! "mta" = Some info' /\
    errorCount info' = 7 /\ isHealthy info' = false.
Proof.
  destruct (records_without_required_fields_are_counted_twice
              (supervising calm) "mta" (registered "mta" 1700000000000) seven_nameless)
    as (_ & R & _ & _ & info' & Hn & _ & EC & HH);
    [vm_compute; reflexivity | vm_compute; discriminate | vm_compute; reflexivity
    | discriminate |].
  refine (conj R (ex_intro _ info' (conj Hn (conj EC _)))).
  rewrite HH, EC. reflexivity.
Defined.

End ServiceOperations.

(** * The service and its connectors *)

Module SupervisionProperties.
Import Supervision SupervisionScenarios.

#[local] Arguments call : simpl never.
#[local] Arguments restartConnector : simpl never.
#[local] Arguments checkConnector : simpl never.

Section Generic.
Context {num : Type} `{Number num}.
Implicit Types w : world (pipeline num).

Lemma undisturbed_refl w : undisturbed w w.
Proof. unfold undisturbed. auto 20. Qed.

Lemma undisturbed_trans w1 w2 w3 :
  undisturbed w1 w2 -> undisturbed w2 w3 -> undisturbed w1 w3.
Proof.
  unfold undisturbed.
  intros (A1 & A2 & A3 & A4 & A5 & A6 & A7 & A8 & A9 & A10 & A11 & A12 & A13 & A14)
         (B1 & B2 & B3 & B4 & B5 & B6 & B7 & B8 & B9 & B10 & B11 & B12 & B13 & B14).
  repeat split; congruence.
Qed.

(** The listeners answer an event that is no record and no error by
    counting. *)
Lemma notify_no_record names s : forall w,
  no_record s = true ->
  fst (notify names s w) = Normal tt /\
  undisturbed w (snd (notify names s w)) /\
  heap (this (snd (notify names s w))) = heap (this w) /\
  ticks (rt (snd (notify names s w))) = ticks (rt w).
Proof.
  induction names as [|n names IH]; intros w Hs.
  - cbn. auto using undisturbed_refl.
  - cbn [notify]. unfold bind.
    assert (Hone : fst (on_service (DataIngestionService.on_connector_signal n s) w)
                   = Normal tt /\
                   undisturbed w (snd (on_service (DataIngestionService.on_connector_signal n s) w)) /\
                   heap (this (snd (on_service (DataIngestionService.on_connector_signal n s) w)))
                   = heap (this w) /\
                   ticks (rt (snd (on_service (DataIngestionService.on_connector_signal n s) w)))
                   = ticks (rt w)).
    { destruct w as [[s0 refs hp timer rs hd nt] r]. destruct s0.
      destruct s; try discriminate; cbn; unfold undisturbed; cbn; auto 20. }
    destruct (on_service (DataIngestionService.on_connector_signal n s) w) as [c w1].
    cbn [fst snd] in *. destruct Hone as (-> & U1 & H1 & T1).
    destruct (IH w1 Hs) as (R & U2 & H2 & T2).
    split; [exact R |]. split; [eapply undisturbed_trans; eauto |]. split; congruence.
Qed.

Lemma broadcast_no_record names signals : forall w,
  forallb no_record signals = true ->
  fst (broadcast names signals w) = Normal tt /\
  undisturbed w (snd (broadcast names signals w)) /\
  heap (this (snd (broadcast names signals w))) = heap (this w) /\
  ticks (rt (snd (broadcast names signals w))) = ticks (rt w).
Proof.
  induction signals as [|s signals IH]; intros w Hall.
  - cbn. auto using undisturbed_refl.
  - cbn [forallb] in Hall. apply andb_true_iff in Hall as [Hs Hall].
    cbn [broadcast]. unfold bind.
    destruct (notify_no_record names s w Hs) as (R1 & U1 & H1 & T1).
    destruct (notify names s w) as [c w1]. cbn [fst snd] in *. subst c.
    destruct (IH w1 Hall) as (R & U2 & H2 & T2).
    split; [exact R |]. split; [eapply undisturbed_trans; eauto |]. split; congruence.
Qed.

(** A method of a connector that emits no record and no error. *)
Lemma call_no_record {A} i (m : M (BaseConnector.connector num) A) w o signals :
  heap (this w) !! i = Some o ->
  let wc := snd (m {| this := object o; rt := set_awaiting (suspended o) (rt w) |}) in
  emitted (rt wc) = (emitted (rt w) ++ signals)%list ->
  forallb no_record signals = true ->
  clock (rt wc) = clock (rt w) -> io (rt wc) = io (rt w) -> ios (rt wc) = ios (rt w) ->
  let w' := snd (call i m w) in
  fst (call i m w)
  = fst (m {| this := object o; rt := set_awaiting (suspended o) (rt w) |}) /\
  undisturbed w w' /\
  heap (this w') = <[i := {| object := this wc; attached := attached o;
                             suspended := awaiting (rt wc) |}]> (heap (this w)) /\
  ticks (rt w') = ticks (rt wc).
Proof.
  intros Hi wc Hem Hall Hclock Hio Hios. unfold call. rewrite Hi.
  subst wc. destruct (m _) as [r wc]. cbn [fst snd] in *.
  rewrite Hem, drop_app_length.
  match goal with |- context [broadcast ?ns ?ss ?w1] =>
    destruct (broadcast_no_record ns ss w1 Hall) as (_ & U & Hh & Ht) end.
  cbn zeta. cbn [fst snd]. split; [reflexivity |]. split; [| split; [exact Hh | exact Ht]].
  eapply undisturbed_trans; [| exact U].
  unfold undisturbed. cbn. rewrite length_insert.
  destruct w as [[] r0]. cbn in *. auto 20.
Qed.


(** *** The three calls that the service makes *)

Lemma call_getHealth i w o :
  heap (this w) !! i = Some o ->
  let w' := snd (call i BaseConnector.getHealth w) in
  fst (call i BaseConnector.getHealth w)
  = fst (BaseConnector.getHealth {| this := object o; rt := rt w |}) /\
  undisturbed w w' /\
  heap (this w') = heap (this w) /\
  ticks (rt w') = S (ticks (rt w)).
Proof.
  intros Hi.
  destruct (call_no_record i BaseConnector.getHealth w o [] Hi) as (R & U & Hh & Ht);
    [cbn; now rewrite app_nil_r | reflexivity .. |].
  cbn zeta in *. rewrite R, Hh, Ht. split; [reflexivity |]. split; [exact U |].
  split; [| reflexivity].
  cbn. apply list_insert_id. rewrite Hi. now destruct o.
Qed.

Lemma call_getHealth_this i w o :
  heap (this w) !! i = Some o -> this (snd (call i BaseConnector.getHealth w)) = this w.
Proof.
  intros Hi. unfold call. rewrite Hi.
  assert (Hget : BaseConnector.getHealth
                   {| this := object o; rt := set_awaiting (suspended o) (rt w) |}
                 = (fst (BaseConnector.getHealth
                           {| this := object o; rt := set_awaiting (suspended o) (rt w) |}),
                    {| this := object o; rt := tick (set_awaiting (suspended o) (rt w)) |}))
    by reflexivity.
  rewrite Hget. cbn [fst snd this rt emitted tick set_awaiting awaiting].
  rewrite drop_all. cbn.
  rewrite list_insert_id by (rewrite Hi; now destruct o).
  now destruct w as [[] ?].
Qed.

Lemma call_stop_running i w o :
  heap (this w) !! i = Some o ->
  BaseConnector.isRunning (object o) = true ->
  let w' := snd (call i BaseConnector.stop w) in
  fst (call i BaseConnector.stop w) = Normal tt /\
  undisturbed w w' /\
  heap (this w')
  = <[i := {| object := BaseConnector.set_circuitBreakerTimer None
                          (BaseConnector.set_pollTimer None
                             (BaseConnector.set_isRunning false (object o)));
              attached := attached o; suspended := suspended o |}]> (heap (this w)) /\
  ticks (rt w') = ticks (rt w).
Proof.
  intros Hi Hrun.
  pose proof (ConnectorLifecycle.stop_when_running
                {| this := object o; rt := set_awaiting (suspended o) (rt w) |} Hrun) as Hstop.
  destruct (call_no_record i BaseConnector.stop w o [SigStop] Hi) as (R & U & Hh & Ht);
    [try rewrite Hstop; reflexivity .. |].
  cbn zeta in *. rewrite R, Hh, Ht, Hstop. auto.
Qed.

Lemma call_start_at_open_breaker i w o :
  heap (this w) !! i = Some o ->
  BaseConnector.isRunning (object o) = false ->
  BaseConnector.circuitBreakerOpen (object o) = true ->
  let w' := snd (call i BaseConnector.start w) in
  fst (call i BaseConnector.start w) = Normal tt /\
  undisturbed w w' /\
  heap (this w')
  = <[i := {| object :=
                BaseConnector.set_pollTimer
                  (Some (BaseConnector.setTimeout BaseConnector.CallPollData
                           (BaseConnector.circuitBreakerTimeout
                              (BaseConnector.config_of (object o)))))
                  (BaseConnector.on_metrics BaseConnector.incr_totalFetches
                     (BaseConnector.set_lastPollTime (Some (clock (rt w) (ticks (rt w))))
                        (BaseConnector.set_isRunning true (object o))));
              attached := attached o; suspended := suspended o |}]> (heap (this w)) /\
  ticks (rt w') = S (ticks (rt w)).
Proof.
  intros Hi Hrun Hopen.
  assert (Hstart :
    BaseConnector.start {| this := object o; rt := set_awaiting (suspended o) (rt w) |}
    = (Normal tt,
       {| this := BaseConnector.set_pollTimer
                    (Some (BaseConnector.setTimeout BaseConnector.CallPollData
                             (BaseConnector.circuitBreakerTimeout
                                (BaseConnector.config_of (object o)))))
                    (BaseConnector.on_metrics BaseConnector.incr_totalFetches
                       (BaseConnector.set_lastPollTime (Some (clock (rt w) (ticks (rt w))))
                          (BaseConnector.set_isRunning true (object o))));
          rt := tick (record_signal SigStart (set_awaiting (suspended o) (rt w))) |})).
  { rewrite ConnectorLifecycle.start_when_stopped by exact Hrun.
    rewrite ConnectorProperties.pollData_enter_open; [reflexivity | |];
      destruct o as [[] ? ?]; cbn in *; auto. }
  destruct (call_no_record i BaseConnector.start w o [SigStart] Hi) as (R & U & Hh & Ht);
    [try rewrite Hstart; reflexivity .. |].
  cbn zeta in *. rewrite R, Hh, Ht, Hstart. auto.
Qed.


(** *** A health check finds a connector whose breaker is open *)

Lemma getHealth_at_open_breaker (c : BaseConnector.connector num) r :
  BaseConnector.circuitBreakerOpen c = true ->
  exists h,
    fst (BaseConnector.getHealth {| this := c; rt := r |}) = Normal h /\
    BaseConnector.status h = BaseConnector.circuit_breaker_open.
Proof.
  intros Hopen. destruct c as [cfg run rc open lp ls pt bt m]. cbn in *. subst.
  eexists. split; reflexivity.
Qed.

Lemma reference_found n w i :
  lookup_reference n (references (this w)) = Some i -> reference n (this w) = i.
Proof. unfold reference. now intros ->. Qed.

Lemma restartConnector_stops w n i o info :
  heap (this w) !! i = Some o ->
  lookup_reference n (references (this w)) = Some i ->
  DataIngestionService.connectors (service_of (this w)) !! n = Some info ->
  BaseConnector.isRunning (object o) = true ->
  let w' := snd (restartConnector n w) in
  fst (restartConnector n w) = Normal tt /\
  DataIngestionService.connectors (service_of (this w'))
  = DataIngestionService.connectors (service_of (this w)) /\
  DataIngestionService.config_of (service_of (this w'))
  = DataIngestionService.config_of (service_of (this w)) /\
  references (this w') = references (this w) /\
  heap (this w')
  = <[i := {| object := BaseConnector.set_circuitBreakerTimer None
                          (BaseConnector.set_pollTimer None
                             (BaseConnector.set_isRunning false (object o)));
              attached := attached o; suspended := suspended o |}]> (heap (this w)) /\
  restarts (this w')
  = (restarts (this w) ++ [{| restart_connector := i; restart_entry := Some n |}])%list.
Proof.
  intros Hi Href Hn Hrun. cbn zeta.
  unfold restartConnector, bind, gets. cbn [this rt fst snd].
  rewrite Hn, bool_decide_eq_false_2 by discriminate.
  unfold try_catch, bind, gets, modify. cbn [this rt fst snd].
  rewrite (reference_found n w i Href).
  destruct (call_stop_running i w o Hi Hrun) as (R & U & Hh & _).
  destruct (call i BaseConnector.stop w) as [c w1]. cbn [fst snd] in *. subst c.
  cbn [this rt fst snd].
  destruct U as (U1 & U2 & U3 & U4 & U5 & U6 & U7 & _).
  destruct w1 as [[] r1]. cbn in *. subst. auto 10.
Qed.

Lemma checkConnector_restarts w n i o info :
  heap (this w) !! i = Some o ->
  lookup_reference n (references (this w)) = Some i ->
  DataIngestionService.connectors (service_of (this w)) !! n = Some info ->
  DataIngestionService.restartUnhealthyConnectors
    (DataIngestionService.config_of (service_of (this w))) = true ->
  DataIngestionService.isHealthy info = true ->
  BaseConnector.circuitBreakerOpen (object o) = true ->
  BaseConnector.isRunning (object o) = true ->
  let w' := snd (checkConnector n i w) in
  DataIngestionService.config_of (service_of (this w'))
  = DataIngestionService.config_of (service_of (this w)) /\
  references (this w') = references (this w) /\
  DataIngestionService.connectors (service_of (this w'))
  = alter (DataIngestionService.set_isHealthy false) n
          (DataIngestionService.connectors (service_of (this w))) /\
  heap (this w')
  = <[i := {| object := BaseConnector.set_circuitBreakerTimer None
                          (BaseConnector.set_pollTimer None
                             (BaseConnector.set_isRunning false (object o)));
              attached := attached o; suspended := suspended o |}]> (heap (this w)) /\
  restarts (this w')
  = (restarts (this w) ++ [{| restart_connector := i; restart_entry := Some n |}])%list.
Proof.
  intros Hi Href Hn Hcfg Hhealthy Hopen Hrun. cbn zeta.
  remember (snd (checkConnector n i w)) as w' eqn:Hw'. revert Hw'.
  unfold checkConnector, try_catch, bind.
  destruct (call_getHealth i w o Hi) as (R & U & Hh & _).
  destruct (getHealth_at_open_breaker (object o) (rt w) Hopen) as (h & Hhealth & Hst).
  rewrite Hhealth in R.
  destruct (call i BaseConnector.getHealth w) as [c wa]. cbn [fst snd] in *. subst c.
  destruct U as (U1 & U2 & U3 & U4 & U5 & U6 & U7 & _).
  unfold gets. cbn [this rt fst snd]. rewrite U3, Hn. cbn [mbind option_bind].
  rewrite Hst. cbn [orb].
  destruct wa as [pa ra]. cbn [this rt] in *.
  set (pb := set_service (DataIngestionService.on_connectorInfo n
                            (DataIngestionService.set_isHealthy false)
                            (service_of pa)) pa).
  assert (Hpb : heap pb !! i = Some o /\
                lookup_reference n (references pb) = Some i /\
                DataIngestionService.connectors (service_of pb) !! n
                = Some (DataIngestionService.set_isHealthy false info) /\
                DataIngestionService.restartUnhealthyConnectors
                  (DataIngestionService.config_of (service_of pb)) = true /\
                DataIngestionService.connectors (service_of pb)
                = alter (DataIngestionService.set_isHealthy false) n
                        (DataIngestionService.connectors (service_of (this w))) /\
                DataIngestionService.config_of (service_of pb)
                = DataIngestionService.config_of (service_of (this w)) /\
                references pb = references (this w) /\
                heap pb = heap (this w) /\ restarts pb = restarts (this w)).
  { subst pb. destruct pa as [[] ? ? ? ? ? ?]. cbn in *. subst.
    rewrite lookup_alter_eq, Hn. auto 10. }
  destruct Hpb as (P1 & P2 & P3 & P4 & P5 & P6 & P7 & P8 & P9).
  destruct (truthy_num (DataIngestionService.lastDataReceived info));
    unfold Date_now, ret, bind, gets, when, on_service, zoom, modify;
    cbn; rewrite U3, Hn; cbn; rewrite Hhealthy; cbn [this rt]; fold pb; rewrite U1, Hcfg.
  all: match goal with |- context [restartConnector ?m ?wb] =>
         destruct (restartConnector_stops wb m _ _ _ P1 P2 P3 Hrun)
           as (R1 & C1 & F1 & Rf1 & H1 & S1);
         destruct (restartConnector m wb) as [c wc] end.
  all: cbn [this rt fst snd negb andb] in *; subst c; unfold ret; cbn [this rt fst snd];
    intros ->; rewrite C1, F1, Rf1, H1, S1, P5, P6, P7, P8, P9; auto 10.
Qed.

Lemma checkConnector_marked w n i o info :
  heap (this w) !! i = Some o ->
  DataIngestionService.connectors (service_of (this w)) !! n = Some info ->
  DataIngestionService.isHealthy info = false ->
  BaseConnector.circuitBreakerOpen (object o) = true ->
  let w' := snd (checkConnector n i w) in
  this w' = this w.
Proof.
  intros Hi Hn Hhealthy Hopen. cbn zeta.
  unfold checkConnector, try_catch, bind.
  destruct (call_getHealth i w o Hi) as (R & U & Hh & _).
  destruct (getHealth_at_open_breaker (object o) (rt w) Hopen) as (h & Hhealth & Hst).
  rewrite Hhealth in R.
  pose proof (call_getHealth_this i w o Hi) as Hthis.
  destruct (call i BaseConnector.getHealth w) as [c wa]. cbn [fst snd] in *. subst c.
  destruct U as (U1 & U2 & U3 & U4 & U5 & U6 & U7 & _).
  unfold gets. cbn [this rt fst snd]. rewrite U3, Hn. cbn [mbind option_bind].
  rewrite Hst. cbn [orb].
  destruct wa as [pa ra]. cbn [this rt] in *.
  destruct (truthy_num (DataIngestionService.lastDataReceived info));
    unfold Date_now, ret, bind, gets, when, on_service, zoom, modify;
    cbn; rewrite U3, Hn; cbn; rewrite Hhealthy; cbn; exact Hthis.
Qed.


Lemma restart_due_at_open_breaker w n i o rest :
  restarts (this w) = {| restart_connector := i; restart_entry := Some n |} :: rest ->
  heap (this w) !! i = Some o ->
  BaseConnector.isRunning (object o) = false ->
  BaseConnector.circuitBreakerOpen (object o) = true ->
  let w' := snd (restart_due w) in
  restarts (this w') = rest /\
  references (this w') = references (this w) /\
  DataIngestionService.config_of (service_of (this w'))
  = DataIngestionService.config_of (service_of (this w)) /\
  DataIngestionService.connectors (service_of (this w'))
  = alter (DataIngestionService.set_errorCount 0) n
          (DataIngestionService.connectors (service_of (this w))) /\
  heap (this w')
  = <[i := {| object :=
                BaseConnector.set_pollTimer
                  (Some (BaseConnector.setTimeout BaseConnector.CallPollData
                           (BaseConnector.circuitBreakerTimeout
                              (BaseConnector.config_of (object o)))))
                  (BaseConnector.on_metrics BaseConnector.incr_totalFetches
                     (BaseConnector.set_lastPollTime (Some (clock (rt w) (ticks (rt w))))
                        (BaseConnector.set_isRunning true (object o))));
              attached := attached o; suspended := suspended o |}]> (heap (this w)).
Proof.
  intros Hrs Hi Hrun Hopen. cbn zeta.
  unfold restart_due, bind, gets. cbn [this rt fst snd]. rewrite Hrs.
  unfold try_catch, bind, modify. cbn [this rt fst snd restart_connector restart_entry].
  match goal with |- context [call i BaseConnector.start ?wa] =>
    destruct (call_start_at_open_breaker i wa o) as (R & U & Hh & _);
      [destruct w as [[] ?]; cbn in *; assumption | assumption | assumption |];
    destruct (call i BaseConnector.start wa) as [c wb] end.
  cbn [this rt fst snd] in *. subst c.
  destruct U as (U1 & U2 & U3 & U4 & U5 & U6 & U7 & _).
  unfold on_service, zoom, modify. cbn [this rt fst snd].
  destruct wb as [[] rb]. destruct w as [[] r0]. cbn in *. subst. rewrite U3. auto 10.
Qed.

Lemma checkConnector_restart_cycle w n i o info :
  heap (this w) !! i = Some o ->
  lookup_reference n (references (this w)) = Some i ->
  DataIngestionService.connectors (service_of (this w)) !! n = Some info ->
  DataIngestionService.restartUnhealthyConnectors
    (DataIngestionService.config_of (service_of (this w))) = true ->
  DataIngestionService.isHealthy info = true ->
  BaseConnector.isRunning (object o) = true ->
  BaseConnector.circuitBreakerOpen (object o) = true ->
  restarts (this w) = [] ->
  let w1 := snd (checkConnector n i w) in
  let w2 := snd (restart_due w1) in
  let w3 := snd (checkConnector n i w2) in
  references (this w2) = references (this w) /\
  restarts (this w1) = [{| restart_connector := i; restart_entry := Some n |}] /\
  DataIngestionService.connectors (service_of (this w1)) !! n
  = Some (DataIngestionService.set_isHealthy false info) /\
  (exists o1, heap (this w1) !! i = Some o1 /\ BaseConnector.isRunning (object o1) = false) /\
  exists o2,
    heap (this w2) !! i = Some o2 /\
    BaseConnector.isRunning (object o2) = true /\
    BaseConnector.circuitBreakerOpen (object o2) = true /\
    BaseConnector.circuitBreakerTimer (object o2) = None /\
    suspended o2 = suspended o /\
    restarts (this w2) = [] /\
    DataIngestionService.connectors (service_of (this w2)) !! n
    = Some (DataIngestionService.set_errorCount 0
              (DataIngestionService.set_isHealthy false info)) /\
    (forall es r,
        awaiting r = [] ->
        let c := BaseConnector.run es {| this := object o2; rt := r |} in
        BaseConnector.circuitBreakerOpen (this c) = true /\
        awaiting (rt c) = [] /\
        BaseConnector.successfulFetches (BaseConnector.metrics_of (this c))
        = BaseConnector.successfulFetches (BaseConnector.metrics_of (object o)) /\
        BaseConnector.failedFetches (BaseConnector.metrics_of (this c))
        = BaseConnector.failedFetches (BaseConnector.metrics_of (object o))) /\
    this w3 = this w2.
Proof.
  intros Hi Href Hn Hcfg Hhealthy Hrun Hopen Hrs. cbn zeta.
  destruct (checkConnector_restarts w n i o info Hi Href Hn Hcfg Hhealthy Hopen Hrun)
    as (F1 & Rf1 & C1 & H1 & S1).
  set (w1 := snd (checkConnector n i w)) in *. clearbody w1.
  rewrite Hrs in S1. cbn [app] in S1.
  assert (Hlen : (i < length (heap (this w)))%nat) by (eapply lookup_lt_Some; eauto).
  set (o1 := {| object := BaseConnector.set_circuitBreakerTimer None
                            (BaseConnector.set_pollTimer None
                               (BaseConnector.set_isRunning false (object o)));
                attached := attached o; suspended := suspended o |}) in *.
  assert (Hi1 : heap (this w1) !! i = Some o1).
  { rewrite H1. now apply list_lookup_insert_eq. }
  destruct (restart_due_at_open_breaker w1 n i o1 [] S1 Hi1) as (S2 & Rf2 & F2 & C2 & H2).
  { subst o1. now destruct o as [[] ? ?]. }
  { subst o1. destruct o as [[] ? ?]. cbn in *. assumption. }
  set (w2 := snd (restart_due w1)) in *. clearbody w2.
  set (o2 := {| object :=
                  BaseConnector.set_pollTimer
                    (Some (BaseConnector.setTimeout BaseConnector.CallPollData
                             (BaseConnector.circuitBreakerTimeout
                                (BaseConnector.config_of (object o1)))))
                    (BaseConnector.on_metrics BaseConnector.incr_totalFetches
                       (BaseConnector.set_lastPollTime (Some (clock (rt w1) (ticks (rt w1))))
                          (BaseConnector.set_isRunning true (object o1))));
                attached := attached o1; suspended := suspended o1 |}) in *.
  assert (Hi2 : heap (this w2) !! i = Some o2).
  { rewrite H2. apply list_lookup_insert_eq. now rewrite H1, length_insert. }
  assert (Hn1 : DataIngestionService.connectors (service_of (this w1)) !! n
                = Some (DataIngestionService.set_isHealthy false info)).
  { now rewrite C1, lookup_alter_eq, Hn. }
  assert (Hn2 : DataIngestionService.connectors (service_of (this w2)) !! n
                = Some (DataIngestionService.set_errorCount 0
                          (DataIngestionService.set_isHealthy false info))).
  { now rewrite C2, lookup_alter_eq, Hn1. }
  split; [now rewrite Rf2, Rf1 |]. split; [exact S1 |]. split; [exact Hn1 |].
  split; [exists o1; split; [exact Hi1 | subst o1; now destruct o as [[] ? ?]] |].
  exists o2.
  assert (Hobj : BaseConnector.isRunning (object o2) = true /\
                 BaseConnector.circuitBreakerOpen (object o2) = true /\
                 BaseConnector.circuitBreakerTimer (object o2) = None /\
                 suspended o2 = suspended o /\
                 BaseConnector.successfulFetches (BaseConnector.metrics_of (object o2))
                 = BaseConnector.successfulFetches (BaseConnector.metrics_of (object o)) /\
                 BaseConnector.failedFetches (BaseConnector.metrics_of (object o2))
                 = BaseConnector.failedFetches (BaseConnector.metrics_of (object o))).
  { subst o2 o1. destruct o as [[? ? ? ? ? ? ? ? []] ? ?]. cbn in *. auto 10. }
  destruct Hobj as (Or & Oo & Ot & Os & Oc & Of).
  do 6 (split; [assumption |]). split; [exact Hn2 |]. split.
  - intros es r Hidle.
    destruct (ConnectorLifecycle.run_stuck es {| this := object o2; rt := r |})
      as ((O & _ & I) & S & F & _); [unfold LifecycleScenarios.stuck; cbn; auto |].
    rewrite O, I, S, F. cbn. auto.
  - apply (checkConnector_marked w2 n i o2 _ Hi2 Hn2); [reflexivity | exact Oo].
Qed.

Lemma lookup_reference_one n i : lookup_reference n [(n, i)] = Some i.
Proof. unfold lookup_reference. now rewrite String.eqb_refl. Qed.

(** The health check of a service with one connector registered. *)
Lemma performHealthCheck_of_one w n i :
  references (this w) = [(n, i)] ->
  snd (performHealthCheck w)
  = snd (checkConnector n i
           {| this := set_service
                        (DataIngestionService.on_metrics
                           (DataIngestionService.set_lastHealthCheck
                              (Some (clock (rt w) (ticks (rt w)))))
                           (service_of (this w)))
                        (this w);
              rt := tick (rt w) |}).
Proof.
  intros Href. unfold performHealthCheck, bind, Date_now, with_rt, gets, on_service, zoom, modify.
  destruct w as [[sv rf hp tm rs hd nt] r]. cbn in Href. subst rf.
  cbn [this rt fst snd references set_service service_of heap healthCheckTimer restarts
       handles notices for_each].
  unfold bind, ret. cbn [this rt fst snd].
  match goal with |- context [checkConnector n i ?wa] =>
    destruct (checkConnector n i wa) as [[[]|e] wb] end; reflexivity.
Qed.

(** X20.  The restart of an unhealthy connector does not revive one whose
    circuit breaker is open and that has no fetch in flight.  A health
    check that finds the breaker of a healthy entry open marks the entry,
    stops the connector and, five seconds later, starts it and resets the
    [errorCount] of the entry.  The stop clears the timer that would have
    closed the breaker and the start does not close it, so the connector
    runs with an open breaker that no timer will close and, with no fetch
    in flight whose success could close it, whatever happens to the
    connector afterwards, it never fetches again: no fetch is ever in
    flight and the counts of successes and failures stay.  The next health
    check finds the entry marked already and does not restart the
    connector a second time. *)
Theorem restart_does_not_revive_a_tripped_connector w n i o info :
  references (this w) = [(n, i)] ->
  heap (this w) !! i = Some o ->
  DataIngestionService.connectors (service_of (this w)) !! n = Some info ->
  DataIngestionService.restartUnhealthyConnectors
    (DataIngestionService.config_of (service_of (this w))) = true ->
  DataIngestionService.isHealthy info = true ->
  BaseConnector.isRunning (object o) = true ->
  BaseConnector.circuitBreakerOpen (object o) = true ->
  suspended o = [] ->
  restarts (this w) = [] ->
  let w1 := snd (performHealthCheck w) in
  let w2 := snd (restart_due w1) in
  let w3 := snd (performHealthCheck w2) in
  restarts (this w1) = [{| restart_connector := i; restart_entry := Some n |}] /\
  DataIngestionService.connectors (service_of (this w1)) !! n
  = Some (DataIngestionService.set_isHealthy false info) /\
  (exists o1, heap (this w1) !! i = Some o1 /\ BaseConnector.isRunning (object o1) = false) /\
  exists o2,
    heap (this w2) !! i = Some o2 /\
    BaseConnector.isRunning (object o2) = true /\
    BaseConnector.circuitBreakerOpen (object o2) = true /\
    BaseConnector.circuitBreakerTimer (object o2) = None /\
    suspended o2 = [] /\
    restarts (this w2) = [] /\
    DataIngestionService.connectors (service_of (this w2)) !! n
    = Some (DataIngestionService.set_errorCount 0
              (DataIngestionService.set_isHealthy false info)) /\
    (forall es r,
        let c := BaseConnector.run es {| this := object o2;
                                         rt := set_awaiting (suspended o2) r |} in
        BaseConnector.circuitBreakerOpen (this c) = true /\
        awaiting (rt c) = [] /\
        BaseConnector.successfulFetches (BaseConnector.metrics_of (this c))
        = BaseConnector.successfulFetches (BaseConnector.metrics_of (object o)) /\
        BaseConnector.failedFetches (BaseConnector.metrics_of (this c))
        = BaseConnector.failedFetches (BaseConnector.metrics_of (object o))) /\
    heap (this w3) = heap (this w2) /\
    restarts (this w3) = [] /\
    DataIngestionService.connectors (service_of (this w3))
    = DataIngestionService.connectors (service_of (this w2)).
Proof.
  intros Href Hi Hn Hcfg Hhealthy Hrun Hopen Hidle Hrs. cbn zeta.
  rewrite (performHealthCheck_of_one w n i Href).
  match goal with |- context [checkConnector n i ?wa] => set (w0 := wa) end.
  destruct (checkConnector_restart_cycle w0 n i o info)
    as (Rf & S1 & Hn1 & Ho1 & o2 & Hi2 & Or & Oo & Ot & Os & S2 & Hn2 & Hstuck & Hsame);
    try assumption;
    [subst w0; destruct w as [[] ?]; cbn in *; subst; solve [auto | apply lookup_reference_one] .. |].
  cbn zeta in *.
  set (w1 := snd (checkConnector n i w0)) in *. clearbody w1.
  assert (Rf2 : references (this (snd (restart_due w1))) = [(n, i)]).
  { rewrite Rf. subst w0. destruct w as [[] ?]. cbn in *. assumption. }
  set (w2 := snd (restart_due w1)) in *. clearbody w2.
  split; [exact S1 |]. split; [exact Hn1 |]. split; [exact Ho1 |].
  exists o2. do 4 (split; [assumption |]). split; [now rewrite Os |].
  do 2 (split; [assumption |]).
  split; [intros es r; apply Hstuck; cbn; now rewrite Os |].
  rewrite (performHealthCheck_of_one w2 n i Rf2).
  match goal with |- context [checkConnector n i ?wa] => set (w2' := wa) end.
  assert (E : this (snd (checkConnector n i w2')) = this w2').
  { apply (checkConnector_marked w2' n i o2
             (DataIngestionService.set_errorCount 0
                (DataIngestionService.set_isHealthy false info)));
      [subst w2'; destruct w2 as [[] ?]; cbn in *; assumption .. | reflexivity | exact Oo]. }
  rewrite E. subst w2'. destruct w2 as [[] ?]. cbn in *. auto.
Qed.

(** *** The service stops and starts its connectors *)

Lemma service_kept_refl w : service_kept w w.
Proof. unfold service_kept. auto 20. Qed.

Lemma service_kept_trans w1 w2 w3 :
  service_kept w1 w2 -> service_kept w2 w3 -> service_kept w1 w3.
Proof.
  unfold service_kept.
  intros (A1 & A2 & A3 & A4 & A5 & A6 & A7 & A8 & A9)
         (B1 & B2 & B3 & B4 & B5 & B6 & B7 & B8 & B9).
  repeat split; congruence.
Qed.

Lemma undisturbed_service_kept w w' : undisturbed w w' -> service_kept w w'.
Proof.
  unfold undisturbed, service_kept.
  intros (A1 & A2 & A3 & A4 & A5 & A6 & A7 & A8 & A9 & A10 & A11 & A12 & A13 & A14).
  auto 20.
Qed.

Lemma start_emits (wc : world (BaseConnector.connector num)) :
  fst (BaseConnector.start wc) = Normal tt /\
  exists signals,
    emitted (rt (snd (BaseConnector.start wc))) = (emitted (rt wc) ++ signals)%list /\
    forallb no_record signals = true /\
    clock (rt (snd (BaseConnector.start wc))) = clock (rt wc) /\
    io (rt (snd (BaseConnector.start wc))) = io (rt wc) /\
    ios (rt (snd (BaseConnector.start wc))) = ios (rt wc).
Proof.
  destruct (BaseConnector.isRunning (this wc)) eqn:Hrun.
  - assert (E : BaseConnector.start wc = (Normal tt, wc)).
    { ConnectorScenarios.open_world wc. reflexivity. }
    rewrite E. split; [reflexivity |]. exists []. cbn. now rewrite app_nil_r.
  - rewrite ConnectorLifecycle.start_when_stopped by exact Hrun.
    destruct (BaseConnector.circuitBreakerOpen (this wc)) eqn:Hopen.
    + rewrite ConnectorProperties.pollData_enter_open;
        [| destruct wc as [[] ?]; cbn in *; auto ..].
      split; [reflexivity |]. exists [SigStart]. cbn. auto.
    + rewrite ConnectorProperties.pollData_enter_closed;
        [| destruct wc as [[] ?]; cbn in *; auto ..].
      split; [reflexivity |]. exists [SigStart]. cbn. auto.
Qed.

Lemma stop_emits (wc : world (BaseConnector.connector num)) :
  fst (BaseConnector.stop wc) = Normal tt /\
  exists signals,
    emitted (rt (snd (BaseConnector.stop wc))) = (emitted (rt wc) ++ signals)%list /\
    forallb no_record signals = true /\
    clock (rt (snd (BaseConnector.stop wc))) = clock (rt wc) /\
    io (rt (snd (BaseConnector.stop wc))) = io (rt wc) /\
    ios (rt (snd (BaseConnector.stop wc))) = ios (rt wc).
Proof.
  destruct (BaseConnector.isRunning (this wc)) eqn:Hrun.
  - rewrite ConnectorLifecycle.stop_when_running by exact Hrun.
    split; [reflexivity |]. exists [SigStop]. cbn. auto.
  - assert (E : BaseConnector.stop wc = (Normal tt, wc)).
    { ConnectorScenarios.open_world wc. reflexivity. }
    rewrite E. split; [reflexivity |]. exists []. cbn. now rewrite app_nil_r.
Qed.

(** A call of [start()] or [stop()] through a reference: the connector is
    there and the call returns, or it is not and nothing has happened. *)
Lemma call_lifecycle i (m : M (BaseConnector.connector num) unit) w :
  (forall wc, fst (m wc) = Normal tt /\
              exists signals,
                emitted (rt (snd (m wc))) = (emitted (rt wc) ++ signals)%list /\
                forallb no_record signals = true /\
                clock (rt (snd (m wc))) = clock (rt wc) /\
                io (rt (snd (m wc))) = io (rt wc) /\
                ios (rt (snd (m wc))) = ios (rt wc)) ->
  (fst (call i m w) = Normal tt /\ service_kept w (snd (call i m w))) \/
  (exists e, call i m w = (Throw e, w)).
Proof.
  intros Hm. destruct (heap (this w) !! i) as [o|] eqn:Hi.
  - left.
    destruct (Hm {| this := object o; rt := set_awaiting (suspended o) (rt w) |})
      as (R & signals & Hem & Hall & Hc & Hio & Hios).
    destruct (call_no_record i m w o signals Hi Hem Hall Hc Hio Hios) as (R' & U & _).
    cbn zeta in *. rewrite R', R. split; [reflexivity |].
    now apply undisturbed_service_kept.
  - right. exists (Error "TypeError"). unfold call. now rewrite Hi.
Qed.

Lemma for_each_kept {X} (body : X -> M (pipeline num) unit) :
  (forall x w, fst (body x w) = Normal tt /\ service_kept w (snd (body x w))) ->
  forall xs w,
    fst (for_each xs body w) = Normal tt /\ service_kept w (snd (for_each xs body w)).
Proof.
  intros Hbody. induction xs as [|x xs IH]; intros w.
  - cbn. auto using service_kept_refl.
  - cbn [for_each]. unfold bind. destruct (Hbody x w) as (R & K).
    destruct (body x w) as [c w1]. cbn [fst snd] in *. subst c.
    destruct (IH w1) as (R1 & K1). split; [exact R1 |].
    eapply service_kept_trans; eauto.
Qed.

Lemma stop_each entries w :
  let loop := for_each entries
                (fun ni : string * nat =>
                   try_catch (call ni.2 BaseConnector.stop) (fun error => ret tt)) in
  fst (loop w) = Normal tt /\ service_kept w (snd (loop w)).
Proof.
  apply for_each_kept. clear. intros [n i] w. unfold try_catch. cbn [fst snd].
  destruct (call_lifecycle i BaseConnector.stop w stop_emits) as [(R & K) | (e & E)].
  - destruct (call i BaseConnector.stop w) as [c w1]. cbn [fst snd] in *. subst c. auto.
  - rewrite E. cbn. auto using service_kept_refl.
Qed.

Lemma start_each entries w :
  let loop := for_each entries
                (fun ni : string * nat =>
                   try_catch
                     (call ni.2 BaseConnector.start)
                     (fun error =>
                        on_service
                          (modify (DataIngestionService.on_connectorInfo ni.1
                                     (DataIngestionService.set_isHealthy false))))) in
  fst (loop w) = Normal tt /\ service_kept w (snd (loop w)).
Proof.
  apply for_each_kept. clear. intros [n i] w. unfold try_catch. cbn [fst snd].
  destruct (call_lifecycle i BaseConnector.start w start_emits) as [(R & K) | (e & E)].
  - destruct (call i BaseConnector.start w) as [c w1]. cbn [fst snd] in *. subst c. auto.
  - rewrite E. destruct w as [[[] ? ? ? ? ? ?] ?]. unfold service_kept. cbn. auto 20.
Qed.

Lemma stop_of_running_service w :
  DataIngestionService.isRunning (service_of (this w)) = true ->
  (MessageQueue.redisClient (handles (this w)) = true -> io (rt w) (ios (rt w)) = Normal tt) ->
  let w' := snd (stop w) in
  fst (stop w) = Normal tt /\
  DataIngestionService.isRunning (service_of (this w')) = false /\
  MessageQueue.isConnected (DataIngestionService.messageQueue (service_of (this w'))) = false /\
  healthCheckTimer (this w') = None /\
  DataIngestionService.config_of (service_of (this w'))
  = DataIngestionService.config_of (service_of (this w)) /\
  references (this w') = references (this w) /\
  notices (this w') = (notices (this w) ++ [NoteStopped])%list.
Proof.
  intros Hrun Hquit. cbn zeta.
  destruct w as [[sv rf hp tm rs hd nt] r]. destruct sv as [cfg q entries running m].
  cbn in Hrun, Hquit. subst running.
  unfold stop, bind, gets, on_service, zoom, modify, when.
  cbn [this rt fst snd service_of references heap healthCheckTimer restarts handles notices
       set_service set_healthCheckTimer DataIngestionService.isRunning
       DataIngestionService.set_isRunning negb].
  destruct tm as [t|];
    [rewrite !bool_decide_eq_true_2 by discriminate
    | rewrite !bool_decide_eq_false_2 by (intros E; now apply E)];
    unfold ret;
    cbn [this rt fst snd service_of references heap healthCheckTimer restarts handles notices
         set_service set_healthCheckTimer DataIngestionService.isRunning
         DataIngestionService.set_isRunning negb].
  all: match goal with |- context [for_each ?es ?f ?wa] =>
         assert (HK : fst (for_each es f wa) = Normal tt /\
                      service_kept wa (snd (for_each es f wa))) by exact (stop_each es wa);
         destruct HK as (R & K);
         destruct (for_each es f wa) as [c wb] end.
  all: cbn [fst snd] in *; subst c.
  all: destruct K as (K1 & K2 & K3 & K4 & K5 & K6 & K7 & K8 & K9).
  all: cbn in K1, K2, K3, K4, K5, K6, K7, K8, K9.
  all: unfold DataIngestionService.on_messageQueue, zoom, MessageQueue.close, try_catch, bind,
         when, modify, external, with_rt, ret.
  all: destruct wb as [[[] ? ? ? ? ? ?] rb]; cbn in *; subst.
  all: destruct (MessageQueue.redisClient _) eqn:Hredis; cbn;
         [rewrite K8, K9, (Hquit eq_refl) |]; cbn; auto 10.
Qed.

Lemma start_of_stopped_service w :
  DataIngestionService.isRunning (service_of (this w)) = false ->
  let w' := snd (start w) in
  fst (start w) = Normal tt /\
  DataIngestionService.isRunning (service_of (this w')) = true /\
  DataIngestionService.messageQueue (service_of (this w'))
  = DataIngestionService.messageQueue (service_of (this w)) /\
  healthCheckTimer (this w')
  = Some (DataIngestionService.healthCheckInterval
            (DataIngestionService.config_of (service_of (this w)))) /\
  DataIngestionService.config_of (service_of (this w'))
  = DataIngestionService.config_of (service_of (this w)) /\
  references (this w') = references (this w) /\
  notices (this w') = (notices (this w) ++ [NoteStarted])%list.
Proof.
  intros Hrun. cbn zeta.
  destruct w as [[sv rf hp tm rs hd nt] r]. destruct sv as [cfg q entries running m].
  cbn in Hrun. subst running.
  unfold start, startHealthChecking, bind, gets, on_service, zoom, modify, Date_now, with_rt.
  cbn [this rt fst snd service_of references heap healthCheckTimer restarts handles notices
       set_service set_healthCheckTimer DataIngestionService.isRunning
       DataIngestionService.set_isRunning DataIngestionService.on_metrics].
  match goal with |- context [for_each ?es ?f ?wa] =>
    assert (HK : fst (for_each es f wa) = Normal tt /\
                 service_kept wa (snd (for_each es f wa))) by exact (start_each es wa);
    destruct HK as (R & K);
    destruct (for_each es f wa) as [c wb] end.
  cbn [fst snd] in *; subst c.
  destruct K as (K1 & K2 & K3 & K4 & K5 & K6 & K7 & K8 & K9).
  destruct wb as [[[] ? ? ? ? ? ?] rb]; cbn in *; subst. auto 10.
Qed.

Lemma getHealth_when_closed (ws : world DataIngestionService.service) :
  MessageQueue.isConnected (DataIngestionService.messageQueue (this ws)) = false ->
  exists h,
    fst (DataIngestionService.getHealth ws) = Normal h /\
    DataIngestionService.sh_status h = DataIngestionService.sv_critical /\
    DataIngestionService.sh_isRunning h = DataIngestionService.isRunning (this ws).
Proof.
  intros Hclosed. destruct ws as [s r].
  unfold DataIngestionService.getHealth, bind, gets, ret, DataIngestionService.on_messageQueue,
    zoom.
  cbn [this rt fst snd] in *.
  destruct (DataIngestionService.tally (DataIngestionService.connectors s))
    as [[total healthyCount] unhealthyNames].
  assert (Hq : exists q, fst (MessageQueue.healthCheck
                                {| this := DataIngestionService.messageQueue s; rt := r |})
                         = Normal q /\ MessageQueue.connected q = false).
  { destruct s as [cfg [[ty ts] c b l h] entries running m]. cbn in Hclosed. subst c.
    unfold MessageQueue.healthCheck, MessageQueue.publish, MessageQueue.generateMessageId,
      MessageQueue.publishToKafka, try_catch, bind, gets, modify, emit, with_rt, ret, throw,
      external, Date_now, Math_random_toString36.
    cbn. destruct ty; cbn; try destruct (io r (ios r)); cbn; eauto. }
  destruct Hq as (q & Hq & Hconn).
  destruct (MessageQueue.healthCheck _) as [c W']. cbn [fst snd this rt] in *. subst c.
  eexists. split; [reflexivity |]. cbn. rewrite Hconn. cbn.
  now rewrite orb_true_r.
Qed.

(** X21.  [stop()] closes the queue and [start()] does not open it again:
    a service that is stopped and started again runs, checks its
    connectors again, and reports [critical] in [getHealth()] whatever its
    connectors do, because [isConnected] of its queue stays false. *)
Theorem restarted_service_stays_critical w :
  DataIngestionService.isRunning (service_of (this w)) = true ->
  (MessageQueue.redisClient (handles (this w)) = true -> io (rt w) (ios (rt w)) = Normal tt) ->
  let w' := snd (start (snd (stop w))) in
  fst (stop w) = Normal tt /\
  fst (start (snd (stop w))) = Normal tt /\
  DataIngestionService.isRunning (service_of (this w')) = true /\
  healthCheckTimer (this w')
  = Some (DataIngestionService.healthCheckInterval
            (DataIngestionService.config_of (service_of (this w)))) /\
  notices (this w') = (notices (this w) ++ [NoteStopped; NoteStarted])%list /\
  MessageQueue.isConnected (DataIngestionService.messageQueue (service_of (this w'))) = false /\
  forall r,
  exists h,
    fst (DataIngestionService.getHealth {| this := service_of (this w'); rt := r |}) = Normal h /\
    DataIngestionService.sh_status h = DataIngestionService.sv_critical /\
    DataIngestionService.sh_isRunning h = true.
Proof.
  intros Hrun Hquit. cbn zeta.
  destruct (stop_of_running_service w Hrun Hquit) as (R1 & S1 & Q1 & T1 & C1 & F1 & N1).
  cbn zeta in *. set (w1 := snd (stop w)) in *. clearbody w1.
  destruct (start_of_stopped_service w1 S1) as (R2 & S2 & Q2 & T2 & C2 & F2 & N2).
  cbn zeta in *. set (w2 := snd (start w1)) in *. clearbody w2.
  split; [exact R1 |]. split; [exact R2 |]. split; [exact S2 |].
  split; [now rewrite T2, C1 |].
  split; [rewrite N2, N1, <- app_assoc; reflexivity |].
  split; [now rewrite Q2 |].
  intros r.
  destruct (getHealth_when_closed {| this := service_of (this w2); rt := r |}) as (h & Hh & Hs & Hr);
    [cbn; now rewrite Q2 |].
  exists h. cbn in Hr. rewrite Hr, S2. auto.
Qed.

(** *** A connector is unregistered *)

Lemma call_gets {A} (f : BaseConnector.connector num -> A) i w o :
  heap (this w) !! i = Some o ->
  call i (gets f) w = (Normal (f (object o)), w).
Proof.
  intros Hi. unfold call, gets. rewrite Hi. cbn [this rt fst snd emitted set_awaiting awaiting].
  rewrite drop_all. cbn [broadcast ret snd].
  rewrite list_insert_id by (rewrite Hi; now destruct o).
  now destruct w as [[] []].
Qed.

Lemma notify_start names : forall w,
  DataIngestionService.connectorsRunning
    (DataIngestionService.metrics_of (service_of (this (snd (notify names SigStart w)))))
  = DataIngestionService.connectorsRunning
      (DataIngestionService.metrics_of (service_of (this w)))
    + Z.of_nat (length names).
Proof.
  induction names as [|n names IH]; intros w.
  - cbn. lia.
  - cbn [notify]. unfold bind.
    assert (Hone : fst (on_service (DataIngestionService.on_connector_signal n SigStart) w)
                   = Normal tt /\
                   DataIngestionService.connectorsRunning
                     (DataIngestionService.metrics_of
                        (service_of
                           (this (snd (on_service
                                         (DataIngestionService.on_connector_signal n SigStart)
                                         w)))))
                   = DataIngestionService.connectorsRunning
                       (DataIngestionService.metrics_of (service_of (this w))) + 1).
    { destruct w as [[s0 refs hp timer rs hd nt] r]. destruct s0 as [? ? ? ? []]. cbn. auto. }
    destruct (on_service (DataIngestionService.on_connector_signal n SigStart) w) as [c w1].
    cbn [fst snd] in *. destruct Hone as (-> & M1).
    rewrite IH, M1. cbn [length]. lia.
Qed.

(** [start()] of a connector that is not running, called through a
    reference: every listener that is attached to the connector counts one
    more running connector. *)
Lemma call_start_stopped i w o :
  heap (this w) !! i = Some o ->
  BaseConnector.isRunning (object o) = false ->
  let w' := snd (call i BaseConnector.start w) in
  fst (call i BaseConnector.start w) = Normal tt /\
  undisturbed w w' /\
  (exists o', heap (this w') !! i = Some o' /\
              BaseConnector.isRunning (object o') = true /\
              attached o' = attached o) /\
  DataIngestionService.connectorsRunning
    (DataIngestionService.metrics_of (service_of (this w')))
  = DataIngestionService.connectorsRunning
      (DataIngestionService.metrics_of (service_of (this w)))
    + Z.of_nat (length (attached o)).
Proof.
  intros Hi Hrun.
  assert (Hstart : exists c' r',
    BaseConnector.start {| this := object o; rt := set_awaiting (suspended o) (rt w) |}
    = (Normal tt, {| this := c'; rt := r' |}) /\
    BaseConnector.isRunning c' = true /\
    emitted r' = (emitted (rt w) ++ [SigStart])%list /\
    clock r' = clock (rt w) /\ io r' = io (rt w) /\ ios r' = ios (rt w)).
  { rewrite ConnectorLifecycle.start_when_stopped by exact Hrun.
    destruct (BaseConnector.circuitBreakerOpen (object o)) eqn:Hopen.
    - rewrite ConnectorProperties.pollData_enter_open;
        [| destruct o as [[] ? ?]; cbn in *; auto ..].
      do 2 eexists. split; [reflexivity |]. cbn. auto 10.
    - rewrite ConnectorProperties.pollData_enter_closed;
        [| destruct o as [[] ? ?]; cbn in *; auto ..].
      do 2 eexists. split; [reflexivity |]. cbn. auto 10. }
  destruct Hstart as (c' & r' & Hstart & Hrun' & Hem & Hc & Hio & Hios).
  destruct (call_no_record i BaseConnector.start w o [SigStart] Hi) as (R & U & Hh & Ht);
    [try rewrite Hstart; first [assumption | reflexivity] .. |].
  cbn zeta in *. rewrite R, Hstart in *. cbn [fst snd this rt] in *.
  split; [reflexivity |]. split; [exact U |]. split.
  - eexists. split; [rewrite Hh; apply list_lookup_insert_eq; eapply lookup_lt_Some; eauto |].
    cbn. auto.
  - unfold call. rewrite Hi, Hstart. cbn [fst snd this rt]. rewrite Hem, drop_app_length.
    cbn [broadcast]. unfold bind.
    match goal with |- context [notify ?ns SigStart ?w1] =>
      pose proof (notify_start ns w1) as Hcount;
      destruct (notify_no_record ns SigStart w1 eq_refl) as (Rn & _);
      destruct (notify ns SigStart w1) as [c w2] end.
    cbn [fst snd] in *. subst c. cbn [ret fst snd]. rewrite Hcount.
    now destruct w as [[] ?].
Qed.

Lemma unregisterConnector_of_stopped w n i o info :
  DataIngestionService.connectors (service_of (this w)) !! n = Some info ->
  lookup_reference n (references (this w)) = Some i ->
  heap (this w) !! i = Some o ->
  BaseConnector.isRunning (object o) = false ->
  unregisterConnector n w
  = (Normal true,
     {| this :=
          note (NoteConnectorUnregistered n)
            (set_service
               (DataIngestionService.on_metrics DataIngestionService.decr_connectorsRegistered
                  (DataIngestionService.set_connectors
                     (delete n (DataIngestionService.connectors (service_of (this w))))
                     (service_of (this w))))
               (set_restarts
                  (map (fun r => if bool_decide (restart_entry r = Some n)
                                 then {| restart_connector := restart_connector r;
                                         restart_entry := None |}
                                 else r)
                       (restarts (this w)))
                  (set_references (filter (fun ni => ni.1 <> n) (references (this w)))
                     (this w))));
        rt := rt w |}).
Proof.
  intros Hn Href Hi Hrun.
  unfold unregisterConnector, bind, gets at 1. cbn [this rt fst snd].
  rewrite Hn, bool_decide_eq_false_2 by discriminate.
  unfold gets at 1. cbn [this rt fst snd]. rewrite (reference_found n w i Href).
  rewrite (call_gets BaseConnector.isRunning i w o Hi), Hrun.
  destruct w as [[[] ? ? ? ? ? ?] ?]. reflexivity.
Qed.

Lemma lookup_reference_filter n (l : list (string * nat)) :
  lookup_reference n (filter (fun ni => ni.1 <> n) l) = None.
Proof.
  induction l as [|[m j] l IH]; [reflexivity |].
  rewrite filter_cons. cbn [fst]. destruct (decide (m <> n)) as [Hne | Heq].
  - cbn [lookup_reference]. apply String.eqb_neq in Hne. now rewrite Hne.
  - exact IH.
Qed.

(** X22.  [unregisterConnector] does not cancel a restart that a health
    check has scheduled.  When the connector of an entry waits, stopped,
    for its restart and the entry is unregistered, the entry and its
    reference are gone, the timeout stays, and when it fires the connector
    is started all the same: it runs without an entry, out of the reach of
    [stop()] and of the health checks of the service, and the listeners
    that are still attached to it count it as running. *)
Theorem unregistering_does_not_cancel_a_restart w n i o info rest :
  restarts (this w) = {| restart_connector := i; restart_entry := Some n |} :: rest ->
  DataIngestionService.connectors (service_of (this w)) !! n = Some info ->
  lookup_reference n (references (this w)) = Some i ->
  heap (this w) !! i = Some o ->
  BaseConnector.isRunning (object o) = false ->
  let w1 := snd (unregisterConnector n w) in
  let w2 := snd (restart_due w1) in
  fst (unregisterConnector n w) = Normal true /\
  DataIngestionService.connectors (service_of (this w1)) !! n = None /\
  lookup_reference n (references (this w1)) = None /\
  length (restarts (this w1)) = S (length rest) /\
  heap (this w1) = heap (this w) /\
  DataIngestionService.connectors (service_of (this w2)) !! n = None /\
  lookup_reference n (references (this w2)) = None /\
  length (restarts (this w2)) = length rest /\
  (exists o2, heap (this w2) !! i = Some o2 /\
              BaseConnector.isRunning (object o2) = true /\
              attached o2 = attached o) /\
  DataIngestionService.connectorsRunning
    (DataIngestionService.metrics_of (service_of (this w2)))
  = DataIngestionService.connectorsRunning
      (DataIngestionService.metrics_of (service_of (this w)))
    + Z.of_nat (length (attached o)).
Proof.
  intros Hrs Hn Href Hi Hrun. cbn zeta.
  rewrite (unregisterConnector_of_stopped w n i o info Hn Href Hi Hrun).
  cbn [fst snd]. rewrite Hrs. cbn [map restart_entry restart_connector].
  rewrite bool_decide_eq_true_2 by reflexivity.
  match goal with |- context [restart_due ?wa] => set (w1 := wa) end.
  assert (F1 : DataIngestionService.connectors (service_of (this w1)) !! n = None).
  { subst w1. destruct w as [[[] ? ? ? ? ? ?] ?]. cbn. apply lookup_delete_eq. }
  assert (F2 : lookup_reference n (references (this w1)) = None).
  { subst w1. destruct w as [[[] ? ? ? ? ? ?] ?]. cbn. apply lookup_reference_filter. }
  assert (F3 : heap (this w1) = heap (this w)).
  { subst w1. now destruct w as [[[] ? ? ? ? ? ?] ?]. }
  assert (F4 : exists rest', restarts (this w1)
                             = {| restart_connector := i; restart_entry := None |} :: rest' /\
                             length rest' = length rest).
  { subst w1. destruct w as [[[] ? ? ? ? ? ?] ?]. cbn. eexists. split; [reflexivity |].
    apply length_map. }
  assert (F5 : DataIngestionService.connectorsRunning
                 (DataIngestionService.metrics_of (service_of (this w1)))
               = DataIngestionService.connectorsRunning
                   (DataIngestionService.metrics_of (service_of (this w)))).
  { subst w1. now destruct w as [[[? ? ? ? []] ? ? ? ? ? ?] ?]. }
  clearbody w1. destruct F4 as (rest' & F4 & Hlen).
  split; [reflexivity |]. split; [exact F1 |]. split; [exact F2 |].
  split; [rewrite F4; cbn; now rewrite Hlen |]. split; [exact F3 |].
  unfold restart_due, bind, gets. cbn [this rt fst snd]. rewrite F4.
  unfold try_catch, bind, modify. cbn [this rt fst snd restart_connector restart_entry].
  match goal with |- context [call i BaseConnector.start ?wa] =>
    destruct (call_start_stopped i wa o) as (R & U & Ho2 & Hcount);
      [cbn; rewrite F3; exact Hi | assumption |];
    assert (G1 : DataIngestionService.connectors (service_of (this wa))
                 = DataIngestionService.connectors (service_of (this w1)))
      by (now destruct w1 as [[] ?]);
    assert (G2 : references (this wa) = references (this w1)) by (now destruct w1 as [[] ?]);
    assert (G3 : restarts (this wa) = rest') by (now destruct w1 as [[] ?]);
    assert (G4 : DataIngestionService.metrics_of (service_of (this wa))
                 = DataIngestionService.metrics_of (service_of (this w1)))
      by (now destruct w1 as [[] ?]);
    destruct (call i BaseConnector.start wa) as [c wb] end.
  destruct U as (U1 & U2 & U3 & U4 & U5 & U6 & U7 & _).
  cbn [fst snd] in *. subst c. cbn [ret fst snd].
  rewrite U3, G1, U5, G2, U7, G3, Hcount, G4, F5.
  auto 10.
Qed.

(** *** A connector is registered again *)

Lemma registerConnector_fresh w n i o :
  DataIngestionService.connectors (service_of (this w)) !! n = None ->
  heap (this w) !! i = Some o ->
  registerConnector n i w
  = (Normal tt,
     {| this :=
          set_references (references (this w) ++ [(n, i)])
            (set_service
               (DataIngestionService.on_metrics DataIngestionService.incr_connectorsRegistered
                  (DataIngestionService.set_connectors
                     (<[n := IngestionScenarios.registered n (clock (rt w) (ticks (rt w)))]>
                        (DataIngestionService.connectors (service_of (this w))))
                     (service_of (this w))))
               (set_heap (<[i := {| object := object o; attached := attached o ++ [n];
                                    suspended := suspended o |}]> (heap (this w)))
                  (this w)));
        rt := record_signal (SigConnectorRegistered n) (tick (rt w)) |}).
Proof.
  intros Hn Hi.
  unfold registerConnector, bind, gets at 1. cbn [this rt fst snd].
  rewrite Hn, bool_decide_eq_false_2 by (intros E; now apply E).
  unfold attach. rewrite Hi. cbn [this rt fst snd].
  unfold on_service, zoom, DataIngestionService.registerConnector, bind, gets, modify, emit,
    with_rt, Date_now.
  cbn [this rt fst snd set_heap service_of]. rewrite Hn.
  rewrite bool_decide_eq_false_2 by (intros E; now apply E).
  destruct w as [[[] ? ? ? ? ? ?] ?]. reflexivity.
Qed.

End Generic.

Section Duplicates.
Context {num : Type} `{Number num}.
Implicit Types w : world (pipeline num).

Lemma notify_twice n s w :
  let ws := {| this := service_of (this w); rt := rt w |} in
  let ws' := snd (DataIngestionService.on_connector_signal n s
                    (snd (DataIngestionService.on_connector_signal n s ws))) in
  snd (notify [n; n] s w) = {| this := set_service (this ws') (this w); rt := rt ws' |}.
Proof.
  cbn zeta. cbn [notify]. unfold bind, on_service, zoom, ret. cbn [this rt fst snd].
  pose proof (ServiceOperations.on_connector_signal_returns
                {| this := service_of (this w); rt := rt w |} n s) as R1.
  destruct (DataIngestionService.on_connector_signal n s
              {| this := service_of (this w); rt := rt w |}) as [c1 ws1].
  cbn [fst snd this rt] in *. subst c1. cbn [this rt fst snd set_service service_of].
  pose proof (ServiceOperations.on_connector_signal_returns ws1 n s) as R2.
  destruct ws1 as [s1 r1]. cbn [this rt].
  destruct (DataIngestionService.on_connector_signal n s {| this := s1; rt := r1 |})
    as [c2 ws2].
  cbn [fst snd this rt] in *. subst c2. cbn [fst snd]. now destruct w as [[] ?].
Qed.

Lemma pollData_resume_keeps_the_clock (wc : world (BaseConnector.connector num)) t0 outcome :
  clock (rt (snd (BaseConnector.pollData_resume t0 outcome wc))) = clock (rt wc) /\
  io (rt (snd (BaseConnector.pollData_resume t0 outcome wc))) = io (rt wc).
Proof.
  ConnectorScenarios.open_world wc.
  unfold BaseConnector.pollData_resume, try_catch, await, bind. cbn.
  destruct outcome as [d | e]; cbn.
  - unfold BaseConnector.handleSuccessfulFetch, bind, modify, gets, when. cbn.
    destruct open, btimer, (truthy d), running; cbn; auto.
  - unfold BaseConnector.handleFailedFetch, bind, modify, gets, when. cbn.
    destruct (BaseConnector.maxRetries cfg <=? retries + 1), open, running; cbn; auto.
Qed.

(** The fetch of the oldest suspended cycle of a connector resolves with a
    record: the listeners are called with it. *)
Lemma call_settle_record i w o t0 rest d :
  heap (this w) !! i = Some o ->
  suspended o = t0 :: rest ->
  BaseConnector.circuitBreakerOpen (object o) = false ->
  truthy d = true ->
  exists c' r',
    clock r' = clock (rt w) /\
    snd (call i (BaseConnector.settle 0 (Normal d)) w)
    = snd (notify (attached o) (SigData d)
             {| this := set_heap (<[i := {| object := c'; attached := attached o;
                                            suspended := rest |}]> (heap (this w)))
                                 (this w);
                rt := r' |}).
Proof.
  intros Hi Hsus Hclosed Hd. unfold call. rewrite Hi.
  unfold BaseConnector.settle. cbn [this rt awaiting set_awaiting]. rewrite Hsus.
  cbn [lookup list_lookup delete list_delete].
  match goal with |- context [BaseConnector.pollData_resume t0 (Normal d) ?wa] =>
    destruct (ConnectorProperties.pollData_resume_succeeds wa t0 d)
      as (_ & Haw & _ & _ & _ & _ & _ & _ & _ & _ & _ & Hem);
    destruct (pollData_resume_keeps_the_clock wa t0 (Normal d)) as (Hclock & _);
    destruct (BaseConnector.pollData_resume t0 (Normal d) wa) as [c wc] end.
  cbn [fst snd this rt awaiting set_awaiting emitted clock] in *.
  rewrite Hclosed, Hd in Hem. cbn [app] in Hem.
  rewrite Hem, drop_app_length. cbn [broadcast]. unfold bind.
  exists (this wc), (set_awaiting (awaiting (rt w)) (rt wc)).
  split; [exact Hclock |]. rewrite Haw.
  destruct (notify (attached o) (SigData d) _) as [[[] | e] w2]; reflexivity.
Qed.

Lemma call_start_at_closed_breaker i w o :
  heap (this w) !! i = Some o ->
  BaseConnector.isRunning (object o) = false ->
  BaseConnector.circuitBreakerOpen (object o) = false ->
  let w' := snd (call i BaseConnector.start w) in
  undisturbed w w' /\
  heap (this w')
  = <[i := {| object :=
                BaseConnector.on_metrics BaseConnector.incr_totalFetches
                  (BaseConnector.set_lastPollTime (Some (clock (rt w) (ticks (rt w))))
                     (BaseConnector.set_isRunning true (object o)));
              attached := attached o;
              suspended := (suspended o ++ [clock (rt w) (ticks (rt w))])%list |}]>
      (heap (this w)).
Proof.
  intros Hi Hrun Hopen.
  assert (Hstart :
    BaseConnector.start {| this := object o; rt := set_awaiting (suspended o) (rt w) |}
    = (Normal tt,
       {| this := BaseConnector.on_metrics BaseConnector.incr_totalFetches
                    (BaseConnector.set_lastPollTime (Some (clock (rt w) (ticks (rt w))))
                       (BaseConnector.set_isRunning true (object o)));
          rt := set_awaiting (suspended o ++ [clock (rt w) (ticks (rt w))])
                  (tick (record_signal SigStart (set_awaiting (suspended o) (rt w)))) |})).
  { rewrite ConnectorLifecycle.start_when_stopped by exact Hrun.
    rewrite ConnectorProperties.pollData_enter_closed; [reflexivity | |];
      destruct o as [[] ? ?]; cbn in *; auto. }
  destruct (call_no_record i BaseConnector.start w o [SigStart] Hi) as (R & U & Hh & Ht);
    [try rewrite Hstart; reflexivity .. |].
  cbn zeta in *. rewrite Hh, Hstart. auto.
Qed.

(** X23.  [registerConnector] attaches its listeners to the connector and
    nothing ever detaches them.  When a stopped connector is unregistered
    and registered again under its name, it carries two sets of listeners:
    its next [start()] is counted as two running connectors, and the next
    record that it fetches is ingested twice, two messages on the topic of
    the raw data and two in the [dataCount] of the new entry. *)
Theorem reregistered_connector_is_heard_twice w n i o info r t s :
  DataIngestionService.connectors (service_of (this w)) !! n = Some info ->
  lookup_reference n (references (this w)) = Some i ->
  heap (this w) !! i = Some o ->
  attached o = [n] ->
  suspended o = [] ->
  BaseConnector.isRunning (object o) = false ->
  BaseConnector.circuitBreakerOpen (object o) = false ->
  MessageQueue.type
    (MessageQueue.config_of (DataIngestionService.messageQueue (service_of (this w))))
  = MessageQueue.memory ->
  MessageQueue.rawData
    (MessageQueue.topics_of
       (MessageQueue.config_of (DataIngestionService.messageQueue (service_of (this w)))))
  <> "dead-letter-queue" ->
  timestamp r = Some t -> t <> 0 -> source r = Some s -> s <> "" ->
  (forall k, ServiceScenarios.in_window (clock (rt w) k) t = true) ->
  let w1 := snd (unregisterConnector n w) in
  let w2 := snd (registerConnector n i w1) in
  let w3 := snd (call i BaseConnector.start w2) in
  let w4 := snd (call i (BaseConnector.settle 0 (Normal (VRec r))) w3) in
  fst (unregisterConnector n w) = Normal true /\
  fst (registerConnector n i w1) = Normal tt /\
  (exists o2, heap (this w2) !! i = Some o2 /\ attached o2 = [n; n]) /\
  DataIngestionService.connectorsRunning
    (DataIngestionService.metrics_of (service_of (this w3)))
  = DataIngestionService.connectorsRunning
      (DataIngestionService.metrics_of (service_of (this w))) + 2 /\
  (exists m1 m2 r1 r2,
      published w4 = (published w ++ [m1; m2])%list /\
      data m1 = PRecord r1 /\ data m2 = PRecord r2 /\
      timestamp r1 = Some t /\ source r1 = Some s /\ others r1 = others r /\
      timestamp r2 = Some t /\ source r2 = Some s /\ others r2 = others r) /\
  exists info',
    DataIngestionService.connectors (service_of (this w4)) !! n = Some info' /\
    DataIngestionService.dataCount info' = 2.
Proof.
  intros Hn Href Hi Hatt Hsus Hrun Hclosed Hty Hraw Ht Ht0 Hs Hs0 Hwin. cbn zeta.
  rewrite (unregisterConnector_of_stopped w n i o info Hn Href Hi Hrun). cbn [fst snd].
  match goal with |- context [registerConnector n i ?wa] => set (w1 := wa) end.
  assert (Hn1 : DataIngestionService.connectors (service_of (this w1)) !! n = None).
  { subst w1. destruct w as [[[] ? ? ? ? ? ?] ?]. cbn. apply lookup_delete_eq. }
  assert (Hi1 : heap (this w1) !! i = Some o).
  { subst w1. destruct w as [[[] ? ? ? ? ? ?] ?]. exact Hi. }
  rewrite (registerConnector_fresh w1 n i o Hn1 Hi1). cbn [fst snd].
  match goal with |- context [call i BaseConnector.start ?wa] => set (w2 := wa) end.
  set (o2 := {| object := object o; attached := (attached o ++ [n])%list;
                suspended := suspended o |}).
  assert (Hi2 : heap (this w2) !! i = Some o2).
  { subst w2. cbn. apply list_lookup_insert_eq. eapply lookup_lt_Some; eauto. }
  assert (Q2 : DataIngestionService.messageQueue (service_of (this w2))
               = DataIngestionService.messageQueue (service_of (this w))).
  { subst w2 w1. now destruct w as [[[] ? ? ? ? ? ?] ?]. }
  assert (M2 : DataIngestionService.connectorsRunning
                 (DataIngestionService.metrics_of (service_of (this w2)))
               = DataIngestionService.connectorsRunning
                   (DataIngestionService.metrics_of (service_of (this w)))).
  { subst w2 w1. now destruct w as [[[? ? ? ? []] ? ? ? ? ? ?] ?]. }
  assert (K2 : clock (rt w2) = clock (rt w)).
  { subst w2 w1. now destruct w as [[[] ? ? ? ? ? ?] []]. }
  assert (Hn2 : DataIngestionService.connectors (service_of (this w2)) !! n
                = Some (IngestionScenarios.registered n (clock (rt w) (ticks (rt w))))).
  { subst w2 w1. destruct w as [[[] ? ? ? ? ? ?] ?]. cbn. apply lookup_insert_eq. }
  clearbody w2. clear w1 Hn1 Hi1.
  split; [reflexivity |]. split; [reflexivity |].
  split; [exists o2; split; [exact Hi2 | subst o2; cbn; now rewrite Hatt] |].
  destruct (call_start_stopped i w2 o2 Hi2 Hrun) as (_ & _ & _ & Hcount).
  destruct (call_start_at_closed_breaker i w2 o2 Hi2 Hrun Hclosed) as (U & Hh).
  cbn zeta in *.
  set (w3 := snd (call i BaseConnector.start w2)) in *. clearbody w3.
  split; [rewrite Hcount, M2; subst o2; cbn; rewrite Hatt; reflexivity |].
  destruct U as (U1 & U2 & U3 & U4 & U5 & U6 & U7 & U8 & U9 & U10 & U11 & _).
  match type of Hh with _ = <[i := ?x]> _ => set (o3 := x) in * end.
  assert (Hi3 : heap (this w3) !! i = Some o3).
  { rewrite Hh. apply list_lookup_insert_eq. eapply lookup_lt_Some; eauto. }
  destruct (call_settle_record i w3 o3 (clock (rt w2) (ticks (rt w2))) [] (VRec r) Hi3)
    as (c' & r' & K3 & E); [subst o3 o2; cbn; now rewrite Hsus | exact Hclosed | reflexivity |].
  rewrite E. replace (attached o3) with [n; n] by (subst o3 o2; cbn; now rewrite Hatt).
  rewrite notify_twice. cbn zeta. cbn [this rt set_heap service_of].
  match goal with |- context [DataIngestionService.on_connector_signal n _ ?ws] =>
    destruct (ServiceOperations.record_handled_twice ws n r
                (IngestionScenarios.registered n (clock (rt w) (ticks (rt w)))) t s)
      as ((m1 & m2 & r1 & r2 & P & Hm) & (info' & Hinfo & Hcount2 & _) & _);
      [cbn; rewrite U3; exact Hn2
      | cbn; rewrite U2, Q2; exact Hty
      | cbn; rewrite U2, Q2; exact Hraw
      | exact Ht | exact Ht0 | exact Hs | exact Hs0
      | intros k; cbn; rewrite K3, U11, K2; apply Hwin |] end.
  cbn zeta in *. cbn [DataIngestionService.on_connector_signal].
  split.
  - exists m1, m2, r1, r2. split; [| exact Hm].
    unfold published, ServiceScenarios.raw_data in *. cbn [this rt set_service service_of] in *.
    rewrite P, U2, Q2. reflexivity.
  - exists info'. cbn [this rt set_service service_of]. split; [exact Hinfo |].
    rewrite Hcount2. reflexivity.
Qed.

End Duplicates.

Lemma restart_does_not_revive_a_tripped_connector_witness :
  restarts (this (snd (performHealthCheck (run mta_trips one_connector))))
  = [{| restart_connector := 0; restart_entry := Some "mta" |}] /\
  restarts (this (snd (performHealthCheck
                         (snd (restart_due
                                 (snd (performHealthCheck (run mta_trips one_connector)))))))) = [].
Proof.
  edestruct (restart_does_not_revive_a_tripped_connector
               (run mta_trips one_connector) "mta" 0%nat)
    as (S1 & _ & _ & o2 & _ & _ & _ & _ & _ & _ & _ & _ & _ & S3 & _);
    [vm_compute; reflexivity .. |].
  exact (conj S1 S3).
Defined.

Lemma restarted_service_stays_critical_witness :
  DataIngestionService.isRunning (service_of (this (snd (start (snd (stop one_connector))))))
  = true /\
  MessageQueue.isConnected
    (DataIngestionService.messageQueue
       (service_of (this (snd (start (snd (stop one_connector))))))) = false.
Proof.
  refine (let H := restarted_service_stays_critical one_connector _ _ in
          conj (proj1 (proj2 (proj2 H)))
               (proj1 (proj2 (proj2 (proj2 (proj2 (proj2 H)))))));
    vm_compute; [reflexivity | discriminate].
Defined.

Lemma unregistering_does_not_cancel_a_restart_witness :
  fst (unregisterConnector "mta" awaiting_restart) = Normal true /\
  DataIngestionService.connectors
    (service_of (this (snd (restart_due (snd (unregisterConnector "mta" awaiting_restart))))))
  !! "mta" = None.
Proof.
  edestruct (unregistering_does_not_cancel_a_restart awaiting_restart "mta" 0%nat)
    as (R & _ & _ & _ & _ & G & _);
    [vm_compute; reflexivity .. |].
  exact (conj R G).
Defined.

Lemma reregistered_connector_is_heard_twice_witness :
  DataIngestionService.connectorsRunning
    (DataIngestionService.metrics_of
       (service_of
          (this (snd (call 0 BaseConnector.start
                        (snd (registerConnector "mta" 0
                                (snd (unregisterConnector "mta" registered_once)))))))))
  = DataIngestionService.connectorsRunning
      (DataIngestionService.metrics_of (service_of (this registered_once))) + 2.
Proof.
  edestruct (reregistered_connector_is_heard_twice registered_once "mta" 0%nat)
    with (r := ServiceScenarios.arrival 1700000000000 "mta")
         (t := 1700000000000) (s := "mta")
    as (_ & _ & _ & C & _);
    [vm_compute; reflexivity .. | | | | | | | | exact C];
    first [reflexivity | discriminate | intros k; reflexivity | vm_compute; discriminate ].
Defined.

End SupervisionProperties.

(** * Rounding in binary64

    The operations of [SpecFloat], which the primitive floats implement,
    round to nearest: on non-negative numbers away from the ends of the
    range, the result of a multiplication, an addition or a division is
    within the unit roundoff of the exact result. *)

Module RoundingProperties.
Import Rounding FloatValues.

(** ** Powers of two and the digits of a mantissa *)

Lemma pow2_pos e : (0 < pow2 e)%Q.
Proof. apply Qpower_0_lt. reflexivity. Qed.

Lemma pow2_add a b : (pow2 (a + b) == pow2 a * pow2 b)%Q.
Proof. apply Qpower_plus. discriminate. Qed.

Lemma pow2_0 : (pow2 0 == 1)%Q.
Proof. reflexivity. Qed.

Lemma pow2_1 : (pow2 1 == 2)%Q.
Proof. reflexivity. Qed.

Lemma pow2_succ a : (pow2 (a + 1) == 2 * pow2 a)%Q.
Proof. rewrite pow2_add, pow2_1. ring. Qed.

Lemma pow2_le a b : a <= b -> (pow2 a <= pow2 b)%Q.
Proof. intros H. apply Qpower_le_compat_l; [exact H | discriminate]. Qed.

Lemma pow2_lt a b : a < b -> (pow2 a < pow2 b)%Q.
Proof. intros H. apply Qpower_lt_compat_l; [exact H | reflexivity]. Qed.

Lemma pow2_lt_inv a b : (pow2 a < pow2 b)%Q -> a < b.
Proof. intros H. apply (Qpower_lt_compat_l_inv 2); [exact H | reflexivity]. Qed.

Lemma pow2_inject e : 0 <= e -> (pow2 e == inject_Z (2 ^ e))%Q.
Proof. intros H. unfold pow2. now rewrite Zpower_Qpower. Qed.

(** The digits of a mantissa. *)
Lemma digits2_pos_bounds (m : positive) :
  2 ^ (Z.pos (digits2_pos m) - 1) <= Z.pos m < 2 ^ Z.pos (digits2_pos m).
Proof.
  induction m as [m IH | m IH |]; cbn [digits2_pos].
  - rewrite Pos2Z.inj_succ. replace (Z.succ (Z.pos (digits2_pos m)) - 1)
      with (Z.succ (Z.pos (digits2_pos m) - 1)) by lia.
    rewrite !Z.pow_succ_r by lia. lia.
  - rewrite Pos2Z.inj_succ. replace (Z.succ (Z.pos (digits2_pos m)) - 1)
      with (Z.succ (Z.pos (digits2_pos m) - 1)) by lia.
    rewrite !Z.pow_succ_r by lia. lia.
  - cbn. lia.
Qed.

(** One shift to the right halves what the record stands for. *)
Lemma shr_1_represents mrs y :
  represents mrs (2 * y) -> represents (shr_1 mrs) y.
Proof.
  destruct mrs as [m r s]. unfold represents, located. cbn [shr_m shr_r shr_s].
  intros [Hm Hloc].
  destruct m as [|p|p]; [| | lia].
  - cbn [shr_1 shr_m shr_r shr_s]. change (inject_Z 0) with 0%Q in *. split; [lia |].
    destruct r, s; cbn [orb] in *; lra.
  - assert (Hp : forall q, (inject_Z (Z.pos q~0) == 2 * inject_Z (Z.pos q))%Q /\
                           (inject_Z (Z.pos q~1) == 2 * inject_Z (Z.pos q) + 1)%Q).
    { intros q. split.
      - change (Z.pos q~0) with (2 * Z.pos q). now rewrite inject_Z_mult.
      - change (Z.pos q~1) with (2 * Z.pos q + 1).
        now rewrite inject_Z_plus, inject_Z_mult. }
    destruct p as [q | q |]; cbn [shr_1 shr_m shr_r shr_s].
    + destruct (Hp q) as [_ E]. split; [lia |].
      destruct r, s; cbn [orb] in *; rewrite E in Hloc; lra.
    + destruct (Hp q) as [E _]. split; [lia |].
      destruct r, s; cbn [orb] in *; rewrite E in Hloc; lra.
    + change (inject_Z 1) with 1%Q in *. change (inject_Z 0) with 0%Q. split; [lia |].
      destruct r, s; cbn [orb] in *; lra.
Qed.

Lemma iter_shr_1_represents p : forall mrs y,
  represents mrs (inject_Z (2 ^ Z.pos p) * y) ->
  represents (SpecFloat.iter_pos shr_1 p mrs) y.
Proof.
  induction p as [p IH | p IH |]; intros mrs y H; cbn [SpecFloat.iter_pos].
  - apply IH, IH, shr_1_represents.
    assert (EZ : 2 ^ Z.pos p~1 = 2 * (2 ^ Z.pos p * 2 ^ Z.pos p)).
    { rewrite <- Z.pow_add_r, <- Z.pow_succ_r by lia. f_equal. lia. }
    assert (E : (inject_Z (2 ^ Z.pos p~1) * y
                 == 2 * (inject_Z (2 ^ Z.pos p) * (inject_Z (2 ^ Z.pos p) * y)))%Q).
    { rewrite EZ, !inject_Z_mult. change (inject_Z 2) with 2%Q. ring. }
    unfold represents, located in *. destruct (shr_r mrs), (shr_s mrs); rewrite <- E; exact H.
  - apply IH, IH.
    assert (EZ : 2 ^ Z.pos p~0 = 2 ^ Z.pos p * 2 ^ Z.pos p).
    { rewrite <- Z.pow_add_r by lia. f_equal. lia. }
    assert (E : (inject_Z (2 ^ Z.pos p~0) * y
                 == inject_Z (2 ^ Z.pos p) * (inject_Z (2 ^ Z.pos p) * y))%Q).
    { rewrite EZ, !inject_Z_mult. ring. }
    unfold represents, located in *. destruct (shr_r mrs), (shr_s mrs); rewrite <- E; exact H.
  - apply shr_1_represents. exact H.
Qed.

(** ** Shifting and rounding a mantissa *)

Lemma represents_bounds mrs y :
  represents mrs y -> (inject_Z (shr_m mrs) <= y < inject_Z (shr_m mrs) + 1)%Q.
Proof.
  unfold represents, located. intros [_ H].
  destruct (shr_r mrs), (shr_s mrs); lra.
Qed.

Lemma represents_of_loc m lx :
  shr_m (shr_record_of_loc m lx) = m.
Proof. destruct lx as [|[]]; reflexivity. Qed.

(** Rounding to nearest, ties to even, moves by at most one half. *)
Lemma round_nearest_even_near mrs y :
  represents mrs y ->
  let m' := round_nearest_even (shr_m mrs) (loc_of_shr_record mrs) in
  (m' = shr_m mrs \/ m' = shr_m mrs + 1) /\
  (inject_Z m' - (1 # 2) <= y <= inject_Z m' + (1 # 2))%Q /\
  (shr_r mrs = false -> shr_s mrs = false -> (inject_Z m' == y)%Q).
Proof.
  destruct mrs as [m r s]. unfold represents, located. cbn [shr_m shr_r shr_s].
  intros [Hm Hloc]. cbn zeta.
  assert (E : (inject_Z (m + 1) == inject_Z m + 1)%Q) by (rewrite inject_Z_plus; reflexivity).
  destruct r, s; cbn [loc_of_shr_record round_nearest_even].
  - split; [right; reflexivity |]. rewrite E. split; [lra | discriminate].
  - destruct (Z.even m).
    + split; [left; reflexivity |]. split; [lra | discriminate].
    + split; [right; reflexivity |]. rewrite E. split; [lra | discriminate].
  - split; [left; reflexivity |]. split; [lra | discriminate].
  - split; [left; reflexivity |]. split; [lra | intros _ _; lra].
Qed.

Lemma digits_of_mantissa (q : positive) :
  2 ^ 52 <= Z.pos q < 2 ^ 53 -> Z.pos (digits2_pos q) = 53.
Proof.
  intros Hq. pose proof (digits2_pos_bounds q) as Hb.
  set (dq := Z.pos (digits2_pos q)) in *.
  destruct (Z.lt_trichotomy dq 53) as [Hlt | [Heq | Hgt]]; [| exact Heq |].
  - assert (2 ^ dq <= 2 ^ 52) by (apply Z.pow_le_mono_r; lia). lia.
  - assert (2 ^ 53 <= 2 ^ (dq - 1)) by (apply Z.pow_le_mono_r; lia). lia.
Qed.

(** Rounding a mantissa of at least 53 digits, in the range of the normal
    numbers: the result is within the unit roundoff of the number that
    the mantissa, the exponent and the location stand for, and it is that
    number when nothing has to be rounded. *)
Lemma binary_round_aux_correct (p : positive) (ex : Z) (lx : location) (y : Q) :
  represents (shr_record_of_loc (Z.pos p) lx) y ->
  53 <= Z.pos (digits2_pos p) ->
  -1074 <= Z.pos (digits2_pos p) + ex - 53 ->
  Z.pos (digits2_pos p) + ex < 1024 ->
  exists m e,
    binary_round_aux prec emax false (Z.pos p) ex lx = S754_finite false m e /\
    ((1 - u64) * (y * pow2 ex) <= inject_Z (Z.pos m) * pow2 e /\
     inject_Z (Z.pos m) * pow2 e <= (1 + u64) * (y * pow2 ex))%Q /\
    (lx = loc_Exact -> Z.pos (digits2_pos p) = 53 ->
     (inject_Z (Z.pos m) * pow2 e == y * pow2 ex)%Q).
Proof.
  intros Hy Hd Hlo Hhi. set (d := Z.pos (digits2_pos p)) in *.
  pose proof (digits2_pos_bounds p) as Hp. fold d in Hp.
  pose proof (represents_bounds _ _ Hy) as Hb. rewrite represents_of_loc in Hb.
  remember (2 ^ (d - 53)) as K eqn:HKdef.
  assert (HK : 0 < K) by (subst K; apply Z.pow_pos_nonneg; lia).
  assert (HKQ : (0 < inject_Z K)%Q)
    by (change 0%Q with (inject_Z 0); rewrite <- Zlt_Qlt; exact HK).
  remember (y / inject_Z K)%Q as y1 eqn:Hy1def.
  assert (Hy1 : (inject_Z K * y1 == y)%Q).
  { subst y1. field. intros E. rewrite E in HKQ. lra. }
  clear Hy1def.
  (* the first shift *)
  assert (H1 : exists mrs1,
             shr (shr_record_of_loc (Z.pos p) lx) ex (d - 53) = (mrs1, d + ex - 53) /\
             represents mrs1 y1 /\
             (lx = loc_Exact -> d = 53 -> shr_r mrs1 = false /\ shr_s mrs1 = false)).
  { destruct (d - 53) as [|pn|pn] eqn:Hn; [| | lia].
    - exists (shr_record_of_loc (Z.pos p) lx). cbn [shr]. split; [f_equal; lia |]. split.
      + unfold represents, located in *. change (2 ^ 0) with 1 in HKdef. subst K.
        assert (E : (y1 == y)%Q) by (rewrite <- Hy1; change (inject_Z 1) with 1%Q; ring).
        destruct (shr_r _), (shr_s _); rewrite E; exact Hy.
      + intros -> _. split; reflexivity.
    - exists (SpecFloat.iter_pos shr_1 pn (shr_record_of_loc (Z.pos p) lx)). cbn [shr].
      split; [f_equal; lia |]. split; [| lia].
      apply iter_shr_1_represents. subst K.
      unfold represents, located in *.
      destruct (shr_r _), (shr_s _); rewrite Hy1; exact Hy. }
  destruct H1 as (mrs1 & E1 & R1 & X1).
  (* the mantissa after the shift has 53 digits *)
  assert (Hy1b : (inject_Z (2 ^ 52) <= y1 /\ y1 < inject_Z (2 ^ 53))%Q).
  { assert (Ea : 2 ^ (d - 1) = K * 2 ^ 52).
    { rewrite HKdef, <- Z.pow_add_r by lia. f_equal. lia. }
    assert (Eb : 2 ^ d = K * 2 ^ 53).
    { rewrite HKdef, <- Z.pow_add_r by lia. f_equal. lia. }
    assert (La : (inject_Z (K * 2 ^ 52) <= inject_Z K * y1)%Q).
    { rewrite Hy1, <- Ea. apply Qle_trans with (inject_Z (Z.pos p)); [| lra].
      rewrite <- Zle_Qle. lia. }
    assert (Lb : (inject_Z K * y1 < inject_Z (K * 2 ^ 53))%Q).
    { rewrite Hy1, <- Eb. apply Qlt_le_trans with (inject_Z (Z.pos p) + 1)%Q; [lra |].
      change 1%Q with (inject_Z 1). rewrite <- inject_Z_plus, <- Zle_Qle. lia. }
    rewrite inject_Z_mult in La, Lb.
    split.
    - apply (Qmult_le_l _ _ (inject_Z K)); assumption.
    - apply (Qmult_lt_l _ _ (inject_Z K)); assumption. }
  pose proof (represents_bounds _ _ R1) as Hb1.
  set (m1 := shr_m mrs1) in *.
  assert (Hm1 : 2 ^ 52 <= m1 < 2 ^ 53).
  { split.
    - assert (L : (inject_Z (2 ^ 52) < inject_Z (m1 + 1))%Q).
      { rewrite inject_Z_plus. change (inject_Z 1) with 1%Q. lra. }
      rewrite <- Zlt_Qlt in L. lia.
    - assert (L : (inject_Z m1 < inject_Z (2 ^ 53))%Q) by lra.
      rewrite <- Zlt_Qlt in L. exact L. }
  destruct (round_nearest_even_near mrs1 y1 R1) as (Hm2 & Hnear & Hexact).
  fold m1 in Hm2, Hnear, Hexact.
  set (m2 := round_nearest_even m1 (loc_of_shr_record mrs1)) in *.
  assert (Hval : (y * pow2 ex == y1 * pow2 (d + ex - 53))%Q).
  { replace (d + ex - 53) with ((d - 53) + ex) by lia.
    rewrite pow2_add, (pow2_inject (d - 53)), <- HKdef by lia. rewrite <- Hy1. ring. }
  assert (Hrel : ((1 - u64) * y1 <= inject_Z m2 /\ inject_Z m2 <= (1 + u64) * y1)%Q).
  { destruct Hy1b as [Hl _]. change (inject_Z (2 ^ 52)) with (4503599627370496 # 1) in Hl.
    unfold u64. lra. }
  assert (HE : (0 < pow2 (d + ex - 53))%Q) by apply pow2_pos.
  assert (Hfinal : ((1 - u64) * (y * pow2 ex) <= inject_Z m2 * pow2 (d + ex - 53) /\
                    inject_Z m2 * pow2 (d + ex - 53) <= (1 + u64) * (y * pow2 ex))%Q).
  { rewrite Hval. destruct Hrel as [Hl Hu]. split.
    - rewrite Qmult_assoc. apply Qmult_le_compat_r; [exact Hl | lra].
    - rewrite Qmult_assoc. apply Qmult_le_compat_r; [exact Hu | lra]. }
  assert (Hfexact : lx = loc_Exact -> d = 53 ->
                    (inject_Z m2 * pow2 (d + ex - 53) == y * pow2 ex)%Q).
  { intros Hlx Hd53. destruct (X1 Hlx Hd53) as [Hr Hs].
    rewrite Hval, (Hexact Hr Hs). reflexivity. }
  (* the second shift *)
  unfold binary_round_aux, shr_fexp. cbn [Zdigits2]. fold d.
  replace (fexp prec emax (d + ex) - ex) with (d - 53)
    by (unfold fexp, emin, prec, emax; lia).
  rewrite E1. fold m1. fold m2.
  destruct (Z.eq_dec m2 (2 ^ 53)) as [Hcarry | Hnocarry].
  - rewrite Hcarry in *. exists (4503599627370496%positive), (d + ex - 53 + 1).
    change (2 ^ 53) with 9007199254740992.
    change (Zdigits2 9007199254740992) with 54.
    replace (fexp prec emax (54 + (d + ex - 53)) - (d + ex - 53)) with 1
      by (unfold fexp, emin, prec, emax; lia).
    cbn [shr_record_of_loc shr SpecFloat.iter_pos shr_1 shr_m].
    replace (d + ex - 53 + 1 <=? emax - prec) with true
      by (symmetry; apply Z.leb_le; unfold emax, prec; lia).
    assert (Ex : (inject_Z 4503599627370496 * pow2 (d + ex - 53 + 1)
                  == inject_Z (2 ^ 53) * pow2 (d + ex - 53))%Q).
    { rewrite pow2_succ. change (inject_Z (2 ^ 53)) with (2 * inject_Z 4503599627370496)%Q.
      ring. }
    split; [reflexivity |]. rewrite Ex. split; [exact Hfinal | exact Hfexact].
  - assert (Hm2b : 2 ^ 52 <= m2 < 2 ^ 53) by lia.
    destruct m2 as [|q|q] eqn:Em2; [lia | | lia].
    exists q, (d + ex - 53).
    cbn [Zdigits2]. rewrite (digits_of_mantissa q Hm2b).
    replace (fexp prec emax (53 + (d + ex - 53)) - (d + ex - 53)) with 0
      by (unfold fexp, emin, prec, emax; lia).
    cbn [shr_record_of_loc shr shr_m].
    replace (d + ex - 53 <=? emax - prec) with true
      by (symmetry; apply Z.leb_le; unfold emax, prec; lia).
    split; [reflexivity |]. split; [exact Hfinal | exact Hfexact].
Qed.

Lemma pow2_le_inv a b : (pow2 a <= pow2 b)%Q -> a <= b.
Proof.
  intros H. destruct (Z.le_gt_cases a b) as [Hle | Hgt]; [exact Hle |].
  apply pow2_lt in Hgt. lra.
Qed.

Lemma digits_between (q : positive) a b :
  0 <= a -> 2 ^ a <= Z.pos q < 2 ^ b -> a < Z.pos (digits2_pos q) <= b.
Proof.
  intros Ha Hq. pose proof (digits2_pos_bounds q) as Hb.
  set (dq := Z.pos (digits2_pos q)) in *.
  split.
  - destruct (Z.lt_ge_cases a dq) as [H | H]; [exact H |].
    assert (2 ^ dq <= 2 ^ a) by (apply Z.pow_le_mono_r; lia). lia.
  - destruct (Z.le_gt_cases dq b) as [H | H]; [exact H |].
    assert (0 <= b).
    { destruct (Z.le_gt_cases 0 b) as [Hb0 | Hb0]; [exact Hb0 |].
      rewrite (Z.pow_neg_r 2 b) in Hq by lia. lia. }
    assert (2 ^ b <= 2 ^ (dq - 1)) by (apply Z.pow_le_mono_r; lia). lia.
Qed.

Lemma mantissa_value (m : positive) e :
  (pow2 (Z.pos (digits2_pos m) - 1 + e) <= inject_Z (Z.pos m) * pow2 e /\
   inject_Z (Z.pos m) * pow2 e < pow2 (Z.pos (digits2_pos m) + e))%Q.
Proof.
  pose proof (digits2_pos_bounds m) as [Hl Hu].
  pose proof (pow2_pos e) as He.
  set (d := Z.pos (digits2_pos m)) in *.
  rewrite (pow2_add (d - 1) e), (pow2_add d e).
  rewrite (pow2_inject (d - 1)), (pow2_inject d) by lia. split.
  - apply Qmult_le_compat_r; [| lra]. rewrite <- Zle_Qle. exact Hl.
  - apply Qmult_lt_compat_r; [lra |]. rewrite <- Zlt_Qlt. exact Hu.
Qed.

(** A valid float that is not tiny is normal: its mantissa has 53 digits. *)
Lemma normal_mantissa s (m : positive) e q :
  valid_binary (S754_finite s m e) = true ->
  (q == inject_Z (Z.pos m) * pow2 e)%Q ->
  (pow2 (-500) <= q /\ q <= pow2 500)%Q ->
  Z.pos (digits2_pos m) = 53 /\ -552 <= e <= 448 /\ 2 ^ 52 <= Z.pos m < 2 ^ 53.
Proof.
  intros Hv Hq [Hlo Hhi].
  unfold valid_binary, SpecFloat.valid_binary, bounded, canonical_mantissa, fexp, emin,
    prec, emax in Hv.
  apply andb_true_iff in Hv as [Hc He]. apply Z.eqb_eq in Hc. apply Z.leb_le in He.
  pose proof (mantissa_value m e) as [Vl Vu].
  pose proof (digits2_pos_bounds m) as Hb.
  set (d := Z.pos (digits2_pos m)) in *.
  assert (L1 : -500 < d + e) by (apply pow2_lt_inv; lra).
  assert (L2 : d - 1 + e <= 500) by (apply pow2_le_inv; lra).
  assert (Hd : d = 53) by lia.
  rewrite Hd in *. split; [reflexivity |]. split; [lia |]. exact Hb.
Qed.

(** ** The operations on non-negative numbers *)

Lemma holds_proper x q q' : (q == q')%Q -> holds x q -> holds x q'.
Proof.
  intros E. destruct x as [[] | [] | | [] m e]; cbn [holds]; try tauto.
  - intros H. rewrite <- E. exact H.
  - intros H. rewrite <- E. exact H.
Qed.

Lemma holds_nonneg x q : holds x q -> (0 <= q)%Q.
Proof.
  destruct x as [[] | [] | | [] m e]; cbn [holds]; try tauto.
  - intros H. rewrite H. lra.
  - intros H. rewrite H. pose proof (pow2_pos e).
    apply Qmult_le_0_compat; [| lra].
    change 0%Q with (inject_Z 0). rewrite <- Zle_Qle. lia.
Qed.

Lemma finite_pos (m : positive) e : (0 < inject_Z (Z.pos m) * pow2 e)%Q.
Proof.
  apply Qmult_lt_0_compat; [| apply pow2_pos].
  change 0%Q with (inject_Z 0). rewrite <- Zlt_Qlt. lia.
Qed.

Lemma iter_xO (m d : positive) : Z.pos (Pos.iter xO m d) = Z.pos m * 2 ^ Z.pos d.
Proof.
  induction d as [| d IH] using Pos.peano_ind.
  - cbn [Pos.iter]. rewrite Z.pow_1_r. lia.
  - rewrite Pos.iter_succ, Pos2Z.inj_xO, IH, Pos2Z.inj_succ, Z.pow_succ_r by lia. lia.
Qed.

(** Aligning a mantissa to a smaller exponent keeps the number. *)
Lemma shl_align_down (m : positive) e e' :
  e' <= e ->
  exists m', shl_align m e e' = (m', e') /\ Z.pos m' = Z.pos m * 2 ^ (e - e').
Proof.
  intros H. unfold shl_align. destruct (e' - e) as [|d|d] eqn:Hd; [| lia |].
  - exists m. replace e' with e by lia. rewrite Z.sub_diag, Z.pow_0_r. split; [reflexivity | lia].
  - exists (Pos.iter xO m d). split; [reflexivity |].
    rewrite iter_xO. f_equal. f_equal. lia.
Qed.

Lemma shl_align_up (m : positive) e e' : e <= e' -> shl_align m e e' = (m, e).
Proof.
  intros H. unfold shl_align. destruct (e' - e) as [|d|d] eqn:Hd; [reflexivity | reflexivity | lia].
Qed.

Lemma digits_at_least (q : positive) a : 0 <= a -> 2 ^ a <= Z.pos q -> a < Z.pos (digits2_pos q).
Proof.
  intros Ha Hq. pose proof (digits2_pos_bounds q) as Hb.
  set (dq := Z.pos (digits2_pos q)) in *.
  destruct (Z.lt_ge_cases a dq) as [H | H]; [exact H |].
  assert (2 ^ dq <= 2 ^ a) by (apply Z.pow_le_mono_r; lia). lia.
Qed.

Lemma represents_exact (p : positive) :
  represents (shr_record_of_loc (Z.pos p) loc_Exact) (inject_Z (Z.pos p)).
Proof. split; [cbn; lia | cbn; reflexivity]. Qed.

(** *** Multiplication *)

Lemma SFmul_near m1 e1 m2 e2 q1 q2 :
  valid_binary (S754_finite false m1 e1) = true ->
  valid_binary (S754_finite false m2 e2) = true ->
  (q1 == inject_Z (Z.pos m1) * pow2 e1)%Q ->
  (q2 == inject_Z (Z.pos m2) * pow2 e2)%Q ->
  (pow2 (-500) <= q1 /\ q1 <= pow2 500)%Q ->
  (pow2 (-500) <= q2 /\ q2 <= pow2 500)%Q ->
  exists m e,
    SFmul prec emax (S754_finite false m1 e1) (S754_finite false m2 e2)
    = S754_finite false m e /\
    ((1 - u64) * (q1 * q2) <= inject_Z (Z.pos m) * pow2 e /\
     inject_Z (Z.pos m) * pow2 e <= (1 + u64) * (q1 * q2))%Q.
Proof.
  intros V1 V2 Q1 Q2 R1 R2.
  destruct (normal_mantissa _ _ _ _ V1 Q1 R1) as (D1 & E1 & M1).
  destruct (normal_mantissa _ _ _ _ V2 Q2 R2) as (D2 & E2 & M2).
  cbn [SFmul xorb].
  assert (HP : 2 ^ 104 <= Z.pos (m1 * m2) < 2 ^ 106).
  { rewrite Pos2Z.inj_mul. change (2 ^ 104) with (2 ^ 52 * 2 ^ 52).
    change (2 ^ 106) with (2 ^ 53 * 2 ^ 53). nia. }
  destruct (digits_between (m1 * m2) 104 106 ltac:(lia) HP) as [Dl Du].
  destruct (binary_round_aux_correct (m1 * m2) (e1 + e2) loc_Exact
              (inject_Z (Z.pos (m1 * m2)))) as (m & e & Hr & Hb & _).
  - apply represents_exact.
  - lia.
  - lia.
  - lia.
  - exists m, e. split; [exact Hr |].
    assert (E : (q1 * q2 == inject_Z (Z.pos (m1 * m2)) * pow2 (e1 + e2))%Q).
    { rewrite Q1, Q2, Pos2Z.inj_mul, inject_Z_mult, pow2_add. ring. }
    rewrite E. exact Hb.
Qed.

(** *** Addition *)

Lemma SFadd_near m1 e1 m2 e2 q1 q2 :
  valid_binary (S754_finite false m1 e1) = true ->
  valid_binary (S754_finite false m2 e2) = true ->
  (q1 == inject_Z (Z.pos m1) * pow2 e1)%Q ->
  (q2 == inject_Z (Z.pos m2) * pow2 e2)%Q ->
  (pow2 (-500) <= q1 /\ q1 <= pow2 500)%Q ->
  (pow2 (-500) <= q2 /\ q2 <= pow2 500)%Q ->
  exists m e,
    SFadd prec emax (S754_finite false m1 e1) (S754_finite false m2 e2)
    = S754_finite false m e /\
    ((1 - u64) * (q1 + q2) <= inject_Z (Z.pos m) * pow2 e /\
     inject_Z (Z.pos m) * pow2 e <= (1 + u64) * (q1 + q2))%Q.
Proof.
  intros V1 V2 Q1 Q2 R1 R2.
  destruct (normal_mantissa _ _ _ _ V1 Q1 R1) as (D1 & E1 & M1).
  destruct (normal_mantissa _ _ _ _ V2 Q2 R2) as (D2 & E2 & M2).
  cbn [SFadd cond_Zopp]. set (ez := Z.min e1 e2).
  destruct (shl_align_down m1 e1 ez ltac:(lia)) as (p1 & A1 & P1).
  destruct (shl_align_down m2 e2 ez ltac:(lia)) as (p2 & A2 & P2).
  rewrite A1, A2. cbn [fst].
  change (Z.pos p1 + Z.pos p2) with (Z.pos (p1 + p2)).
  cbn [binary_normalize]. unfold binary_round.
  assert (K1 : 0 < 2 ^ (e1 - ez)) by (apply Z.pow_pos_nonneg; lia).
  assert (K2 : 0 < 2 ^ (e2 - ez)) by (apply Z.pow_pos_nonneg; lia).
  assert (HS : 2 ^ 52 <= Z.pos (p1 + p2)) by (rewrite Pos2Z.inj_add; nia).
  pose proof (digits_at_least (p1 + p2) 52 ltac:(lia) HS) as Dl.
  assert (E : (q1 + q2 == inject_Z (Z.pos (p1 + p2)) * pow2 ez)%Q).
  { rewrite Pos2Z.inj_add, inject_Z_plus, P1, P2, !inject_Z_mult.
    rewrite <- (pow2_inject (e1 - ez)), <- (pow2_inject (e2 - ez)) by lia.
    rewrite Q1, Q2.
    replace e1 with ((e1 - ez) + ez) at 1 by lia.
    replace e2 with ((e2 - ez) + ez) at 1 by lia.
    rewrite !pow2_add. ring. }
  pose proof (mantissa_value (p1 + p2) ez) as [Vl Vu].
  set (d := Z.pos (digits2_pos (p1 + p2))) in *.
  assert (Hsum : (q1 + q2 <= pow2 501)%Q).
  { rewrite (pow2_succ 500). lra. }
  assert (Du : d - 1 + ez <= 501) by (apply pow2_le_inv; lra).
  rewrite shl_align_up by (unfold fexp, emin, prec, emax; lia).
  destruct (binary_round_aux_correct (p1 + p2) ez loc_Exact
              (inject_Z (Z.pos (p1 + p2)))) as (m & e & Hr & Hb & _).
  - apply represents_exact.
  - fold d. lia.
  - fold d. lia.
  - fold d. lia.
  - exists m, e. split; [exact Hr |]. rewrite E. exact Hb.
Qed.

(** *** Division *)

Lemma new_location_represents (q r : Z) (n : positive) (y : Q) :
  0 <= q -> 0 <= r < Z.pos n ->
  (y * inject_Z (Z.pos n) == inject_Z (Z.pos n * q + r))%Q ->
  represents (shr_record_of_loc q (new_location (Z.pos n) r)) y.
Proof.
  intros Hq Hr Hy.
  assert (HN : (0 < inject_Z (Z.pos n))%Q).
  { change 0%Q with (inject_Z 0). rewrite <- Zlt_Qlt. lia. }
  rewrite inject_Z_plus, inject_Z_mult in Hy.
  assert (Hr0 : (0 <= inject_Z r)%Q).
  { change 0%Q with (inject_Z 0). rewrite <- Zle_Qle. lia. }
  assert (Low : forall c : Q,
             (c * inject_Z (Z.pos n) < inject_Z r -> inject_Z q + c < y)%Q).
  { intros c Hc. apply (Qmult_lt_r _ _ _ HN). lra. }
  assert (High : forall c : Q,
             (inject_Z r < c * inject_Z (Z.pos n) -> y < inject_Z q + c)%Q).
  { intros c Hc. apply (Qmult_lt_r _ _ _ HN). lra. }
  assert (Mid : forall c : Q,
             (inject_Z r == c * inject_Z (Z.pos n) -> y == inject_Z q + c)%Q).
  { intros c Hc. apply (Qmult_inj_r _ _ (inject_Z (Z.pos n))); [lra |]. lra. }
  assert (Two : forall k : Z, (inject_Z (2 * k) == 2 * inject_Z k)%Q).
  { intros k. rewrite inject_Z_mult. reflexivity. }
  unfold represents. rewrite represents_of_loc. split; [exact Hq |].
  unfold new_location.
  destruct (Z.eq_dec r 0) as [Hz | Hnz].
  - assert (Ez : (y == inject_Z q)%Q).
    { rewrite (Mid 0%Q); [ring |]. rewrite Hz. reflexivity. }
    destruct (Z.even (Z.pos n)); unfold new_location_even, new_location_odd;
      rewrite (proj2 (Z.eqb_eq r 0) Hz);
      cbn [shr_record_of_loc shr_r shr_s located]; exact Ez.
  - assert (Rpos : (0 < inject_Z r)%Q).
    { change 0%Q with (inject_Z 0). rewrite <- Zlt_Qlt. lia. }
    assert (Rlt : (inject_Z r < inject_Z (Z.pos n))%Q) by (rewrite <- Zlt_Qlt; lia).
    pose proof (Low 0%Q ltac:(lra)) as L0.
    pose proof (High 1%Q ltac:(lra)) as H1.
    assert (Below : 2 * r < Z.pos n ->
                    (inject_Z q < y /\ y < inject_Z q + (1 # 2))%Q).
    { intros Hc. rewrite Zlt_Qlt, Two in Hc.
      pose proof (High (1 # 2)%Q ltac:(lra)). lra. }
    assert (Above : Z.pos n < 2 * r ->
                    (inject_Z q + (1 # 2) < y /\ y < inject_Z q + 1)%Q).
    { intros Hc. rewrite Zlt_Qlt, Two in Hc.
      pose proof (Low (1 # 2)%Q ltac:(lra)). lra. }
    destruct (Z.even (Z.pos n)) eqn:Hev; unfold new_location_even, new_location_odd;
      rewrite (proj2 (Z.eqb_neq r 0) Hnz).
    + destruct (Z.compare_spec (2 * r) (Z.pos n)) as [Hc | Hc | Hc];
        cbn [shr_record_of_loc shr_r shr_s located].
      * apply Mid. rewrite <- Hc, Two. lra.
      * now apply Below.
      * now apply Above.
    + assert (Hodd : Z.Odd (Z.pos n)).
      { apply Z.odd_spec. rewrite <- Z.negb_even, Hev. reflexivity. }
      destruct Hodd as [k Hk].
      destruct (Z.compare_spec (2 * r + 1) (Z.pos n)) as [Hc | Hc | Hc];
        cbn [shr_record_of_loc shr_r shr_s located].
      * apply Below. lia.
      * apply Below. lia.
      * apply Above. lia.
Qed.

Lemma SFdiv_near m1 e1 m2 e2 q1 q2 :
  valid_binary (S754_finite false m1 e1) = true ->
  valid_binary (S754_finite false m2 e2) = true ->
  (q1 == inject_Z (Z.pos m1) * pow2 e1)%Q ->
  (q2 == inject_Z (Z.pos m2) * pow2 e2)%Q ->
  (pow2 (-500) <= q1 /\ q1 <= pow2 500)%Q ->
  (pow2 (-500) <= q2 /\ q2 <= pow2 500)%Q ->
  exists m e,
    SFdiv prec emax (S754_finite false m1 e1) (S754_finite false m2 e2)
    = S754_finite false m e /\
    ((1 - u64) * (q1 / q2) <= inject_Z (Z.pos m) * pow2 e /\
     inject_Z (Z.pos m) * pow2 e <= (1 + u64) * (q1 / q2))%Q.
Proof.
  intros V1 V2 Q1 Q2 R1 R2.
  destruct (normal_mantissa _ _ _ _ V1 Q1 R1) as (D1 & E1 & M1).
  destruct (normal_mantissa _ _ _ _ V2 Q2 R2) as (D2 & E2 & M2).
  cbn [SFdiv xorb]. unfold SFdiv_core_binary. cbn [Zdigits2]. rewrite D1, D2.
  cbn zeta.
  replace (Z.min (fexp prec emax (53 + e1 - (53 + e2))) (e1 - e2)) with (e1 - e2 - 53)
    by (unfold fexp, emin, prec, emax; lia).
  replace (e1 - e2 - (e1 - e2 - 53)) with 53 by lia.
  rewrite Z.shiftl_mul_pow2 by lia.
  pose proof (Z_div_mod (Z.pos m1 * 2 ^ 53) (Z.pos m2) ltac:(lia)) as Hdm.
  destruct (Z.div_eucl (Z.pos m1 * 2 ^ 53) (Z.pos m2)) as [q r].
  destruct Hdm as [Hdm Hr].
  assert (Hq : 2 ^ 52 <= q < 2 ^ 54).
  { change (2 ^ 54) with (2 * 2 ^ 53). change (2 ^ 53) with (2 * 2 ^ 52) in *. nia. }
  destruct q as [|pq|pq]; [lia | | lia].
  destruct (digits_between pq 52 54 ltac:(lia) Hq) as [Dl Du].
  set (y := (inject_Z (Z.pos m1 * 2 ^ 53) / inject_Z (Z.pos m2))%Q).
  assert (HN : (0 < inject_Z (Z.pos m2))%Q).
  { change 0%Q with (inject_Z 0). rewrite <- Zlt_Qlt. lia. }
  destruct (binary_round_aux_correct pq (e1 - e2 - 53)
              (new_location (Z.pos m2) r) y) as (m & e & Hres & Hb & _).
  - apply new_location_represents; [lia | exact Hr |].
    rewrite <- Hdm. unfold y. field. lra.
  - lia.
  - lia.
  - lia.
  - exists m, e. split; [exact Hres |].
    assert (E : (q1 / q2 == y * pow2 (e1 - e2 - 53))%Q).
    { unfold y. rewrite Q1, Q2, inject_Z_mult, <- (pow2_inject 53) by lia.
      replace e1 with ((e1 - e2 - 53) + 53 + e2) at 1 by lia.
      rewrite !pow2_add. pose proof (pow2_pos e2). field. split; lra. }
    rewrite E. exact Hb.
Qed.

End RoundingProperties.

(** * The primitive floats

    The same of the numbers of the program, through the specification of
    the primitive operations. *)

Module Binary64Properties.
Import Rounding FloatValues RoundingProperties.

Lemma float_is_proper x q q' : (q == q')%Q -> float_is x q -> float_is x q'.
Proof. apply holds_proper. Qed.

Lemma float_is_nonneg x q : float_is x q -> (0 <= q)%Q.
Proof. apply holds_nonneg. Qed.

(** An integer below [2^53] is a binary64 number. *)
Lemma float_of_Z_exact z : 0 <= z < 2 ^ 53 -> float_is (float_of_Z z) (inject_Z z).
Proof.
  intros Hz. unfold float_is, float_of_Z.
  replace (z <? 0) with false by (symmetry; apply Z.ltb_ge; lia).
  rewrite of_uint63_spec, Uint63.of_Z_spec, Z.mod_small
    by (change Uint63Axioms.wB with (2 ^ 63); change (2 ^ 53) with 9007199254740992 in Hz;
        change (2 ^ 63) with 9223372036854775808; lia).
  destruct z as [|p|p]; [reflexivity | | lia].
  cbn [binary_normalize]. unfold binary_round.
  pose proof (digits2_pos_bounds p) as Hb.
  assert (Hd : Z.pos (digits2_pos p) <= 53).
  { destruct (Z.le_gt_cases (Z.pos (digits2_pos p)) 53) as [H | H]; [exact H |].
    assert (2 ^ 53 <= 2 ^ (Z.pos (digits2_pos p) - 1)) by (apply Z.pow_le_mono_r; lia).
    lia. }
  set (d := Z.pos (digits2_pos p)) in *.
  replace (fexp prec emax (d + 0)) with (d - 53) by (unfold fexp, emin, prec, emax; lia).
  destruct (shl_align_down p 0 (d - 53) ltac:(lia)) as (p' & A & P).
  rewrite A.
  assert (Hp' : 2 ^ 52 <= Z.pos p' < 2 ^ 53).
  { rewrite P. replace (0 - (d - 53)) with (53 - d) by lia.
    assert (E52 : 2 ^ 52 = 2 ^ (d - 1) * 2 ^ (53 - d)).
    { rewrite <- Z.pow_add_r by lia. f_equal. lia. }
    assert (E53 : 2 ^ 53 = 2 ^ d * 2 ^ (53 - d)).
    { rewrite <- Z.pow_add_r by lia. f_equal. lia. }
    assert (0 < 2 ^ (53 - d)) by (apply Z.pow_pos_nonneg; lia).
    rewrite E52, E53. nia. }
  pose proof (digits_of_mantissa p' Hp') as D'.
  destruct (binary_round_aux_correct p' (d - 53) loc_Exact (inject_Z (Z.pos p')))
    as (m & e & Hr & _ & Hx).
  - apply represents_exact.
  - lia.
  - lia.
  - lia.
  - rewrite Hr. cbn [holds]. rewrite (Hx eq_refl D'), P, inject_Z_mult.
    rewrite <- (pow2_inject (0 - (d - 53))) by lia.
    rewrite <- Qmult_assoc, <- pow2_add.
    replace (0 - (d - 53) + (d - 53)) with 0 by lia. rewrite pow2_0. ring.
Qed.

Lemma moderate_finite (m : positive) e q :
  (q == inject_Z (Z.pos m) * pow2 e)%Q -> moderate q ->
  (pow2 (-500) <= q /\ q <= pow2 500)%Q.
Proof.
  intros Hq [Hz | Hr]; [| exact Hr].
  pose proof (finite_pos m e). lra.
Qed.

(** The three operations: the result is a non-negative binary64 number
    within the unit roundoff of the exact result. *)
Lemma mul_near x y qx qy :
  float_is x qx -> float_is y qy -> moderate qx -> moderate qy ->
  exists q, float_is (PrimFloat.mul x y) q /\
            ((1 - u64) * (qx * qy) <= q /\ q <= (1 + u64) * (qx * qy))%Q.
Proof.
  unfold float_is. rewrite mul_spec. unfold SF64mul.
  pose proof (Prim2SF_valid x) as Vx. pose proof (Prim2SF_valid y) as Vy.
  destruct (Prim2SF x) as [[] | [] | | [] m1 e1]; cbn [holds]; try tauto;
    destruct (Prim2SF y) as [[] | [] | | [] m2 e2]; cbn [holds]; try tauto;
    intros Hx Hy Mx My.
  - exists 0%Q. cbn. rewrite Hx. split; [reflexivity | lra].
  - exists 0%Q. cbn. rewrite Hx. split; [reflexivity | lra].
  - exists 0%Q. cbn. rewrite Hy. split; [reflexivity | lra].
  - destruct (SFmul_near m1 e1 m2 e2 qx qy Vx Vy Hx Hy
                (moderate_finite _ _ _ Hx Mx) (moderate_finite _ _ _ Hy My))
      as (m & e & Hr & Hb).
    rewrite Hr. exists (inject_Z (Z.pos m) * pow2 e)%Q. split; [reflexivity | exact Hb].
Qed.

Lemma add_near x y qx qy :
  float_is x qx -> float_is y qy -> moderate qx -> moderate qy ->
  exists q, float_is (PrimFloat.add x y) q /\
            ((1 - u64) * (qx + qy) <= q /\ q <= (1 + u64) * (qx + qy))%Q.
Proof.
  unfold float_is. rewrite add_spec. unfold SF64add.
  pose proof (Prim2SF_valid x) as Vx. pose proof (Prim2SF_valid y) as Vy.
  destruct (Prim2SF x) as [[] | [] | | [] m1 e1]; cbn [holds]; try tauto;
    destruct (Prim2SF y) as [[] | [] | | [] m2 e2]; cbn [holds]; try tauto;
    intros Hx Hy Mx My.
  - exists 0%Q. cbn. rewrite Hx, Hy. split; [reflexivity | lra].
  - exists qy. cbn [SFadd holds]. split; [exact Hy |].
    pose proof (finite_pos m2 e2). rewrite Hx. unfold u64. lra.
  - exists qx. cbn [SFadd holds]. split; [exact Hx |].
    pose proof (finite_pos m1 e1). rewrite Hy. unfold u64. lra.
  - destruct (SFadd_near m1 e1 m2 e2 qx qy Vx Vy Hx Hy
                (moderate_finite _ _ _ Hx Mx) (moderate_finite _ _ _ Hy My))
      as (m & e & Hr & Hb).
    rewrite Hr. exists (inject_Z (Z.pos m) * pow2 e)%Q. split; [reflexivity | exact Hb].
Qed.

Lemma div_near x y qx qy :
  float_is x qx -> float_is y qy -> moderate qx -> moderate qy -> (0 < qy)%Q ->
  exists q, float_is (PrimFloat.div x y) q /\
            ((1 - u64) * (qx / qy) <= q /\ q <= (1 + u64) * (qx / qy))%Q.
Proof.
  unfold float_is. rewrite div_spec. unfold SF64div.
  pose proof (Prim2SF_valid x) as Vx. pose proof (Prim2SF_valid y) as Vy.
  destruct (Prim2SF x) as [[] | [] | | [] m1 e1]; cbn [holds]; try tauto;
    destruct (Prim2SF y) as [[] | [] | | [] m2 e2]; cbn [holds]; try tauto;
    intros Hx Hy Mx My Hpos.
  - lra.
  - exists 0%Q. cbn [SFdiv xorb holds]. split; [reflexivity |].
    assert (E : (qx / qy == 0)%Q) by (rewrite Hx; unfold Qdiv; ring).
    rewrite E. lra.
  - lra.
  - destruct (SFdiv_near m1 e1 m2 e2 qx qy Vx Vy Hx Hy
                (moderate_finite _ _ _ Hx Mx) (moderate_finite _ _ _ Hy My))
      as (m & e & Hr & Hb).
    rewrite Hr. exists (inject_Z (Z.pos m) * pow2 e)%Q. split; [reflexivity | exact Hb].
Qed.

End Binary64Properties.

(** * The average response time in binary64

    An update of the average rounds three times.  With [u] the unit
    roundoff, [n] times the average of [n] response times stays between
    [(1 - 3 n u) T] and [(1 + 4 n u) T], where [T] is their sum. *)

Module AverageProperties.
Import Rounding FloatValues RoundingProperties Binary64Properties.
Import BaseConnector ConnectorScenarios ConnectorProperties Outline.

Lemma pow2_minus_60 : (pow2 (-60) == 1 # 1152921504606846976)%Q.
Proof. vm_compute. reflexivity. Qed.

Lemma pow2_120 : (pow2 120 == 1329227995784915872903807060280344576)%Q.
Proof. vm_compute. reflexivity. Qed.

Lemma moderate_cases q :
  (q == 0 \/ ((1 # 1152921504606846976) <= q /\ q <= 1329227995784915872903807060280344576))%Q ->
  moderate q.
Proof.
  intros [Hz | [Hl Hu]]; [left; exact Hz | right].
  pose proof (pow2_le (-500) (-60) ltac:(lia)). pose proof (pow2_le 120 500 ltac:(lia)).
  pose proof pow2_minus_60. pose proof pow2_120. lra.
Qed.

(** A rounded number is zero when the exact one is, and stays within a
    factor two of its bounds otherwise. *)
Lemma rounded_cases (x q lo hi : Q) :
  ((1 - u64) * x <= q /\ q <= (1 + u64) * x)%Q ->
  (x == 0 \/ (lo <= x /\ x <= hi))%Q -> (0 <= lo)%Q ->
  (q == 0 \/ (lo * (1 # 2) <= q /\ q <= 2 * hi))%Q.
Proof.
  unfold u64. intros [Hl Hu] [Hz | [Hlo Hhi]] H0; [left | right].
  - rewrite Hz in Hl, Hu. lra.
  - lra.
Qed.

(** The arithmetic of one update: three roundings, each within the unit
    roundoff, add at most [4 u] to the relative error of [n] times the
    average. *)
Lemma fold_bounds (X T l qa p s a' : Q) :
  (0 <= X /\ X <= 562949953421312)%Q -> (0 <= T)%Q -> (0 <= l)%Q ->
  ((1 - 3 * X * u64) * T <= X * qa /\ X * qa <= (1 + 4 * X * u64) * T)%Q ->
  ((1 - u64) * (qa * X) <= p /\ p <= (1 + u64) * (qa * X))%Q ->
  ((1 - u64) * (p + l) <= s /\ s <= (1 + u64) * (p + l))%Q ->
  ((1 - u64) * (s / (X + 1)) <= a' /\ a' <= (1 + u64) * (s / (X + 1)))%Q ->
  ((1 - 3 * (X + 1) * u64) * (T + l) <= (X + 1) * a' /\
   (X + 1) * a' <= (1 + 4 * (X + 1) * u64) * (T + l))%Q.
Proof.
  intros [HX0 HX1] HT Hl [Il Iu] [Pl Pu] [Sl Su] [Dl Du].
  assert (E : (s / (X + 1) * (X + 1) == s)%Q) by (field; lra).
  assert (Dl' : ((1 - u64) * (s / (X + 1)) * (X + 1) <= a' * (X + 1))%Q)
    by (apply Qmult_le_compat_r; lra).
  assert (Du' : (a' * (X + 1) <= (1 + u64) * (s / (X + 1)) * (X + 1))%Q)
    by (apply Qmult_le_compat_r; lra).
  clear Dl Du. revert E Dl' Du'. generalize (s / (X + 1))%Q. intros D E Dl Du.
  assert (XT0 : (0 <= X * T)%Q) by (apply Qmult_le_0_compat; assumption).
  assert (XT1 : (X * T <= 562949953421312 * T)%Q) by (apply Qmult_le_compat_r; assumption).
  assert (Xl0 : (0 <= X * l)%Q) by (apply Qmult_le_0_compat; assumption).
  unfold u64 in *. split; lra.
Qed.

Lemma inject_Z_range (z lo hi : Z) :
  lo <= z <= hi -> (inject_Z lo <= inject_Z z /\ inject_Z z <= inject_Z hi)%Q.
Proof. intros [H1 H2]. split; rewrite <- Zle_Qle; assumption. Qed.

Lemma integer_cases (z hi : Z) :
  0 <= z <= hi -> (inject_Z z == 0 \/ (1 <= inject_Z z /\ inject_Z z <= inject_Z hi))%Q.
Proof.
  intros Hz. destruct (Z.eq_dec z 0) as [E | E]; [left; rewrite E; reflexivity | right].
  change 1%Q with (inject_Z 1). apply inject_Z_range. lia.
Qed.

(** One update of the average in binary64. *)
Lemma folded_near (a : float) (n l T : Z) (qa : Q) :
  0 <= n < 2 ^ 49 -> 0 <= l < 2 ^ 53 -> 0 <= T <= n * 2 ^ 53 ->
  float_is a qa -> (T = 0 -> (qa == 0)%Q) ->
  ((1 - 3 * inject_Z n * u64) * inject_Z T <= inject_Z n * qa /\
   inject_Z n * qa <= (1 + 4 * inject_Z n * u64) * inject_Z T)%Q ->
  exists qa',
    float_is (folded a n l) qa' /\ (T + l = 0 -> (qa' == 0)%Q) /\
    ((1 - 3 * inject_Z (n + 1) * u64) * inject_Z (T + l) <= inject_Z (n + 1) * qa' /\
     inject_Z (n + 1) * qa' <= (1 + 4 * inject_Z (n + 1) * u64) * inject_Z (T + l))%Q.
Proof.
  intros Hn Hl HT Fa Hzero [Il Iu].
  change (2 ^ 49) with 562949953421312 in *. change (2 ^ 53) with 9007199254740992 in *.
  unfold folded. cbn [div add mul of_Z Number_binary64].
  replace (n + 1 - 1) with n by lia.
  pose proof (float_of_Z_exact n ltac:(change (2 ^ 53) with 9007199254740992; lia)) as Fn.
  pose proof (float_of_Z_exact l ltac:(change (2 ^ 53) with 9007199254740992; lia)) as Fl.
  pose proof (float_of_Z_exact (n + 1) ltac:(change (2 ^ 53) with 9007199254740992; lia))
    as Fn1.
  rewrite (inject_Z_plus n 1) in Fn1.
  pose proof (float_is_nonneg _ _ Fa) as Hqa.
  (* the integers as rationals *)
  pose proof (integer_cases n 562949953421312 ltac:(lia)) as Cn.
  pose proof (integer_cases l 9007199254740992 ltac:(lia)) as Cl.
  pose proof (inject_Z_range n 0 562949953421312 ltac:(lia)) as Rn.
  pose proof (inject_Z_range l 0 9007199254740992 ltac:(lia)) as Rl.
  pose proof (inject_Z_range T 0 (n * 9007199254740992) ltac:(lia)) as RT.
  rewrite inject_Z_mult in RT.
  pose proof (integer_cases T (n * 9007199254740992) ltac:(lia)) as CT.
  assert (HzeroQ : (inject_Z T == 0 -> qa == 0)%Q).
  { intros E. apply Hzero. unfold Qeq in E. cbn in E. lia. }
  assert (HsumQ : T + l = 0 -> (inject_Z T == 0 /\ inject_Z l == 0)%Q).
  { intros E. replace T with 0 by lia. replace l with 0 by lia. split; reflexivity. }
  clear Hzero.
  rewrite (inject_Z_plus n 1), (inject_Z_plus T l).
  change (inject_Z 1) with 1%Q in *. change (inject_Z 0) with 0%Q in *.
  change (inject_Z 562949953421312) with 562949953421312%Q in *.
  change (inject_Z 9007199254740992) with 9007199254740992%Q in *.
  revert Fn Fl Fn1 Cn Cl Rn Rl RT CT Il Iu HzeroQ HsumQ.
  generalize (inject_Z n) (inject_Z l) (inject_Z T). intros X Lq Tq.
  intros Fn Fl Fn1 Cn Cl [HX0 HX1] [HL0 HL1] [HT0 HT1] CT Il Iu HzeroQ HsumQ.
  assert (Hprod : (0 <= X * qa)%Q) by (apply Qmult_le_0_compat; assumption).
  assert (XT1 : (X * Tq <= 562949953421312 * Tq)%Q) by (apply Qmult_le_compat_r; assumption).
  assert (XX : (X * X <= 562949953421312 * X)%Q) by (apply Qmult_le_compat_r; assumption).
  (* the average, and [n] times the average *)
  assert (Cqa : (qa == 0 \/ ((1 # 1125899906842624) <= qa /\ qa <= 18014398509481984))%Q
                /\ (qa * X == 0 \/ ((1 # 2) <= qa * X /\
                                    qa * X <= 10141204801825835211973625643008))%Q).
  { destruct CT as [CT | [CT1 CT2]].
    - pose proof (HzeroQ CT) as Hq0. split; left; [exact Hq0 | rewrite Hq0; ring].
    - assert (HX : (1 <= X)%Q).
      { destruct Cn as [Cn | [Cn _]]; [| exact Cn]. rewrite Cn in HT1. lra. }
      assert (Hlow : ((13 # 16) <= X * qa)%Q) by (unfold u64 in Il; lra).
      assert (Hup : (X * qa <= X * 11258999068426240)%Q) by (unfold u64 in Iu; lra).
      assert (Hqa1 : (qa <= 11258999068426240)%Q) by (apply (Qmult_le_l _ _ X); lra).
      assert (Hqa2 : (X * qa <= 562949953421312 * qa)%Q)
        by (apply Qmult_le_compat_r; assumption).
      split; right; split; try lra. }
  destruct Cqa as [Cqa Cp].
  destruct (mul_near a (float_of_Z n) qa X Fa Fn) as (p & Fp & Hp).
  { apply moderate_cases. destruct Cqa as [? | [? ?]]; [left; assumption | right; lra]. }
  { apply moderate_cases. destruct Cn as [? | [? ?]]; [left; assumption | right; lra]. }
  pose proof (rounded_cases _ _ _ _ Hp Cp ltac:(lra)) as Cp'.
  pose proof (float_is_nonneg _ _ Fp) as Hp0.
  destruct (add_near _ (float_of_Z l) p Lq Fp Fl) as (s & Fs & Hs).
  { apply moderate_cases. destruct Cp' as [? | [? ?]]; [left; assumption | right; lra]. }
  { apply moderate_cases. destruct Cl as [? | [? ?]]; [left; assumption | right; lra]. }
  assert (Cs : (p + Lq == 0 \/ ((1 # 4) <= p + Lq /\
                                p + Lq <= 40564819207303340847894502572032))%Q).
  { destruct Cp' as [Ep | [? ?]], Cl as [El | [? ?]]; [left; rewrite Ep, El; ring | right ..];
      try rewrite Ep; try rewrite El; lra. }
  pose proof (rounded_cases _ _ _ _ Hs Cs ltac:(lra)) as Cs'.
  destruct (div_near _ (float_of_Z (n + 1)) s (X + 1) Fs Fn1) as (a' & Fa' & Ha').
  { apply moderate_cases. destruct Cs' as [? | [? ?]]; [left; assumption | right; lra]. }
  { apply moderate_cases. right. lra. }
  { lra. }
  exists a'. split; [exact Fa' |].
  pose proof (fold_bounds X Tq Lq qa p s a' (conj HX0 HX1) HT0 HL0 (conj Il Iu) Hp Hs Ha')
    as [Bl Bu].
  split; [| split; assumption].
  intros Hsum. destruct (HsumQ Hsum) as [ET EL].
  pose proof (float_is_nonneg _ _ Fa') as Ha0.
  assert (Hxa : (0 <= X * a')%Q) by (apply Qmult_le_0_compat; assumption).
  rewrite ET, EL in Bu. lra.
Qed.

(** The updates of a run, one after the other: [T] is the sum of the
    response times so far. *)
Lemma run_average_binary64 es : forall (w : world (connector float)) (T : Z) (qa : Q),
  0 <= successfulFetches (metrics_of (this w)) ->
  successfulFetches (metrics_of (this w)) + Z.of_nat (length (latencies es w)) <= 2 ^ 49 ->
  Forall (fun l => 0 <= l < 2 ^ 53) (latencies es w) ->
  0 <= T <= successfulFetches (metrics_of (this w)) * 2 ^ 53 ->
  float_is (avgResponseTime (metrics_of (this w))) qa ->
  (T = 0 -> (qa == 0)%Q) ->
  ((1 - 3 * inject_Z (successfulFetches (metrics_of (this w))) * u64) * inject_Z T
   <= inject_Z (successfulFetches (metrics_of (this w))) * qa /\
   inject_Z (successfulFetches (metrics_of (this w))) * qa
   <= (1 + 4 * inject_Z (successfulFetches (metrics_of (this w))) * u64) * inject_Z T)%Q ->
  let w' := run es w in
  let T' := T + fold_right Z.add 0 (latencies es w) in
  successfulFetches (metrics_of (this w')) =
    successfulFetches (metrics_of (this w)) + Z.of_nat (length (latencies es w)) /\
  exists qa',
    float_is (avgResponseTime (metrics_of (this w'))) qa' /\
    (T' = 0 -> (qa' == 0)%Q) /\
    ((1 - 3 * inject_Z (successfulFetches (metrics_of (this w'))) * u64) * inject_Z T'
     <= inject_Z (successfulFetches (metrics_of (this w'))) * qa' /\
     inject_Z (successfulFetches (metrics_of (this w'))) * qa'
     <= (1 + 4 * inject_Z (successfulFetches (metrics_of (this w'))) * u64) * inject_Z T')%Q.
Proof.
  induction es as [|e es IH]; intros w T qa Hk Hlen Hall HT Fa Hzero Hb.
  - cbn. rewrite !Z.add_0_r. split; [reflexivity |]. exists qa. auto.
  - cbn [run fold_left latencies] in *. fold (run es (step e w)).
    pose proof (step_average e w) as Hstep. cbn zeta in Hstep.
    destruct (latency_of e w) as [l|]; destruct Hstep as [Hcount Havg].
    + cbn [length fold_right] in *. apply Forall_cons_iff in Hall as [Hl Hall].
      destruct (folded_near (avgResponseTime (metrics_of (this w)))
                  (successfulFetches (metrics_of (this w))) l T qa)
        as (qa1 & Fa1 & Hzero1 & Hb1); try assumption.
      { lia. }
      rewrite <- Havg, <- Hcount in *.
      destruct (IH (step e w) (T + l) qa1) as [Hc Hex]; try assumption.
      * lia.
      * lia.
      * lia.
      * cbn zeta in *. split; [rewrite Hc, Hcount; lia |].
        replace (T + (l + fold_right Z.add 0 (latencies es (step e w))))
          with (T + l + fold_right Z.add 0 (latencies es (step e w))) by lia.
        exact Hex.
    + rewrite <- Havg, <- Hcount in *.
      destruct (IH (step e w) T qa) as [Hc Hex]; try assumption.
      cbn zeta in *. split; [exact Hc | exact Hex].
Qed.

(** The run of a connector does not depend on the arithmetic, the average
    apart: the same events give the same successful fetches with the same
    response times. *)
Section TwoArithmetics.
Context {A B : Type} {NA : Number A} {NB : Number B}.

Lemma step_outline e (w1 : world (connector A)) (w2 : world (connector B)) :
  outline (this w1) = outline (this w2) -> rt w1 = rt w2 ->
  outline (this (step e w1)) = outline (this (step e w2)) /\
  rt (step e w1) = rt (step e w2) /\
  latency_of e w1 = latency_of e w2.
Proof.
  destruct w1 as [[cfg1 run1 rc1 open1 lp1 ls1 pt1 bt1 [tot1 suc1 fl1 avg1 lf1]] r1].
  destruct w2 as [[cfg2 run2 rc2 open2 lp2 ls2 pt2 bt2 [tot2 suc2 fl2 avg2 lf2]] r2].
  unfold outline. cbn [this rt config_of isRunning retryCount circuitBreakerOpen lastPollTime
    lastSuccessTime pollTimer circuitBreakerTimer metrics_of totalFetches successfulFetches
    failedFetches lastFetchTime].
  intros E Er. injection E as -> -> -> -> -> -> -> -> -> -> -> ->. subst r2.
  destruct e as [ | | | | i outcome | ].
  - run_methods. destruct run2, open2; cbn; auto.
  - run_methods. destruct run2, pt2, bt2; cbn; auto.
  - cbn [step pollTimer this]. destruct pt2; [| cbn; auto].
    run_methods. destruct run2, open2; cbn; auto.
  - cbn [step circuitBreakerTimer this]. destruct bt2; [| cbn; auto].
    run_methods. destruct open2; cbn; auto.
  - unfold step, settle, latency_of. cbn [rt this]. destruct (awaiting r1 !! i) as [t0|] eqn:Hi.
    + destruct outcome as [d | err]; run_methods.
      * destruct open2, bt2, (truthy d), run2; cbn; auto.
      * destruct open2, (maxRetries cfg2 <=? rc2 + 1), run2; cbn; auto.
    + destruct outcome; cbn; auto.
  - run_methods. auto.
Qed.

Lemma latencies_outline es : forall (w1 : world (connector A)) (w2 : world (connector B)),
  outline (this w1) = outline (this w2) -> rt w1 = rt w2 ->
  latencies es w1 = latencies es w2.
Proof.
  induction es as [|e es IH]; intros w1 w2 Ho Hr; [reflexivity |].
  cbn [latencies]. destruct (step_outline e w1 w2 Ho Hr) as (Ho' & Hr' & Hl).
  rewrite Hl, (IH _ _ Ho' Hr'). reflexivity.
Qed.

End TwoArithmetics.

Lemma sum_nonneg (L : list Z) :
  Forall (fun l => 0 <= l < 2 ^ 53) L ->
  0 <= fold_right Z.add 0 L <= Z.of_nat (length L) * 2 ^ 53.
Proof.
  induction 1 as [| l L Hl _ IH]; cbn [fold_right length]; [lia |].
  rewrite Nat2Z.inj_succ. lia.
Qed.

(** C6.  The average response time is the mean of the response times of
    the successful fetches.  A connector is run from its construction
    through any events [es]: fetches that succeed or fail, cycles skipped
    at the open breaker, stops and restarts.  [L] is the list of the
    response times [L1 .. LN] of its [N >= 1] successful fetches.

    - In exact arithmetic (the numbers of the program read as rationals)
      the run has the same successful fetches, and the stored
      [avgResponseTime] equals [(L1 + ... + LN) / N]; a successful fetch
      changes the average by the incremental update
      [avg + (latency - avg) / successCount], and nothing else changes it.
    - In binary64, the arithmetic of the program, the stored
      [avgResponseTime] is a finite number [q >= 0] that differs from the
      mean by the rounding of the operations that computed it, at most
      [4 N 2^-53] times the mean.

    In both, the count of successful fetches is [N].  A response time is
    the difference of two readings of the clock; the statement is for
    response times that are not negative and below [2^53], and for at most
    [2^49] successful fetches. *)
Theorem average_is_the_mean_within_rounding cfg r es :
  let wq : world (connector Q) := {| this := constructor cfg; rt := r |} in
  let wf : world (connector float) := {| this := constructor cfg; rt := r |} in
  let L := latencies es wf in
  let N := Z.of_nat (length L) in
  L <> [] ->
  Forall (fun l => 0 <= l < 2 ^ 53) L ->
  N <= 2 ^ 49 ->
  (latencies es wq = L /\
   successfulFetches (metrics_of (this (run es wq))) = N /\
   Qeq (avgResponseTime (metrics_of (this (run es wq)))) (mean L) /\
   forall e (w : world (connector Q)),
     0 <= successfulFetches (metrics_of (this w)) ->
     match latency_of e w with
     | Some l =>
         Qeq (avgResponseTime (metrics_of (this (step e w))))
             (avgResponseTime (metrics_of (this w))
              + (inject_Z l - avgResponseTime (metrics_of (this w)))
                / inject_Z (successfulFetches (metrics_of (this (step e w)))))
     | None =>
         avgResponseTime (metrics_of (this (step e w)))
         = avgResponseTime (metrics_of (this w))
     end) /\
  (successfulFetches (metrics_of (this (run es wf))) = N /\
   exists q : Q,
     float_is (avgResponseTime (metrics_of (this (run es wf)))) q /\
     ((1 - 4 * inject_Z N * u64) * mean L <= q /\
      q <= (1 + 4 * inject_Z N * u64) * mean L)%Q).
Proof.
  intros wq wf L N HL Hall HN.
  assert (EL : latencies es wq = L) by (apply latencies_outline; reflexivity).
  split.
  - pose proof (average_is_the_mean_in_exact_arithmetic cfg r es) as HQ.
    cbn zeta in HQ. fold wq in HQ. rewrite EL in HQ.
    destruct (HQ HL) as (Qc & Qa & Qi). auto.
  - destruct (run_average_binary64 es wf 0 0) as [Fc (q & Fq & _ & Fl & Fu)].
    + cbn. lia.
    + cbn. exact HN.
    + exact Hall.
    + cbn. lia.
    + cbn. apply (float_of_Z_exact 0). lia.
    + reflexivity.
    + cbn [this metrics_of constructor successfulFetches]. change (inject_Z 0) with 0%Q.
      unfold u64. split; lra.
    + fold L in Fc, Fl, Fu. cbn [this metrics_of constructor successfulFetches] in Fc.
      fold N in Fc. rewrite Fc in Fl, Fu.
      rewrite !Z.add_0_l in *.
      split; [exact Fc |]. exists q. split; [exact Fq |].
      unfold mean. cbn [div of_Z Number_Q]. fold N.
      pose proof (sum_nonneg L Hall) as [HS _].
      assert (HN1 : 1 <= N) by (unfold N; destruct L; [congruence | cbn [length]; lia]).
      assert (HNq : (1 <= inject_Z N)%Q) by (change 1%Q with (inject_Z 1); now rewrite <- Zle_Qle).
      assert (HSq : (0 <= inject_Z (fold_right Z.add 0%Z L))%Q)
        by (change 0%Q with (inject_Z 0); now rewrite <- Zle_Qle).
      revert Fl Fu HNq HSq.
      generalize (inject_Z (fold_right Z.add 0 L)) (inject_Z N). intros S X Fl Fu HX HS'.
      assert (EM : (S == X * (S / X))%Q) by (field; lra).
      assert (HM : (0 <= S / X)%Q).
      { apply Qle_shift_div_l; lra. }
      revert EM HM. generalize (S / X)%Q. intros M EM HM.
      rewrite EM in Fl, Fu.
      assert (HXM : (0 <= X * M)%Q) by (apply Qmult_le_0_compat; lra).
      assert (Low : (X * ((1 - 3 * X * u64) * M) <= X * q)%Q) by lra.
      assert (Upp : (X * q <= X * ((1 + 4 * X * u64) * M))%Q) by lra.
      apply Qmult_le_l in Low; [| lra]. apply Qmult_le_l in Upp; [| lra].
      unfold u64 in *. split; lra.
Qed.

Lemma average_is_the_mean_within_rounding_witness :
  successfulFetches
    (metrics_of (this (run eight_successes
                           {| this := constructor (num := float) default_config;
                              rt := measuring |}))) = 8 /\
  exists q : Q,
    float_is
      (avgResponseTime
         (metrics_of (this (run eight_successes
                                {| this := constructor (num := float) default_config;
                                   rt := measuring |})))) q /\
    ((1 - 32 * u64) * 121 <= q /\ q <= (1 + 32 * u64) * 121)%Q.
Proof.
  assert (E : latencies eight_successes
                {| this := constructor (num := float) default_config; rt := measuring |}
              = eight_latencies) by (vm_compute; reflexivity).
  assert (H1 : latencies eight_successes
                 {| this := constructor (num := float) default_config; rt := measuring |}
               <> []) by (rewrite E; discriminate).
  assert (H2 : Forall (fun l => 0 <= l < 2 ^ 53)
                 (latencies eight_successes
                    {| this := constructor (num := float) default_config;
                       rt := measuring |})).
  { rewrite E. unfold eight_latencies. repeat (constructor; [lia |]). constructor. }
  assert (H3 : Z.of_nat (length (latencies eight_successes
                                   {| this := constructor (num := float) default_config;
                                      rt := measuring |})) <= 2 ^ 49).
  { rewrite E. vm_compute. discriminate. }
  destruct (average_is_the_mean_within_rounding
              default_config measuring eight_successes H1 H2 H3)
    as [_ [Hc (q & Hq & Hb)]].
  rewrite E in Hc, Hb.
  split; [exact Hc |]. exists q. split; [exact Hq |].
  assert (EM : (mean eight_latencies == 121)%Q) by (vm_compute; reflexivity).
  rewrite EM in Hb. exact Hb.
Defined.

End AverageProperties.
